(** * Planner service (planner/app.py): a shallow embedding and its properties

    The service is a FastAPI application written in Python.  The embedding
    keeps the dynamic typing of the source: every Python object the code
    inspects is a [value], every operation that can raise returns a [res],
    and the module-level dictionaries ([SESSION_QUEUES], [_SESSIONS]) are
    explicit state.  Library code that the module only calls (the Bedrock
    transport, [json.loads], the [re] engine, [uuid.uuid4]) is a parameter. *)

From Stdlib Require Import ZArith String Ascii List Lia.
From stdpp Require Import base option list gmap.

Set Warnings "-register-all".
Open Scope Z_scope.

(** ** Python strings

    A [str] is a sequence of code points; [len] and slicing count code
    points, so the model is a list of numbers and not a byte string. *)

Abbreviation pystr := (list N).

Definition py (s : string) : pystr := map N_of_ascii (list_ascii_of_string s).

Definition NL : pystr := [10%N].
Definition DQUOTE : pystr := [34%N].
Definition ELLIPSIS : pystr := [8230%N].
Definition CHECK_MARK : pystr := [9989%N].
Definition LDQUO : pystr := [8220%N].
Definition RDQUO : pystr := [8221%N].

(** [len(s)] *)
Definition len {A} (l : list A) : Z := Z.of_nat (length l).

(** [s[:n]] for an integer [n >= 0] (the only slices the module takes) *)
Definition slice_to {A} (n : Z) (l : list A) : list A := take (Z.to_nat n) l.

(** [s[a:b]] for [0 <= a] *)
Definition slice {A} (a b : Z) (l : list A) : list A :=
  take (Z.to_nat (b - a)) (drop (Z.to_nat a) l).

(** [str.isspace] on one code point *)
Definition is_space (c : N) : bool :=
  ((9 <=? c) && (c <=? 13) || (28 <=? c) && (c <=? 32) || (c =? 133) || (c =? 160)
   || (c =? 5760) || (8192 <=? c) && (c <=? 8202) || (c =? 8232) || (c =? 8233)
   || (c =? 8239) || (c =? 8287) || (c =? 12288))%N.

Fixpoint lstrip (s : pystr) : pystr :=
  match s with
  | c :: s' => if is_space c then lstrip s' else s
  | [] => []
  end.

Definition rstrip (s : pystr) : pystr := rev (lstrip (rev s)).
Definition strip (s : pystr) : pystr := rstrip (lstrip s).

Fixpoint starts_with (p s : pystr) : bool :=
  match p, s with
  | [], _ => true
  | a :: p', b :: s' => (a =? b)%N && starts_with p' s'
  | _ :: _, [] => false
  end.

(** [p in s] on two strings *)
Fixpoint contains (p s : pystr) : bool :=
  starts_with p s ||
  match s with
  | [] => false
  | _ :: s' => contains p s'
  end.

(** [s.find(c)] for a one-character [c]: first index, or -1 *)
Fixpoint find_from (i : Z) (c : N) (s : pystr) : Z :=
  match s with
  | [] => -1
  | x :: s' => if (x =? c)%N then i else find_from (i + 1) c s'
  end.
Definition find (c : N) (s : pystr) : Z := find_from 0 c s.

(** [s.rfind(c)]: last index, or -1 *)
Fixpoint rfind_from (i : Z) (c : N) (s : pystr) (last : Z) : Z :=
  match s with
  | [] => last
  | x :: s' => rfind_from (i + 1) c s' (if (x =? c)%N then i else last)
  end.
Definition rfind (c : N) (s : pystr) : Z := rfind_from 0 c s (-1).

(** [sep.join(l)] on strings *)
Fixpoint join (sep : pystr) (l : list pystr) : pystr :=
  match l with
  | [] => []
  | [x] => x
  | x :: l' => x ++ sep ++ join sep l'
  end.

(** [s.replace(c, new)] for a one-character [c] *)
Definition replace1 (c : N) (new : pystr) (s : pystr) : pystr :=
  flat_map (fun x => if (x =? c)%N then new else [x]) s.

(** [str(n)] for a count [n >= 0] *)
Fixpoint digits (fuel : nat) (n : N) (acc : pystr) : pystr :=
  match fuel with
  | O => acc
  | S fuel' =>
      let acc' := (48 + n mod 10)%N :: acc in
      if (n <? 10)%N then acc' else digits fuel' (n / 10)%N acc'
  end.
Definition str_of_nat (n : nat) : pystr := digits (S n) (N.of_nat n) [].

(** ** Python objects and exceptions

    [VFloat m e] is the float literal m * 10^e; [VStream evs f] is the
    event iterator of a streamed response: it yields [evs] and then
    stops, or raises [f] (a transport failure or the deadline).

    The exceptions the module can meet carry what [str(e)] shows of them:
    [KeyError] its key, the interpreter's other errors and the transport's
    their message (the gateway inspects the transport's), an
    [HTTPException] its status and detail. *)

Inductive value : Type :=
| VNone
| VBool (b : bool)
| VInt (n : Z)
| VFloat (m e : Z)
| VStr (s : pystr)
| VList (l : list value)
| VDict (items : list (pystr * value))
| VStream (events : list value) (failure : option exn)
with exn : Type :=
| KeyError (key : pystr)
| TypeError (msg : pystr)
| AttributeError (msg : pystr)
| ParamValidationError (msg : pystr)
| OtherError (msg : pystr)
| HTTPException (status : Z) (detail : pystr).

(** [str(e)]: a [KeyError] shows the [repr] of its key (the keys of this
    module are plain words), an [HTTPException] its status and its
    detail. *)
Definition exn_str (e : exn) : pystr :=
  match e with
  | KeyError k => py "'" ++ k ++ py "'"
  | TypeError m | AttributeError m | ParamValidationError m | OtherError m => m
  | HTTPException status d => str_of_nat (Z.to_nat status) ++ py ": " ++ d
  end.

(** [type(v).__name__]; the event iterator of the transport is botocore's
    [EventStream]. *)
Definition type_name (v : value) : pystr :=
  match v with
  | VNone => py "NoneType"
  | VBool _ => py "bool"
  | VInt _ => py "int"
  | VFloat _ _ => py "float"
  | VStr _ => py "str"
  | VList _ => py "list"
  | VDict _ => py "dict"
  | VStream _ _ => py "EventStream"
  end.

(** The interpreter's errors with their messages, as CPython 3.11 words
    them: [v.name] on an object without that attribute, [v[k]] for a
    string [k], [k in v], iterating [v], [len(v)], [v[:n]], [s + v] and
    an item of [sep.join(l)] that is no string. *)
Definition no_attribute (v : value) (name : string) : exn :=
  AttributeError (py "'" ++ type_name v ++ py "' object has no attribute '" ++ py name
                  ++ py "'").

Definition not_subscriptable (v : value) : exn :=
  TypeError (py "'" ++ type_name v ++ py "' object is not subscriptable").

Definition no_string_index (v : value) : exn :=
  match v with
  | VStr _ => TypeError (py "string indices must be integers, not 'str'")
  | VList _ => TypeError (py "list indices must be integers or slices, not str")
  | _ => not_subscriptable v
  end.

Definition not_a_container (v : value) : exn :=
  TypeError (py "argument of type '" ++ type_name v ++ py "' is not iterable").

Definition not_iterable (v : value) : exn :=
  TypeError (py "'" ++ type_name v ++ py "' object is not iterable").

Definition no_len (v : value) : exn :=
  TypeError (py "object of type '" ++ type_name v ++ py "' has no len()").

Definition no_slice (v : value) : exn :=
  match v with
  | VDict _ => TypeError (py "unhashable type: 'slice'")
  | _ => not_subscriptable v
  end.

Definition no_concat (v : value) : exn :=
  TypeError (py "can only concatenate str (not " ++ DQUOTE ++ type_name v ++ DQUOTE
             ++ py ") to str").

Definition no_str_item (i : nat) (v : value) : exn :=
  TypeError (py "sequence item " ++ str_of_nat i ++ py ": expected str instance, "
             ++ type_name v ++ py " found").

Inductive res (A : Type) : Type :=
| Ok (a : A)
| Raise (e : exn).
Arguments Ok {A} a.
Arguments Raise {A} e.

#[global] Instance res_ret : MRet res := fun _ a => Ok a.
#[global] Instance res_bind : MBind res := fun _ _ f m =>
  match m with
  | Ok a => f a
  | Raise e => Raise e
  end.

(** [bool(v)] *)
Definition truthy (v : value) : bool :=
  match v with
  | VNone => false
  | VBool b => b
  | VInt n => negb (n =? 0)
  | VFloat m _ => negb (m =? 0)
  | VStream _ _ => true
  | VStr s => negb (bool_decide (s = []))
  | VList l => match l with [] => false | _ => true end
  | VDict d => match d with [] => false | _ => true end
  end.

(** A [dict] is its list of items in insertion order; a key is looked up
    from the front. *)
Fixpoint lookup_key (k : pystr) (items : list (pystr * value)) : option value :=
  match items with
  | [] => None
  | (k', v) :: rest => if bool_decide (k' = k) then Some v else lookup_key k rest
  end.

(** [d.pop(k, None)] *)
Definition remove_key (k : pystr) (items : list (pystr * value)) : list (pystr * value) :=
  filter (fun kv => kv.1 ≠ k) items.

(** [v.get(k, d)] *)
Definition get_default (v : value) (k : pystr) (d : value) : res value :=
  match v with
  | VDict items => Ok (default d (lookup_key k items))
  | _ => Raise (no_attribute v "get")
  end.

(** [v.get(k)] *)
Definition get (v : value) (k : pystr) : res value := get_default v k VNone.

(** [v[k]] for a string [k] *)
Definition index (v : value) (k : pystr) : res value :=
  match v with
  | VDict items =>
      match lookup_key k items with
      | Some x => Ok x
      | None => Raise (KeyError k)
      end
  | _ => Raise (no_string_index v)
  end.

Definition is_str (k : pystr) (v : value) : bool :=
  match v with
  | VStr s => bool_decide (s = k)
  | _ => false
  end.

(** [k in v] for a string [k] *)
Definition has (k : pystr) (v : value) : res bool :=
  match v with
  | VDict items => Ok (bool_decide (is_Some (lookup_key k items)))
  | VStr s => Ok (contains k s)
  | VList l => Ok (existsb (is_str k) l)
  | _ => Raise (not_a_container v)
  end.

(** [isinstance(v, dict)] *)
Definition is_dict (v : value) : bool :=
  match v with VDict _ => true | _ => false end.

(** Iterating a value in a [for] loop or a comprehension: the items it
    yields, and the exception that ends the iteration, if any. *)
Definition iter (v : value) : list value * option exn :=
  match v with
  | VList l => (l, None)
  | VDict items => (map (fun kv => VStr kv.1) items, None)
  | VStr s => (map (fun c => VStr [c]) s, None)
  | VStream evs f => (evs, f)
  | _ => ([], Some (not_iterable v))
  end.

(** [len(v)] *)
Definition py_len (v : value) : res Z :=
  match v with
  | VStr s => Ok (len s)
  | VList l => Ok (len l)
  | VDict d => Ok (len d)
  | _ => Raise (no_len v)
  end.

(** [v[:n]]; a dictionary has no slices *)
Definition py_slice_to (n : Z) (v : value) : res value :=
  match v with
  | VStr s => Ok (VStr (slice_to n s))
  | VList l => Ok (VList (slice_to n l))
  | _ => Raise (no_slice v)
  end.

(** [s + v] for a string [s] *)
Definition str_add (s : pystr) (v : value) : res pystr :=
  match v with
  | VStr t => Ok (s ++ t)
  | _ => Raise (no_concat v)
  end.

(** [sep.join(l)] on arbitrary items: every item has to be a string;
    [i] is the position of the head of [l] in the sequence joined. *)
Fixpoint join_from (i : nat) (sep : pystr) (l : list value) : res pystr :=
  match l with
  | [] => Ok []
  | VStr x :: l' =>
      match l' with
      | [] => Ok x
      | _ => rest ← join_from (S i) sep l'; Ok (x ++ sep ++ rest)
      end
  | v :: _ => Raise (no_str_item i v)
  end.

Definition join_values (sep : pystr) (l : list value) : res pystr := join_from 0 sep l.

(** ** Stateful code: a state monad with exceptions

    A raised exception keeps the state reached so far, as a mutation made
    before a Python exception does. *)

Definition M (S A : Type) : Type := S -> res A * S.

#[global] Instance M_ret {S} : MRet (M S) := fun _ a s => (Ok a, s).
#[global] Instance M_bind {S} : MBind (M S) := fun _ _ f m s =>
  match m s with
  | (Ok a, s') => f a s'
  | (Raise e, s') => (Raise e, s')
  end.

Definition lift {S A} (r : res A) : M S A := fun s => (r, s).
Definition raise {S A} (e : exn) : M S A := fun s => (Raise e, s).
Definition modify {S} (f : S -> S) : M S unit := fun s => (Ok tt, f s).
Definition gets {S A} (f : S -> A) : M S A := fun s => (Ok (f s), s).

(** [try: m / except Exception as e: h e] *)
Definition try_except {S A} (m : M S A) (h : exn -> M S A) : M S A := fun s =>
  match m s with
  | (Ok a, s') => (Ok a, s')
  | (Raise e, s') => h e s'
  end.

(** [for x in it: body x], where [it] is what [iter] gave *)
Fixpoint for_items {S} (items : list value) (body : value -> M S unit) : M S unit :=
  match items with
  | [] => mret tt
  | x :: rest => body x ;; for_items rest body
  end.

Definition for_each {S} (it : list value * option exn) (body : value -> M S unit) : M S unit :=
  for_items it.1 body ;;
  match it.2 with
  | None => mret tt
  | Some e => raise e
  end.

Definition when {S} (b : bool) (m : M S unit) : M S unit :=
  if b then m else mret tt.

(** ** Trace bus (SSE)

    [SESSION_QUEUES] maps a session id to a queue object.  Queue objects
    live in a store and are named by their address, because a subscriber
    keeps the queue it was given even after the registry forgot it. *)

Abbreviation event := (pystr * value)%type.

Record bus : Type := {
  SESSION_QUEUES : gmap pystr nat;
  queues : list (list event)
}.

Definition empty_bus : bus := {| SESSION_QUEUES := ∅; queues := [] |}.

Definition _get_queue (session_id : pystr) (b : bus) : nat * bus :=
  match SESSION_QUEUES b !! session_id with
  | Some q => (q, b)
  | None =>
      let q := length (queues b) in
      (q, {| SESSION_QUEUES := <[session_id := q]> (SESSION_QUEUES b);
             queues := queues b ++ [[]] |})
  end.

(** [q.put_nowait(item)] on an unbounded queue *)
Definition put_nowait (q : nat) (item : event) (b : bus) : bus :=
  {| SESSION_QUEUES := SESSION_QUEUES b;
     queues := alter (fun l => l ++ [item]) q (queues b) |}.

Definition trace (session_id kind : pystr) (payload : value) (b : bus) : bus :=
  let '(q, b') := _get_queue session_id b in
  put_nowait q (kind, payload) b'.

(** What the generator of [trace_stream] yields: the greeting, a named
    event taken from the queue, or the keepalive comment sent when
    [q.get()] timed out on an empty queue. *)
Inductive sse : Type :=
| Hello
| Event (kind : pystr) (payload : value)
| Keepalive.

(** Where the generator stands: not started; suspended at the greeting,
    which it yields before it enters its [try] block; suspended at a
    [yield] inside the loop; or finished. *)
Inductive gen_state : Type := Created | Greeted | Running | Closed.

(** A subscriber is the generator object [gen()] with the variables it
    closes over. *)
Record subscriber : Type := {
  sub_session : pystr;
  sub_queue : nat;
  sub_state : gen_state
}.

(** [trace_stream(session_id)]: the queue is fetched when the endpoint is
    called; the body of [gen] runs only when the response is iterated. *)
Definition trace_stream (session_id : pystr) (b : bus) : subscriber * bus :=
  let '(q, b') := _get_queue session_id b in
  ({| sub_session := session_id; sub_queue := q; sub_state := Created |}, b').

(** One pass of the loop, up to its [yield]: an event taken from the
    queue, or the keepalive after [q.get()] timed out on an empty queue. *)
Definition loop_pass (s : subscriber) (b : bus) : option sse * subscriber * bus :=
  match queues b !! sub_queue s with
  | Some ((kind, payload) :: rest) =>
      (Some (Event kind payload), s,
       {| SESSION_QUEUES := SESSION_QUEUES b;
          queues := <[sub_queue s := rest]> (queues b) |})
  | _ => (Some Keepalive, s, b)
  end.

(** One [next()] on the generator. *)
Definition gen_next (s : subscriber) (b : bus) : option sse * subscriber * bus :=
  match sub_state s with
  | Created =>
      (Some Hello,
       {| sub_session := sub_session s; sub_queue := sub_queue s; sub_state := Greeted |}, b)
  | Greeted =>
      loop_pass
        {| sub_session := sub_session s; sub_queue := sub_queue s; sub_state := Running |} b
  | Running => loop_pass s b
  | Closed => (None, s, b)
  end.

(** Closing the suspended generator (client disconnect, error).  The
    [finally] block runs only when the generator is suspended inside the
    [try] block, that is at a [yield] of the loop: a generator closed
    before it started, or at the greeting, runs no code and leaves the
    registry as it is. *)
Definition gen_close (s : subscriber) (b : bus) : subscriber * bus :=
  let s' := {| sub_session := sub_session s; sub_queue := sub_queue s; sub_state := Closed |} in
  match sub_state s with
  | Running =>
      (s', {| SESSION_QUEUES := delete (sub_session s) (SESSION_QUEUES b);
              queues := queues b |})
  | _ => (s', b)
  end.

(** The first [n] items a subscriber receives when nothing else runs in
    between. *)
Fixpoint gen_take (n : nat) (s : subscriber) (b : bus) : list sse * subscriber * bus :=
  match n with
  | O => ([], s, b)
  | S n' =>
      match gen_next s b with
      | (Some x, s', b') =>
          let '(xs, s'', b'') := gen_take n' s' b' in (x :: xs, s'', b'')
      | (None, s', b') => ([], s', b')
      end
  end.

(** [trace] called once per event, in order *)
Definition trace_all (session_id : pystr) (evs : list event) (b : bus) : bus :=
  fold_left (fun b ev => trace session_id ev.1 ev.2 b) evs b.

(** [trace_push]: the body of the POST /trace/push endpoint *)
Definition trace_push (session_id kind : pystr) (payload : value) (b : bus) : value * bus :=
  let '(_, b1) := _get_queue session_id b in
  (VDict [(py "ok", VBool true)], trace session_id kind payload b1).

(** ** What the module takes from its libraries and its configuration *)

Record library : Type := {
  (** [json.loads] *)
  json_loads : pystr -> res value;
  (** [re.search(pattern, s, flags)]: the groups 0, 1, ... of the match *)
  re_search : pystr -> Z -> pystr -> option (list pystr);
  (** [re.sub(pattern, repl, s)] *)
  re_sub : pystr -> pystr -> pystr -> pystr;
  (** [str.lower] *)
  str_lower : pystr -> pystr;
  (** [str(uuid.uuid4())], the id drawn for the request at hand *)
  uuid4 : pystr;
  (** [BEDROCK_MODEL_ID] *)
  MODEL_ID : pystr;
  (** what [asyncio.get_event_loop().run_until_complete] raises before it
      runs the coroutine, if it does (no usable loop in the thread) *)
  event_loop : option exn
}.

(** A request is the keyword dictionary [req]; the transport is the boto3
    client, whose answers may depend on its own state and on the network
    ([W]). *)
Abbreviation request := (list (pystr * value)).

Record client (W : Type) : Type := {
  client_converse : request -> M W value;
  client_converse_stream : request -> M W value
}.
Arguments client_converse {W} _ _ _.
Arguments client_converse_stream {W} _ _ _.

(** ** Bedrock helper *)

Definition UNKNOWN_TOOLS_DQ : pystr :=
  py "Unknown parameter in input: " ++ DQUOTE ++ py "tools" ++ DQUOTE.
Definition UNKNOWN_TOOLS_SQ : pystr :=
  py "Unknown parameter in input: 'tools'".

Definition rejects_tools (msg : pystr) : bool :=
  contains UNKNOWN_TOOLS_DQ msg || contains UNKNOWN_TOOLS_SQ msg.

(** [req2 = dict(req); req2.pop("tools", None); req2.pop("toolConfig", None)] *)
Definition without_tools (req : request) : request :=
  remove_key (py "toolConfig") (remove_key (py "tools") req).

Definition _retry_without_tools_if_needed {W} (fn : request -> M W value) (req : request)
  : M W value :=
  fun w =>
    match fn req w with
    | (Raise (ParamValidationError msg), w1) =>
        if rejects_tools msg
        then fn (without_tools req) w1
        else (Raise (ParamValidationError msg), w1)
    | other => other
    end.

Definition nonempty_opt {A} (o : option (list A)) : bool :=
  match o with Some (_ :: _) => true | _ => false end.

Definition opt_truthy (o : option value) : bool :=
  match o with Some v => truthy v | None => false end.

Definition set_if (b : bool) (k : pystr) (v : value) (req : request) : request :=
  if b then req ++ [(k, v)] else req.

Definition base_request (L : library) (system_prompt : option pystr)
    (messages : list value) : request :=
  set_if (nonempty_opt system_prompt) (py "system")
    (VList [VDict [(py "text", VStr (default [] system_prompt))]])
    [(py "modelId", VStr (MODEL_ID L)); (py "messages", VList messages)].

Definition converse {W} (L : library) (C : client W) (system_prompt : option pystr)
    (messages : list value) (tools : option (list value))
    (tool_config inference_config : option value) : M W value :=
  let req := base_request L system_prompt messages in
  let req := set_if (nonempty_opt tools) (py "tools") (VList (default [] tools)) req in
  let req := set_if (opt_truthy tool_config) (py "toolConfig") (default VNone tool_config) req in
  let req := set_if (opt_truthy inference_config) (py "inferenceConfig")
               (default VNone inference_config) req in
  _retry_without_tools_if_needed (client_converse C) req.

Definition converse_stream {W} (L : library) (C : client W) (system_prompt : option pystr)
    (messages : list value) (tools : option (list value))
    (inference_config : option value) : M W value :=
  let req := base_request L system_prompt messages in
  let req := set_if (nonempty_opt tools) (py "tools") (VList (default [] tools)) req in
  let req := set_if (opt_truthy inference_config) (py "inferenceConfig")
               (default VNone inference_config) req in
  _retry_without_tools_if_needed (client_converse_stream C) req.

(** The transport with a journal: every request submitted is recorded. *)
Definition journalled {W} (fn : request -> M W value) : request -> M (W * list request) value :=
  fun req s =>
    let '(r, w') := fn req s.1 in
    (r, (w', s.2 ++ [req])).

(** ** Helpers for planning fallbacks *)

Record _ToolCapture : Type := { actions : list value }.

Definition _ToolCapture__init__ : _ToolCapture := {| actions := [] |}.

(** [absorb] either raises before it touches [self], or returns with
    [self.actions] possibly rebound. *)
Definition absorb (part : value) (self : _ToolCapture) : res _ToolCapture :=
  tu ← get part (py "toolUse");
  if truthy tu then
    inp ← get tu (py "input");
    if is_dict inp then
      inp' ← index tu (py "input");
      acts ← get inp' (py "actions");
      match acts with
      | VList l => Ok {| actions := l |}
      | _ => Ok self
      end
    else Ok self
  else Ok self.

(** [for p in parts: capture.absorb(p)]: the loop stops at the first
    part on which [absorb] raises. *)
Fixpoint absorb_all (parts : list value) (self : _ToolCapture) : res _ToolCapture :=
  match parts with
  | [] => Ok self
  | p :: rest => self' ← absorb p self; absorb_all rest self'
  end.

Definition FILE_HEADER (rel : pystr) : pystr :=
  NL ++ py "--- FILE: " ++ rel ++ py " ---" ++ NL.

(** The loop of [_context_blob]; [chunks] and [used] are its variables. *)
Fixpoint blob_loop (char_budget : Z) (items : list (pystr * value))
    (chunks : list pystr) (used : Z) : res (list pystr) :=
  match items with
  | [] => Ok chunks
  | (rel, src) :: rest =>
      let header := FILE_HEADER rel in
      let take := Z.max 0 (char_budget - used - len header) in
      if take <=? 0 then Ok chunks
      else
        n ← py_len src;
        body ← (if n <=? take then Ok src else py_slice_to take src);
        chunk ← str_add header body;
        m ← py_len body;
        let used := used + len header + m in
        if used >=? char_budget then Ok (chunks ++ [chunk])
        else blob_loop char_budget rest (chunks ++ [chunk]) used
  end.

(** [files.items()] *)
Definition items (v : value) : res (list (pystr * value)) :=
  match v with
  | VDict d => Ok d
  | _ => Raise (no_attribute v "items")
  end.

Definition _context_blob (context : value) (char_budget : Z) : res pystr :=
  if negb (truthy context) then Ok []
  else
    present ← has (py "files") context;
    if negb present then Ok []
    else
      files ← index context (py "files");
      its ← items files;
      chunks ← blob_loop char_budget its [] 0;
      Ok (concat chunks).

Definition DEFAULT_BUDGET : Z := 10000.

(** ** Prompts *)

Definition quoted (s : string) : pystr := DQUOTE ++ py s ++ DQUOTE.

Definition PLANNER_SYSTEM : pystr :=
  py "You are a software planning agent. Prefer the emit_plan tool to return actionable steps. "
  ++ py "Avoid long prose; keep outputs concise.".

Definition CHAT_SYSTEM : pystr :=
  py "You are a helpful, concise engineering assistant. Keep answers brief.".

Definition JSON_PLAN_SYSTEM : pystr :=
  py "You are a code planning agent for a Next.js app. "
  ++ py "Output ONLY strict minified JSON, no prose, no markdown, no comments. "
  ++ py "Schema: {" ++ quoted "actions" ++ py ":[{" ++ quoted "type" ++ py ":"
  ++ quoted "create_file|update_file|delete_file|run_command" ++ py ","
  ++ quoted "path" ++ py "?:string, " ++ quoted "contents" ++ py "?:string, "
  ++ quoted "command" ++ py "?:string}]}. "
  ++ py "Always include full file contents for create/update. "
  ++ py "Prefer updating or creating Next.js routes under app/**/page.tsx so a preview updates. "
  ++ py "If the user asks to 'clear components', remove or simplify components and update app/page.tsx accordingly.".

Definition str_schema : value := VDict [(py "type", VStr (py "string"))].
Definition str_array_schema : value :=
  VDict [(py "type", VStr (py "array")); (py "items", str_schema)].

Definition EMIT_PLAN_TOOL : list value :=
  [VDict [(py "toolSpec", VDict [
     (py "name", VStr (py "emit_plan"));
     (py "description",
      VStr (py "Return a structured plan JSON. May include an 'actions' array with file/command steps."));
     (py "inputSchema", VDict [(py "json", VDict [
        (py "type", VStr (py "object"));
        (py "properties", VDict [
           (py "summary", str_schema);
           (py "steps", str_array_schema);
           (py "assumptions", str_array_schema);
           (py "risks", str_array_schema);
           (py "actions", VDict [
              (py "type", VStr (py "array"));
              (py "items", VDict [
                 (py "type", VStr (py "object"));
                 (py "properties", VDict [
                    (py "type", str_schema); (py "path", str_schema);
                    (py "contents", str_schema); (py "command", str_schema)]);
                 (py "required", VList [VStr (py "type")])])])]);
        (py "required", VList [VStr (py "summary"); VStr (py "steps")])])])])]].

Definition user_message (text : pystr) : value :=
  VDict [(py "role", VStr (py "user"));
         (py "content", VList [VDict [(py "text", VStr text)]])].

Definition assistant_message_turn (text : pystr) : value :=
  VDict [(py "role", VStr (py "assistant"));
         (py "content", VList [VDict [(py "text", VStr text)]])].

Definition TEMPERATURE : value := VDict [(py "temperature", VFloat 2 (-1))].

(** ** The request handlers' state: the transport, the two module-level
    dictionaries, and the variables of [plan_endpoint] that its nested
    function and its handlers share *)

Record state (W : Type) : Type := {
  net : W;
  tbus : bus;
  _SESSIONS : gmap pystr (list value);
  assistant_chunks : list value;
  capture : _ToolCapture
}.
Arguments net {W} _.
Arguments tbus {W} _.
Arguments _SESSIONS {W} _.
Arguments assistant_chunks {W} _.
Arguments capture {W} _.

Definition initial_state {W} (w : W) (b : bus) (h : gmap pystr (list value)) : state W :=
  {| net := w; tbus := b; _SESSIONS := h;
     assistant_chunks := []; capture := _ToolCapture__init__ |}.

Definition call_net {W A} (m : M W A) : M (state W) A := fun σ =>
  let '(r, w') := m (net σ) in
  (r, {| net := w'; tbus := tbus σ; _SESSIONS := _SESSIONS σ;
         assistant_chunks := assistant_chunks σ; capture := capture σ |}).

Definition trace_m {W} (session_id : pystr) (kind : string) (payload : value)
  : M (state W) unit := fun σ =>
  (Ok tt, {| net := net σ; tbus := trace session_id (py kind) payload (tbus σ);
             _SESSIONS := _SESSIONS σ;
             assistant_chunks := assistant_chunks σ; capture := capture σ |}).

Definition append_chunk {W} (t : value) : M (state W) unit := fun σ =>
  (Ok tt, {| net := net σ; tbus := tbus σ; _SESSIONS := _SESSIONS σ;
             assistant_chunks := assistant_chunks σ ++ [t]; capture := capture σ |}).

Definition absorb_m {W} (part : value) : M (state W) unit := fun σ =>
  match absorb part (capture σ) with
  | Ok c => (Ok tt, {| net := net σ; tbus := tbus σ; _SESSIONS := _SESSIONS σ;
                       assistant_chunks := assistant_chunks σ; capture := c |})
  | Raise e => (Raise e, σ)
  end.

Definition set_history {W} (session_id : pystr) (h : list value) : M (state W) unit := fun σ =>
  (Ok tt, {| net := net σ; tbus := tbus σ; _SESSIONS := <[session_id := h]> (_SESSIONS σ);
             assistant_chunks := assistant_chunks σ; capture := capture σ |}).

(** [[p.get("text", "") for p in parts if p.get("text")]] *)
Fixpoint text_items (ps : list value) : res (list value) :=
  match ps with
  | [] => Ok []
  | p :: rest =>
      t ← get p (py "text");
      if truthy t then
        t' ← get_default p (py "text") (VStr []);
        r ← text_items rest;
        Ok (t' :: r)
      else text_items rest
  end.

Definition text_parts (parts : value) : res (list value) :=
  r ← text_items (iter parts).1;
  match (iter parts).2 with
  | None => Ok r
  | Some e => Raise e
  end.

(** [resp.get("output", {}).get("message", {}).get("content", [])] *)
Definition response_parts (resp : value) : res value :=
  out ← get_default resp (py "output") (VDict []);
  msg ← get_default out (py "message") (VDict []);
  get_default msg (py "content") (VList []).

Definition json_error (message : pystr) : value :=
  VDict [(py "where", VStr (py "json_plan")); (py "message", VStr message)].

Definition json_prompt (user_text snapshot : pystr) : pystr :=
  py "User request:" ++ NL ++ user_text ++ NL ++ NL ++ py "Project snapshot:" ++ NL
  ++ snapshot ++ NL ++ NL ++ py "Return ONLY the JSON per schema.".

Definition _json_only_plan {W} (L : library) (C : client W)
    (session_id user_text : pystr) (context : value) : M (state W) (list value) :=
  trace_m session_id "step" (VDict [(py "msg", VStr (py "json-plan.start"))]) ;;
  snapshot ← lift (_context_blob context DEFAULT_BUDGET);
  let messages := [user_message (json_prompt user_text snapshot)] in
  try_except
    (resp ← call_net (converse L C (Some JSON_PLAN_SYSTEM) messages None None (Some TEMPERATURE));
     parts ← lift (response_parts resp);
     texts ← lift (text_parts parts);
     joined ← lift (join_values NL texts);
     let text := strip joined in
     if bool_decide (text = []) then
       trace_m session_id "error" (json_error (py "empty text")) ;; mret []
     else
       let start := find 123 text in
       let end_ := rfind 125 text in
       let text := if (start >=? 0) && (end_ >? start) then slice start (end_ + 1) text else text in
       data ← lift (json_loads L text);
       acts ← lift (get_default data (py "actions") (VList []));
       match acts with
       | VList l =>
           trace_m session_id "step"
             (VDict [(py "msg", VStr (py "json-plan.ok")); (py "count", VInt (len l))]) ;;
           mret l
       | _ =>
           trace_m session_id "error" (json_error (py "no actions key")) ;; mret []
       end)
    (fun e => trace_m session_id "error" (json_error (exn_str e)) ;; mret []).

Definition TSX_HEAD : pystr :=
  py "export default function Page() {" ++ NL
  ++ py "  return (" ++ NL
  ++ py "    <main className=" ++ quoted "min-h-screen grid place-items-center p-10" ++ py ">" ++ NL
  ++ py "      <div className=" ++ quoted "max-w-xl text-center" ++ py ">" ++ NL
  ++ py "        <h1 className=" ++ quoted "text-3xl font-bold mb-3" ++ py ">Applied: ".

Definition TSX_TAIL : pystr :=
  py "</h1>" ++ NL
  ++ py "        <p className=" ++ quoted "text-slate-500"
  ++ py ">This is a minimal update because the model did not return actionable steps.</p>" ++ NL
  ++ py "      </div>" ++ NL
  ++ py "    </main>" ++ NL
  ++ py "  );" ++ NL
  ++ py "}" ++ NL.

Definition LT : N := 60.
Definition GT : N := 62.

Definition safe_text (user_text : pystr) : pystr :=
  replace1 GT (py "&gt;") (replace1 LT (py "&lt;") user_text).

Definition _synthesize_minimal_action (user_text : pystr) : list value :=
  let tsx := TSX_HEAD ++ safe_text user_text ++ TSX_TAIL in
  [VDict [(py "type", VStr (py "update_file"));
          (py "path", VStr (py "app/page.tsx"));
          (py "contents", VStr tsx)]].

(** ** Friendly assistant summaries *)

Definition group (i : nat) (m : list pystr) : pystr := nth i m [].

Definition RE_I_S : Z := 18.

Definition _peek (L : library) (s : pystr) : pystr :=
  if bool_decide (s = []) then []
  else
    let t := re_sub L (py "\s+") (py " ") (strip s) in
    slice_to 60 t ++ (if len t >? 60 then ELLIPSIS else []).

Definition _guess_button_label (L : library) (src : pystr) : option pystr :=
  match re_search L (py "<button[^>]*>([^<]{1,40})</button>") RE_I_S src with
  | Some m => Some (re_sub L (py "\s+") (py " ") (strip (group 1 m)))
  | None => None
  end.

Definition _guess_color (L : library) (src : pystr) : option pystr :=
  let s := str_lower L src in
  match re_search L (py "\b(bg|text|border)-([a-z]+)-\d{2,3}\b") 0 s with
  | Some m => Some (group 0 m)
  | None =>
      match re_search L (py "color:\s*([^;}{]+)") 0 s with
      | Some m => Some (py "color " ++ strip (group 1 m))
      | None =>
          match re_search L (py "background(?:-color)?:\s*([^;}{]+)") 0 s with
          | Some m => Some (py "background " ++ strip (group 1 m))
          | None => None
          end
      end
  end.

Definition hint_if (b : bool) (h : pystr) : list pystr := if b then [h] else [].

Definition _describe_contents (L : library) (src : pystr) : list pystr :=
  let low := str_lower L src in
  (if contains (py "<button") low then
     (if nonempty_opt (_guess_button_label L src)
      then [py "added/updated a button " ++ LDQUO
            ++ default [] (_guess_button_label L src) ++ RDQUO]
      else [py "added/updated a button"])
     ++ (if nonempty_opt (_guess_color L src)
         then [py "with " ++ default [] (_guess_color L src)]
         else [])
   else [])
  ++ hint_if (bool_decide (is_Some (re_search L (py "<h1[^>]*>") 2 src)))
       (py "changed the main heading")
  ++ hint_if (bool_decide (is_Some (re_search L (py "<p[^>]*>") 2 src)))
       (py "updated page copy")
  ++ hint_if (bool_decide (is_Some (re_search L (py "className=.*?(grid|flex|container)") 2 src)))
       (py "adjusted layout").

(** [_describe_contents] on whatever [a.get("contents") or ""] gave:
    [src.lower()] is its first step. *)
Definition describe_value (L : library) (cont : value) : res (list pystr) :=
  match cont with
  | VStr src => Ok (_describe_contents L src)
  | _ => Raise (no_attribute cont "lower")
  end.

(** [sum(1 for a in actions if a["type"] == ty)] *)
Fixpoint count_type (ty : pystr) (acts : list value) : res nat :=
  match acts with
  | [] => Ok O
  | a :: rest =>
      t ← index a (py "type");
      n ← count_type ty rest;
      Ok (if is_str ty t then S n else n)
  end.

(** [[a.get("path") for a in actions if a.get("path")]] *)
Fixpoint touched_paths (acts : list value) : res (list value) :=
  match acts with
  | [] => Ok []
  | a :: rest =>
      p ← get a (py "path");
      if truthy p then
        p' ← get a (py "path");
        r ← touched_paths rest;
        Ok (p' :: r)
      else touched_paths rest
  end.

Fixpoint collect_insights (L : library) (acts : list value) (insights : list pystr)
  : res (list pystr) :=
  match acts with
  | [] => Ok insights
  | a :: rest =>
      t ← index a (py "type");
      if is_str (py "create_file") t || is_str (py "update_file") t then
        c ← get a (py "contents");
        let cont := if truthy c then c else VStr [] in
        hints ← describe_value L cont;
        collect_insights L rest (insights ++ hints)
      else collect_insights L rest insights
  end.

Definition build_assistant_message (L : library) (user_text : pystr) (acts : list value)
  : res pystr :=
  created ← count_type (py "create_file") acts;
  updated ← count_type (py "update_file") acts;
  deleted ← count_type (py "delete_file") acts;
  ran ← count_type (py "run_command") acts;
  paths ← touched_paths acts;
  insights ← collect_insights L acts [];
  joined ← join_values (py ", ") (slice_to 3 paths);
  let touched := joined ++ (if len paths >? 3 then ELLIPSIS else []) in
  let head :=
    if bool_decide ((created + updated + deleted + ran)%nat = O)
    then CHECK_MARK ++ py " no-op" else CHECK_MARK ++ py " changes applied" in
  let counts :=
    py " (" ++ str_of_nat created ++ py " create, " ++ str_of_nat updated ++ py " update, "
    ++ str_of_nat deleted ++ py " delete, " ++ str_of_nat ran ++ py " run)." in
  let detail :=
    if bool_decide (touched = []) then [] else py " Touched: " ++ touched ++ py "." in
  let hint :=
    match insights with
    | [] => []
    | _ => py " I " ++ join (py ", ") insights ++ py "."
    end in
  let tail := py " You asked: " ++ LDQUO ++ _peek L user_text ++ RDQUO ++ py "." in
  Ok (head ++ counts ++ detail ++ hint ++ tail).

(** ** Pydantic models *)

Record PlanRequest : Type := {
  input : pystr;
  context : option (list (pystr * value));
  session_id : option pystr
}.

Module PlanResponse.
Record t : Type := {
  assistant_message : option pystr;
  actions : list value
}.
End PlanResponse.

Record ChatSendRequest : Type := {
  chat_session_id : option pystr;
  user_input : pystr;
  chat_context : option (list (pystr * value))
}.

Record ChatSendResponse : Type := {
  out_session_id : pystr;
  assistant_output : pystr;
  history_len : Z
}.

(** An [Optional[Dict[str, Any]]] field as the object the handlers see *)
Definition dict_or_none (o : option (list (pystr * value))) : value :=
  match o with
  | Some d => VDict d
  | None => VNone
  end.

(** [x or y] on an optional string *)
Definition str_or (o : option pystr) (y : pystr) : pystr :=
  match o with
  | Some (c :: s) => c :: s
  | _ => y
  end.

(** [PlanResponse(assistant_message=..., actions=...)]: the model checks
    that [actions] is a list of dictionaries. *)
Definition make_PlanResponse (msg : pystr) (acts : list value) : res PlanResponse.t :=
  if forallb is_dict acts
  then Ok {| PlanResponse.assistant_message := Some msg; PlanResponse.actions := acts |}
  else Raise (OtherError (py "validation error for PlanResponse")).

(** ** Endpoints *)

Section Endpoints.
Context {W : Type} (L : library) (C : client W).

Definition phase (p : string) : value := VDict [(py "phase", VStr (py p))].

(** [if part.get("text"): t = part["text"]; assistant_chunks.append(t); trace(...)] *)
Definition note_text (sid : pystr) (p : value) : M (state W) unit :=
  t ← lift (get p (py "text"));
  when (truthy t)
    (t ← lift (index p (py "text"));
     append_chunk t ;;
     trace_m sid "token" (VDict [(py "text", t)])).

(** [if key in ev: x = ev[key].get(sub, {}); if "toolUse" in x: trace(kind, x["toolUse"])] *)
Definition tool_lifecycle (sid : pystr) (ev : value) (key sub kind : string)
  : M (state W) unit :=
  present ← lift (has (py key) ev);
  when present
    (blk ← lift (index ev (py key));
     x ← lift (get_default blk (py sub) (VDict []));
     tu ← lift (has (py "toolUse") x);
     when tu (v ← lift (index x (py "toolUse")); trace_m sid kind v)).

Definition on_delta (sid : pystr) (ev : value) : M (state W) unit :=
  present ← lift (has (py "contentBlockDelta") ev);
  when present
    (blk ← lift (index ev (py "contentBlockDelta"));
     delta ← lift (get_default blk (py "delta") (VDict []));
     has_text ← lift (has (py "text") delta);
     when has_text
       (t ← lift (index delta (py "text"));
        append_chunk t ;;
        trace_m sid "token" (VDict [(py "text", t)])) ;;
     tu ← lift (has (py "toolUse") delta);
     when tu (v ← lift (index delta (py "toolUse")); trace_m sid "tool.delta" v)).

Definition on_message (sid : pystr) (ev : value) : M (state W) unit :=
  present ← lift (has (py "message") ev);
  when present
    (msg ← lift (index ev (py "message"));
     content ← lift (get_default msg (py "content") (VList []));
     for_each (iter content) (fun part => absorb_m part ;; note_text sid part)).

Definition on_metadata (sid : pystr) (ev : value) : M (state W) unit :=
  present ← lift (has (py "metadata") ev);
  usage ← (if (present : bool) return M (state W) bool
           then md ← lift (index ev (py "metadata")); lift (has (py "usage") md)
           else mret false);
  when usage
    (md ← lift (index ev (py "metadata"));
     u ← lift (index md (py "usage"));
     i ← lift (get u (py "inputTokens"));
     o ← lift (get u (py "outputTokens"));
     trace_m sid "meta" (VDict [(py "inputTokens", i); (py "outputTokens", o)])).

Definition on_event (sid : pystr) (ev : value) : M (state W) unit :=
  on_delta sid ev ;;
  tool_lifecycle sid ev "contentBlockStart" "start" "tool.start" ;;
  tool_lifecycle sid ev "contentBlockStop" "stop" "tool.stop" ;;
  on_message sid ev ;;
  on_metadata sid ev ;;
  stop ← lift (has (py "messageStop") ev);
  when stop (trace_m sid "model.stop" (phase "plan")).

Definition _run_stream (sid : pystr) (messages : list value) : M (state W) unit :=
  stream ← call_net (converse_stream L C (Some PLANNER_SYSTEM) messages
                       (Some EMIT_PLAN_TOOL) (Some TEMPERATURE));
  evs ← lift (get stream (py "stream"));
  for_each (iter evs) (on_event sid).

(** The handler of a failed or timed-out stream: one blocking call. *)
Definition nonstream_retry (sid : pystr) (messages : list value) : M (state W) unit :=
  resp ← call_net (converse L C (Some PLANNER_SYSTEM) messages
                     (Some EMIT_PLAN_TOOL) None (Some TEMPERATURE));
  parts ← lift (response_parts resp);
  for_each (iter parts) (fun p => note_text sid p ;; absorb_m p) ;;
  trace_m sid "model.stop" (phase "plan").

(** The planning strategies in turn: what was captured, else the JSON-only
    pass, else the synthesized action. *)
Definition choose_actions (sid user_text : pystr) (ctx : value) : M (state W) (list value) :=
  captured ← gets (fun σ => actions (capture σ));
  acts ← (match captured with
          | [] => _json_only_plan L C sid user_text ctx
          | _ => mret captured
          end);
  match acts with
  | [] =>
      trace_m sid "step" (VDict [(py "msg", VStr (py "synthesize.minimal"))]) ;;
      mret (_synthesize_minimal_action user_text)
  | _ => mret acts
  end.

(** The [try] block of [plan_endpoint]. *)
Definition plan_body (sid : pystr) (req : PlanRequest) : M (state W) PlanResponse.t :=
  let user_text := input req in
  let messages := [user_message user_text] in
  trace_m sid "step" (VDict [(py "msg", VStr (py "planning.start"))]) ;;
  trace_m sid "model.start" (VDict [(py "model", VStr (MODEL_ID L)); (py "phase", VStr (py "plan"))]) ;;
  modify (fun σ => {| net := net σ; tbus := tbus σ; _SESSIONS := _SESSIONS σ;
                      assistant_chunks := []; capture := _ToolCapture__init__ |}) ;;
  try_except
    (match event_loop L with
     | Some e => raise e
     | None => _run_stream sid messages
     end)
    (fun stream_err => nonstream_retry sid messages) ;;
  acts ← choose_actions sid user_text (dict_or_none (context req));
  trace_m sid "step"
    (VDict [(py "msg", VStr (py "planning.response")); (py "actions", VInt (len acts))]) ;;
  short_msg ← lift (build_assistant_message L user_text acts);
  lift (make_PlanResponse short_msg acts).

Definition error_payload (where_ : string) (e : exn) : value :=
  VDict [(py "where", VStr (py where_)); (py "message", VStr (exn_str e))].

Definition plan_endpoint (req : PlanRequest) : M (state W) PlanResponse.t :=
  let sid := str_or (session_id req) (uuid4 L) in
  try_except (plan_body sid req)
    (fun e =>
       trace_m sid "error" (error_payload "invocations" e) ;;
       raise (HTTPException 500 (exn_str e))).

(** [_get_history]: [_SESSIONS.setdefault(session_id, [])] *)
Definition _get_history (sid : pystr) : M (state W) (list value) := fun σ =>
  match _SESSIONS σ !! sid with
  | Some h => (Ok h, σ)
  | None =>
      (Ok [], {| net := net σ; tbus := tbus σ; _SESSIONS := <[sid := []]> (_SESSIONS σ);
                 assistant_chunks := assistant_chunks σ; capture := capture σ |})
  end.

(** [text.strip() or "(no text output)"] *)
Definition text_or_placeholder (joined : pystr) : pystr :=
  match strip joined with
  | [] => py "(no text output)"
  | t => t
  end.

(** [if len(t) > 220: t = t[:220].rstrip() + " …"] *)
Definition clip (assistant_text : pystr) : pystr :=
  if len assistant_text >? 220
  then rstrip (slice_to 220 assistant_text) ++ py " " ++ ELLIPSIS
  else assistant_text.

Definition chat_body (req : ChatSendRequest) : M (state W) ChatSendResponse :=
  let sid := str_or (chat_session_id req) (uuid4 L) in
  history ← _get_history sid;
  let messages := history ++ [user_message (user_input req)] in
  trace_m sid "model.start" (VDict [(py "model", VStr (MODEL_ID L)); (py "phase", VStr (py "chat"))]) ;;
  resp ← call_net (converse L C (Some CHAT_SYSTEM) messages None None None);
  content ← lift (response_parts resp);
  texts ← lift (text_parts content);
  joined ← lift (join_values NL texts);
  let assistant_text := clip (text_or_placeholder joined) in
  trace_m sid "token" (VDict [(py "text", VStr assistant_text)]) ;;
  trace_m sid "model.stop" (phase "chat") ;;
  let history := history ++ [user_message (user_input req); assistant_message_turn assistant_text] in
  set_history sid history ;;
  mret {| out_session_id := sid; assistant_output := assistant_text;
          history_len := len history |}.

Definition chat_send (req : ChatSendRequest) : M (state W) ChatSendResponse :=
  try_except (chat_body req)
    (fun e =>
       trace_m (str_or (chat_session_id req) (py "(no-session)")) "error"
         (error_payload "chat_send" e) ;;
       raise (HTTPException 500 (exn_str e))).

End Endpoints.

(** ** Vocabulary of the properties *)

(** The escaping the synthesizer applies, character by character. *)
Definition escape_char (c : N) : pystr :=
  if (c =? LT)%N then py "&lt;" else if (c =? GT)%N then py "&gt;" else [c].

(** A mapping from relative path to contents, in iteration order, as the
    [files] entry of a request context. *)
Definition str_items (files : list (pystr * pystr)) : list (pystr * value) :=
  map (fun f => (f.1, VStr f.2)) files.

Definition files_context (files : list (pystr * pystr)) : value :=
  VDict [(py "files", VDict (str_items files))].

(** A file's header followed by its whole body *)
Definition file_chunk (f : pystr * pystr) : pystr := FILE_HEADER f.1 ++ f.2.

(** All headers plus all bodies *)
Definition total_size (files : list (pystr * pystr)) : Z :=
  len (concat (map file_chunk files)).

(** A part qualifies when its tool invocation carries a mapping input
    whose [actions] field holds a list; the result is that list. *)
Definition qualifying (part : value) : option (list value) :=
  match part with
  | VDict p =>
      match lookup_key (py "toolUse") p with
      | Some (VDict tu) =>
          match lookup_key (py "input") tu with
          | Some (VDict inp) =>
              match lookup_key (py "actions") inp with
              | Some (VList l) => Some l
              | _ => None
              end
          | _ => None
          end
      | _ => None
      end
  | _ => None
  end.

(** What one part does to the capture, in the words of the rule *)
Definition accept (part : value) (self : _ToolCapture) : _ToolCapture :=
  match qualifying part with
  | Some l => {| actions := l |}
  | None => self
  end.

(** The capture after a sequence of parts, in the words of the rule: the
    list of the last qualifying part, or what was there before. *)
Definition last_wins (parts : list value) (self : _ToolCapture) : _ToolCapture :=
  match last (omap qualifying parts) with
  | Some l => {| actions := l |}
  | None => self
  end.

(** A content part in the transport's shape: a mapping whose [toolUse],
    when present and not empty, is a mapping. *)
Definition content_block (part : value) : bool :=
  match part with
  | VDict p =>
      match lookup_key (py "toolUse") p with
      | Some tu => negb (truthy tu) || is_dict tu
      | None => true
      end
  | _ => false
  end.

(** An action that carries a [type] key *)
Definition has_type (a : value) : bool :=
  match a with
  | VDict d => bool_decide (is_Some (lookup_key (py "type") d))
  | _ => false
  end.

(** The assistant text of a reply: its text parts joined by newlines and
    stripped, or the placeholder. *)
Definition assistant_text_of (reply : value) (text : pystr) : Prop :=
  exists content texts joined,
    response_parts reply = Ok content
    /\ text_parts content = Ok texts
    /\ join_values NL texts = Ok joined
    /\ text = text_or_placeholder joined.

Definition to_sse (ev : event) : sse := Event ev.1 ev.2.

(** A subscriber whose generator is inside its loop *)
Definition running (session_id : pystr) (q : nat) : subscriber :=
  {| sub_session := session_id; sub_queue := q; sub_state := Running |}.

(** A subscriber suspended at its greeting *)
Definition greeted (session_id : pystr) (q : nat) : subscriber :=
  {| sub_session := session_id; sub_queue := q; sub_state := Greeted |}.

(** The items of a subscriber's first [n] deliveries *)
Definition received (n : nat) (sb : subscriber * bus) : list sse :=
  (gen_take n sb.1 sb.2).1.1.

(** ** Sample environments

    A library whose [json.loads] and [re] find nothing, a library whose
    [json.loads] gives a fixed object and whose thread has no event loop,
    and a transport that answers every blocking call with the same
    response and has no streaming. *)

Definition plain_library : library := {|
  json_loads := fun _ => Raise (OtherError (py "Expecting value"));
  re_search := fun _ _ _ => None;
  re_sub := fun _ _ s => s;
  str_lower := fun s => s;
  uuid4 := py "00000000-0000-4000-8000-000000000000";
  MODEL_ID := py "eu.amazon.nova-pro-v1:0";
  event_loop := None
|}.

Definition loose_library (data : value) : library := {|
  json_loads := fun _ => Ok data;
  re_search := fun _ _ _ => None;
  re_sub := fun _ _ s => s;
  str_lower := fun s => s;
  uuid4 := uuid4 plain_library;
  MODEL_ID := MODEL_ID plain_library;
  event_loop := Some (OtherError (py "There is no current event loop"))
|}.

Definition text_response (text : pystr) : value :=
  VDict [(py "output", VDict [(py "message", VDict [
    (py "role", VStr (py "assistant"));
    (py "content", VList [VDict [(py "text", VStr text)]])])])].

Definition constant_client (resp : value) : client unit := {|
  client_converse := fun _ w => (Ok resp, w);
  client_converse_stream := fun _ w => (Raise (OtherError (py "stream unavailable")), w)
|}.

Definition fresh_state : state unit := initial_state tt empty_bus ∅.

Definition tool_part (acts : value) : value :=
  VDict [(py "toolUse", VDict [(py "name", VStr (py "emit_plan"));
                               (py "input", VDict [(py "actions", acts)])])].

Definition long_reply : pystr := repeat 97%N 221.

Definition chat_request : ChatSendRequest :=
  {| chat_session_id := Some (py "s1"); user_input := py "hello"; chat_context := None |}.

Definition plan_request (text : string) (ctx : option (list (pystr * value))) : PlanRequest :=
  {| input := py text; context := ctx; session_id := Some (py "s1") |}.

Definition TOOLCONFIG_REJECTED : pystr :=
  py "Parameter validation failed:" ++ NL ++ py "Unknown parameter in input: "
  ++ quoted "toolConfig" ++ py ", must be one of: modelId, messages".

Definition TOOLS_REJECTED : pystr :=
  py "Parameter validation failed:" ++ NL ++ py "Unknown parameter in input: "
  ++ quoted "tools" ++ py ", must be one of: modelId, messages, system, toolConfig".

(** The report the gateway reacts to, in the words of its rule: the
    message holds the text [Unknown parameter in input: ] followed by the
    name [tools] in double or in single quotes. *)
Definition names_tools (msg : pystr) : Prop :=
  exists pre quote post,
    (quote = DQUOTE \/ quote = py "'")
    /\ msg = pre ++ py "Unknown parameter in input: " ++ quote ++ py "tools" ++ quote ++ post.

(** A transport that rejects every request with the same validation
    report, and a request that carries a tool configuration. *)
Definition rejecting (msg : pystr) : request -> M unit value :=
  fun _ w => (Raise (ParamValidationError msg), w).

Definition tool_config_request : request :=
  [(py "modelId", VStr (py "eu.amazon.nova-pro-v1:0")); (py "messages", VList []);
   (py "toolConfig", VDict [(py "tools", VList [])])].

(** ** The history endpoint *)

(** [chat_history]: the body of GET /chat/history/{session_id} *)
Definition chat_history {W} (session_id : pystr) (σ : state W) : value :=
  VDict [(py "session_id", VStr session_id);
         (py "history", VList (default [] (_SESSIONS σ !! session_id)))].

(** The two turns a successful chat appends *)
Definition chat_turns (user_text assistant_text : pystr) : list value :=
  [user_message user_text; assistant_message_turn assistant_text].

(** ** Further vocabulary: the bus, summaries, replies and requests *)

(** The registry names queue objects of the store, a different one for
    each session. *)
Definition bus_wf (b : bus) : Prop :=
  (forall sid q, SESSION_QUEUES b !! sid = Some q -> (q < length (queues b))%nat)
  /\ (forall s1 s2 q,
        SESSION_QUEUES b !! s1 = Some q -> SESSION_QUEUES b !! s2 = Some q -> s1 = s2).

(** An optional field that is missing, falsy or a string *)
Definition str_or_falsy (o : option value) : bool :=
  match o with
  | None => true
  | Some (VStr _) => true
  | Some v => negb (truthy v)
  end.

(** An action as the planner's schema has it: a mapping with a [type]
    whose [path] and [contents], when given, are strings (or falsy). *)
Definition plain_action (a : value) : bool :=
  match a with
  | VDict d =>
      bool_decide (is_Some (lookup_key (py "type") d))
      && str_or_falsy (lookup_key (py "path") d)
      && str_or_falsy (lookup_key (py "contents") d)
  | _ => false
  end.

Definition is_string (v : value) : bool :=
  match v with VStr _ => true | _ => false end.

(** The closing sentence of every summary *)
Definition summary_tail (L : library) (user_text : pystr) : pystr :=
  py " You asked: " ++ LDQUO ++ _peek L user_text ++ RDQUO ++ py ".".

Definition LBRACE : N := 123.
Definition RBRACE : N := 125.

(** A library whose [json.loads] knows one document. *)
Definition one_document_library (text : pystr) (data : value) : library := {|
  json_loads := fun t =>
    if bool_decide (t = text) then Ok data else Raise (OtherError (py "Expecting value"));
  re_search := fun _ _ _ => None;
  re_sub := fun _ _ s => s;
  str_lower := fun s => s;
  uuid4 := uuid4 plain_library;
  MODEL_ID := MODEL_ID plain_library;
  event_loop := None
|}.

(** The last event pushed on a bus is [(kind, payload)], to [sid]. *)
Definition last_pushed (sid : pystr) (kind : string) (payload : value) (b : bus) : Prop :=
  exists b0, b = trace sid (py kind) payload b0.

(** The text of a reply as both the planner and the chat read it: the
    text parts joined by newlines, stripped. *)
Definition reply_text (reply : value) : res pystr :=
  parts ← response_parts reply;
  texts ← text_parts parts;
  joined ← join_values NL texts;
  Ok (strip joined).

(** A client whose two calls keep the journal of [journalled]. *)
Definition journalled_client {W} (C : client W) : client (W * list request) := {|
  client_converse := journalled (client_converse C);
  client_converse_stream := journalled (client_converse_stream C)
|}.

(** The value sent under an optional argument: the argument when it is
    truthy, no field otherwise. *)
Definition sent_list (o : option (list value)) : option value :=
  if nonempty_opt o then Some (VList (default [] o)) else None.

Definition sent_value (o : option value) : option value :=
  if opt_truthy o then o else None.

Definition sent_system (o : option pystr) : option value :=
  if nonempty_opt o then Some (VList [VDict [(py "text", VStr (default [] o))]]) else None.

(** A request without the two tool fields *)
Definition tool_free (req : request) : Prop :=
  lookup_key (py "tools") req = None /\ lookup_key (py "toolConfig") req = None.

(** A computation that leaves the chat histories alone and pushes its
    events to one session only. *)
Definition framed {W A} (sid : pystr) (m : M (state W) A) : Prop :=
  forall σ,
    _SESSIONS (m σ).2 = _SESSIONS σ
    /\ exists evs, tbus (m σ).2 = trace_all sid evs (tbus σ).

(** The planner's call of the gateway *)
Definition planner_call {W} (L : library) (C : client W) (user_text : pystr) : M W value :=
  converse L C (Some PLANNER_SYSTEM) [user_message user_text]
    (Some EMIT_PLAN_TOOL) None (Some TEMPERATURE).

(** A state in which a stream that failed later had captured one action,
    and a reply that holds text only. *)
Definition stream_captured : state unit :=
  {| net := tt; tbus := empty_bus; _SESSIONS := ∅; assistant_chunks := [];
     capture := {| actions := [VDict [(py "type", VStr (py "run_command"))]] |} |}.

(** ** Preview plumbing and code generation

    What these handlers take from their libraries: [format] of an object
    that is not a string (in an f-string or in [str.format]),
    [json.dumps], and the validation of [CodeGenResponse(files=...)],
    which gives the files as the response holds them. *)

Record codegen_library : Type := {
  format_object : value -> pystr;
  json_dumps : value -> res pystr;
  check_files : value -> res value
}.

(** [f"{v}"] *)
Definition fmt (G : codegen_library) (v : value) : pystr :=
  match v with
  | VStr s => s
  | _ => format_object G v
  end.

(** [s.endswith(suffix)] *)
Definition ends_with (suffix s : pystr) : bool := starts_with (rev suffix) (rev s).

(** [s.split("/")[-1]]: what follows the last slash *)
Fixpoint last_segment_from (cur s : pystr) : pystr :=
  match s with
  | [] => cur
  | c :: s' => if (c =? 47)%N then last_segment_from [] s' else last_segment_from (cur ++ [c]) s'
  end.
Definition last_segment (s : pystr) : pystr := last_segment_from [] s.

(** [v.lower()] and [v.split("/")[-1]] on an arbitrary object *)
Definition lower_of (L : library) (v : value) : res pystr :=
  match v with
  | VStr s => Ok (str_lower L s)
  | _ => Raise (no_attribute v "lower")
  end.

Definition last_segment_of (v : value) : res pystr :=
  match v with
  | VStr s => Ok (last_segment s)
  | _ => Raise (no_attribute v "split")
  end.

(** [x or ""] *)
Definition or_empty (v : value) : value := if truthy v then v else VStr [].

Definition CODEGEN_SYSTEM : pystr :=
  py "You are a senior software engineer. Use emit_files to return complete files when needed.".

Definition TSX_WRAPPER_HEAD : pystr :=
  py "<!doctype html>" ++ NL ++ py "<html><head>" ++ NL ++ py "<meta charset=" ++ DQUOTE
  ++ py "utf-8" ++ DQUOTE ++ py "/><meta name=" ++ DQUOTE ++ py "viewport" ++ DQUOTE
  ++ py " content=" ++ DQUOTE ++ py "width=device-width,initial-scale=1" ++ DQUOTE ++ py "/>"
  ++ NL ++ py "<title>".

Definition TSX_WRAPPER_MIDDLE : pystr :=
  py " preview</title>" ++ NL
  ++ py "<style>html,body,#root{height:100%;margin:0}*,*:before,*:after{box-sizing:border-box}</style>"
  ++ NL ++ py "<script crossorigin src=" ++ DQUOTE
  ++ py "https://unpkg.com/react@18/umd/react.development.js" ++ DQUOTE ++ py "></script>"
  ++ NL ++ py "<script crossorigin src=" ++ DQUOTE
  ++ py "https://unpkg.com/react-dom@18/umd/react-dom.development.js" ++ DQUOTE
  ++ py "></script>" ++ NL ++ py "<script src=" ++ DQUOTE
  ++ py "https://unpkg.com/@babel/standalone/babel.min.js" ++ DQUOTE ++ py "></script>" ++ NL
  ++ py "</head>" ++ NL ++ py "<body><div id=" ++ DQUOTE ++ py "root" ++ DQUOTE ++ py "></div>"
  ++ NL ++ py "<script type=" ++ DQUOTE ++ py "text/babel" ++ DQUOTE ++ py " data-presets="
  ++ DQUOTE ++ py "typescript,react" ++ DQUOTE ++ py ">" ++ NL.

Definition TSX_WRAPPER_TAIL : pystr :=
  NL ++ py "try {" ++ NL
  ++ py "  const C = (typeof RootLayout!=='undefined'&&RootLayout) || (typeof App!=='undefined'&&App) || (typeof Layout!=='undefined'&&Layout);"
  ++ NL ++ py "  if (!C) throw new Error('No RootLayout/App/Layout export found to mount.');"
  ++ NL
  ++ py "  ReactDOM.createRoot(document.getElementById('root')).render(React.createElement(C, {}));"
  ++ NL ++ py "} catch (e) {" ++ NL
  ++ py "  const pre = document.createElement('pre'); pre.textContent = 'Preview error:\n' + String(e);"
  ++ NL ++ py "  document.body.appendChild(pre);" ++ NL ++ py "}" ++ NL
  ++ py "</script></body></html>".

Definition _SHELL_PREVIEW : pystr :=
  py "<!doctype html>" ++ NL ++ py "<html><head><meta charset=" ++ DQUOTE ++ py "utf-8"
  ++ DQUOTE ++ py "/><meta name=" ++ DQUOTE ++ py "viewport" ++ DQUOTE ++ py " content="
  ++ DQUOTE ++ py "width=device-width,initial-scale=1" ++ DQUOTE ++ py "/>" ++ NL
  ++ py "<style>html,body{height:100%;margin:0}*,*:before,*:after{box-sizing:border-box}body{overflow:hidden}#root{min-height:100%}[data-hide-in-preview],.hide-in-preview{display:none!important}</style>"
  ++ NL ++ py "<title>{title}</title></head><body><div id=" ++ DQUOTE ++ py "root" ++ DQUOTE
  ++ py ">{content}</div></body></html>".

Definition _SHELL_PAGE : pystr :=
  py "<!doctype html>" ++ NL ++ py "<html><head><meta charset=" ++ DQUOTE ++ py "utf-8"
  ++ DQUOTE ++ py "/><meta name=" ++ DQUOTE ++ py "viewport" ++ DQUOTE ++ py " content="
  ++ DQUOTE ++ py "width=device-width,initial-scale=1" ++ DQUOTE ++ py "/>" ++ NL
  ++ py "<style>html,body{height:100%;margin:0}*,*:before,*:after{box-sizing:border-box}body{overflow:auto}#root{min-height:100%}</style>"
  ++ NL ++ py "<title>{title}</title></head><body><div id=" ++ DQUOTE ++ py "root" ++ DQUOTE
  ++ py ">{content}</div></body></html>".


Definition _tsx_wrapper (G : codegen_library) (tsx_filename tsx_code : value) : pystr :=
  TSX_WRAPPER_HEAD ++ fmt G tsx_filename ++ TSX_WRAPPER_MIDDLE ++ fmt G tsx_code
  ++ TSX_WRAPPER_TAIL.

(** A [for] loop that is left at the first item for which [test] gives a
    result: the result, and the items the loop did not reach. *)
Fixpoint first_result {A} (items : list value) (test : value -> res (option A))
  : res (option A * list value) :=
  match items with
  | [] => Ok (None, [])
  | f :: rest =>
      r ← test f;
      match r with
      | Some v => Ok (Some v, rest)
      | None => first_result rest test
      end
  end.

(** The object a loop iterated, as the code after the loop finds it: an
    iterator has been consumed up to where the loop stopped; a list, a
    dictionary or a string starts again. *)
Definition leftover (v : value) (rest : list value) : value :=
  match v with
  | VStream _ f => VStream rest f
  | _ => v
  end.

Definition scan {A} (v : value) (test : value -> res (option A)) : res (option A * value) :=
  r ← first_result (iter v).1 test;
  match r.1, (iter v).2 with
  | Some a, _ => Ok (Some a, leftover v r.2)
  | None, Some e => Raise e
  | None, None => Ok (None, leftover v [])
  end.

Definition is_index_html (L : library) (f : value) : res (option value) :=
  path ← get f (py "path");
  p ← lower_of L (or_empty path);
  if ends_with (py "index.html") p
  then c ← get_default f (py "contents") (VStr []); Ok (Some c)
  else Ok None.

Definition COMPONENT_NAMES : list pystr :=
  [py "layout.tsx"; py "app.tsx"; py "App.tsx"; py "index.tsx"].

Definition is_component (L : library) (G : codegen_library) (f : value) : res (option value) :=
  path ← get f (py "path");
  name ← last_segment_of (or_empty path);
  if bool_decide (name ∈ COMPONENT_NAMES) || ends_with (py ".tsx") (str_lower L name)
  then
    p ← get_default f (py "path") (VStr []);
    c ← get_default f (py "contents") (VStr []);
    Ok (Some (VStr (_tsx_wrapper G p c)))
  else Ok None.

Definition is_html (L : library) (f : value) : res (option value) :=
  path ← get f (py "path");
  p ← lower_of L (or_empty path);
  if ends_with (py ".html") p
  then c ← get_default f (py "contents") (VStr []); Ok (Some c)
  else Ok None.

(** [files[0]].  The keys of a dictionary are strings, never [0]: the
    [KeyError] shows the number; an empty sequence gives an [IndexError]. *)
Definition first_item (files : value) : res value :=
  match files with
  | VList (x :: _) => Ok x
  | VStr (c :: _) => Ok (VStr [c])
  | VList [] => Raise (OtherError (py "list index out of range"))
  | VStr [] => Raise (OtherError (py "string index out of range"))
  | VDict _ => Raise (OtherError (py "0"))
  | _ => Raise (not_subscriptable files)
  end.

(** The two characters backslash and [n], which the source writes in its
    f-strings as an escaped backslash *)
Definition BACKSLASH_N : pystr := [92%N; 110%N].

Definition pre_dump (G : codegen_library) (path contents : value) : value :=
  VStr (py "<pre>" ++ fmt G path ++ BACKSLASH_N ++ BACKSLASH_N ++ fmt G contents
        ++ py "</pre>").

Definition NO_CONTENT : value := VStr (py "<p>(no content)</p>").

(** The chosen markup, and [files] as the caller finds it afterwards. *)
Definition _choose_preview_html (L : library) (G : codegen_library) (files : value)
  : res (value * value) :=
  r1 ← scan files (is_index_html L);
  match r1 with
  | (Some v, files) => Ok (v, files)
  | (None, files) =>
      r2 ← scan files (is_component L G);
      match r2 with
      | (Some v, files) => Ok (v, files)
      | (None, files) =>
          r3 ← scan files (is_html L);
          match r3 with
          | (Some v, files) => Ok (v, files)
          | (None, files) =>
              if truthy files then
                first ← first_item files;
                p ← get_default first (py "path") (VStr (py "(no path)"));
                c ← get_default first (py "contents") (VStr []);
                Ok (pre_dump G p c, files)
              else Ok (NO_CONTENT, files)
          end
      end
  end.

(** [template.format] with keyword arguments, on the templates of this module: literal
    text, doubled braces, and fields [{name}] or [{name:spec}] looked up
    among the keyword arguments.  [None] stands for a template outside
    this fragment (a conversion, an index or an attribute, a positional
    field, a format spec to apply). *)
Inductive format_mode : Type :=
| InText
| AfterOpen
| AfterClose
| InName (name : pystr)
| InSpec (name : pystr) (depth : nat) (spec : pystr).

Definition ValueError (msg : string) : exn := OtherError (py msg).

Definition positional (name : pystr) : bool :=
  forallb (fun c => (48 <=? c)%N && (c <=? 57)%N) name.

Definition replacement (G : codegen_library) (kwargs : list (pystr * value))
    (name spec : pystr) : option (res pystr) :=
  if positional name then None
  else
    match lookup_key name kwargs with
    | None => Some (Raise (KeyError name))
    | Some v => match spec with [] => Some (Ok (fmt G v)) | _ => None end
    end.

Fixpoint format_go (G : codegen_library) (kwargs : list (pystr * value))
    (mode : format_mode) (out : pystr) (s : pystr) : option (res pystr) :=
  match s with
  | [] =>
      match mode with
      | InText => Some (Ok out)
      | AfterOpen => Some (Raise (ValueError "Single '{' encountered in format string"))
      | AfterClose => Some (Raise (ValueError "Single '}' encountered in format string"))
      | InName _ => Some (Raise (ValueError "expected '}' before end of string"))
      | InSpec _ _ _ => Some (Raise (ValueError "unmatched '{' in format spec"))
      end
  | c :: rest =>
      let in_name name :=
        if (c =? 125)%N then
          match replacement G kwargs name [] with
          | Some (Ok text) => format_go G kwargs InText (out ++ text) rest
          | other => other
          end
        else if (c =? 58)%N then format_go G kwargs (InSpec name 0 []) out rest
        else if (c =? 33)%N || (c =? 91)%N || (c =? 46)%N || (c =? 123)%N then None
        else format_go G kwargs (InName (name ++ [c])) out rest in
      match mode with
      | InText =>
          if (c =? 123)%N then format_go G kwargs AfterOpen out rest
          else if (c =? 125)%N then format_go G kwargs AfterClose out rest
          else format_go G kwargs InText (out ++ [c]) rest
      | AfterOpen =>
          if (c =? 123)%N then format_go G kwargs InText (out ++ [c]) rest
          else in_name []
      | AfterClose =>
          if (c =? 125)%N then format_go G kwargs InText (out ++ [c]) rest
          else Some (Raise (ValueError "Single '}' encountered in format string"))
      | InName name => in_name name
      | InSpec name depth spec =>
          if (c =? 123)%N then format_go G kwargs (InSpec name (S depth) (spec ++ [c])) out rest
          else if (c =? 125)%N then
            match depth with
            | S d => format_go G kwargs (InSpec name d (spec ++ [c])) out rest
            | O =>
                match replacement G kwargs name spec with
                | Some (Ok text) => format_go G kwargs InText (out ++ text) rest
                | other => other
                end
            end
          else format_go G kwargs (InSpec name depth (spec ++ [c])) out rest
      end
  end.

Definition str_format (G : codegen_library) (template : pystr)
    (kwargs : list (pystr * value)) : option (res pystr) :=
  format_go G kwargs InText [] template.

Definition NO_CONTENT_YET : value := VStr (py "<p>(no content yet)</p>").

(** [x or y] *)
Definition value_or (x y : value) : value := if truthy x then x else y.

(** ** The preview and the code generator

    [_PREVIEW_HTML] is a module-level variable beside the handlers' state. *)

Record app_state (W : Type) : Type := {
  handlers : state W;
  _PREVIEW_HTML : value
}.
Arguments handlers {W} _.
Arguments _PREVIEW_HTML {W} _.

(** [preview()] and [page()]: the body of the [HTMLResponse] *)
Definition preview {W} (G : codegen_library) (s : app_state W) : option (res pystr) :=
  str_format G _SHELL_PREVIEW
    [(py "title", VStr (py "Preview"));
     (py "content", value_or (_PREVIEW_HTML s) NO_CONTENT_YET)].

Definition page {W} (G : codegen_library) (s : app_state W) : option (res pystr) :=
  str_format G _SHELL_PAGE
    [(py "title", VStr (py "Full Page"));
     (py "content", value_or (_PREVIEW_HTML s) NO_CONTENT_YET)].

Definition files_schema : value :=
  VDict [(py "type", VStr (py "array"));
         (py "items", VDict
            [(py "type", VStr (py "object"));
             (py "properties", VDict [(py "path", str_schema); (py "contents", str_schema)]);
             (py "required", VList [VStr (py "path"); VStr (py "contents")])])].

Definition EMIT_FILES_TOOL : list value :=
  [VDict [(py "toolSpec", VDict
     [(py "name", VStr (py "emit_files"));
      (py "description", VStr (py "Return one or more files as JSON."));
      (py "inputSchema", VDict [(py "json", VDict
        [(py "type", VStr (py "object"));
         (py "properties", VDict [(py "files", files_schema)]);
         (py "required", VList [VStr (py "files")])])])])]].

Record CodeGenRequest : Type := {
  instructions : pystr;
  language : option pystr;
  codegen_context : option (list (pystr * value));
  codegen_session_id : option pystr
}.

(** [tu = p.get("toolUse"); if tu and tu.get("name") == "emit_files":
    files = (tu.get("input") or {}).get("files", []); break] *)
Definition emitted_files (p : value) : res (option value) :=
  tu ← get p (py "toolUse");
  if truthy tu then
    name ← get tu (py "name");
    if is_str (py "emit_files") name then
      inp ← get tu (py "input");
      files ← get_default (value_or inp (VDict [])) (py "files") (VList []);
      Ok (Some files)
    else Ok None
  else Ok None.

Definition output_file (text : pystr) : value :=
  VDict [(py "path", VStr (py "OUTPUT.txt")); (py "contents", VStr text)].

(** [[{"op": "update_file", "path": f.get("path")} for f in files]] *)
Fixpoint update_ops (fs : list value) : res (list value) :=
  match fs with
  | [] => Ok []
  | f :: rest =>
      p ← get f (py "path");
      r ← update_ops rest;
      Ok (VDict [(py "op", VStr (py "update_file")); (py "path", p)] :: r)
  end.

Definition ops_of (files : value) : res (list value * value) :=
  r ← update_ops (iter files).1;
  match (iter files).2 with
  | Some e => Raise e
  | None => Ok (r, leftover files [])
  end.

Definition NO_FILES_OR_TEXT : exn :=
  HTTPException 502 (py "Model did not return files or text.").

Section CodeGen.
Context {W : Type} (L : library) (G : codegen_library) (C : client W).

Definition in_handlers {A} (m : M (state W) A) : M (app_state W) A := fun s =>
  let '(r, σ) := m (handlers s) in
  (r, {| handlers := σ; _PREVIEW_HTML := _PREVIEW_HTML s |}).

Definition set_preview (html : value) : M (app_state W) unit := fun s =>
  (Ok tt, {| handlers := handlers s; _PREVIEW_HTML := html |}).

Definition prompt_lines (req : CodeGenRequest) : res (list pystr) :=
  let lines := [instructions req] in
  let lines :=
    match language req with
    | Some (c :: l) => lines ++ [py "Preferred language: " ++ c :: l]
    | _ => lines
    end in
  match codegen_context req with
  | Some (kv :: d) =>
      dumped ← json_dumps G (VDict (kv :: d));
      Ok (lines ++ [py "Context: " ++ slice_to 1000 dumped])
  | _ => Ok lines
  end.

(** [if not files: text = ...; if text: files = [...]] *)
Definition files_or_text (files parts : value) : res value :=
  if truthy files then Ok files
  else
    texts ← text_parts parts;
    joined ← join_values NL texts;
    match strip joined with
    | [] => Ok files
    | text => Ok (VList [output_file text])
    end.

(** The [try] block of [code_generate]. *)
Definition codegen_body (req : CodeGenRequest) : M (app_state W) value :=
  lines ← lift (prompt_lines req);
  let messages := [user_message (join (NL ++ NL) lines)] in
  in_handlers (trace_m (str_or (codegen_session_id req) (py "(no-session)")) "model.start"
                 (VDict [(py "model", VStr (MODEL_ID L)); (py "phase", VStr (py "codegen"))])) ;;
  resp ← in_handlers (call_net (converse L C (Some CODEGEN_SYSTEM) messages
                                  (Some EMIT_FILES_TOOL) None None));
  parts ← lift (response_parts resp);
  found ← lift (scan parts emitted_files);
  files ← lift (files_or_text (default (VList []) found.1) found.2);
  if truthy files then
    chosen ← lift (_choose_preview_html L G files);
    set_preview chosen.1 ;;
    files ← (match codegen_session_id req with
             | Some (c :: sid) =>
                 ops ← lift (ops_of chosen.2);
                 in_handlers (trace_m (c :: sid) "plan" (VDict [(py "ops", VList ops.1)])) ;;
                 in_handlers (trace_m (c :: sid) "model.stop" (phase "codegen")) ;;
                 mret ops.2
             | _ => mret chosen.2
             end);
    lift (check_files G files)
  else raise NO_FILES_OR_TEXT.

Definition code_generate (req : CodeGenRequest) : M (app_state W) value :=
  try_except (codegen_body req)
    (fun e =>
       in_handlers (trace_m (str_or (codegen_session_id req) (py "(no-session)")) "error"
                      (error_payload "code_generate" e)) ;;
       raise (HTTPException 500 (exn_str e))).

End CodeGen.

(** ** Vocabulary of the preview properties *)

(** An entry of a file list as the model's tool returns it: a dictionary
    whose [path], when present, is a string. *)
Definition file_entry (f : value) : bool :=
  match f with
  | VDict d =>
      match lookup_key (py "path") d with
      | Some (VStr _) | None => true
      | Some _ => false
      end
  | _ => false
  end.

Definition path_of (f : value) : pystr :=
  match f with
  | VDict d => match lookup_key (py "path") d with Some (VStr s) => s | _ => [] end
  | _ => []
  end.

Definition contents_of (f : value) : value :=
  match f with
  | VDict d => default (VStr []) (lookup_key (py "contents") d)
  | _ => VStr []
  end.

(** [first.get('path', '(no path)')] *)
Definition shown_path (f : value) : value :=
  match f with
  | VDict d => default (VStr (py "(no path)")) (lookup_key (py "path") d)
  | _ => VStr (py "(no path)")
  end.

Definition index_page (L : library) (f : value) : bool :=
  ends_with (py "index.html") (str_lower L (path_of f)).

Definition component (L : library) (f : value) : bool :=
  bool_decide (last_segment (path_of f) ∈ COMPONENT_NAMES)
  || ends_with (py ".tsx") (str_lower L (last_segment (path_of f))).

Definition html_page (L : library) (f : value) : bool :=
  ends_with (py ".html") (str_lower L (path_of f)).

(** A content part that does not invoke [emit_files]: a mapping whose
    [toolUse] is missing or falsy, or is a mapping with another name. *)
Definition no_emit_files (p : value) : bool :=
  match p with
  | VDict d =>
      match lookup_key (py "toolUse") d with
      | None => true
      | Some (VDict tu) =>
          negb (truthy (VDict tu))
          || negb (is_str (py "emit_files") (default VNone (lookup_key (py "name") tu)))
      | Some tu => negb (truthy tu)
      end
  | _ => false
  end.

(** A content part in which the model invokes [emit_files] with [files].
    The part, its [toolUse] and the [input] are mappings that may hold
    other keys as well (the [toolUseId], say). *)
Definition invokes_emit_files (p files : value) : Prop :=
  exists d tu inp,
    p = VDict d
    /\ lookup_key (py "toolUse") d = Some (VDict tu)
    /\ lookup_key (py "name") tu = Some (VStr (py "emit_files"))
    /\ lookup_key (py "input") tu = Some (VDict inp)
    /\ lookup_key (py "files") inp = Some files.

(** A content part that neither invokes [emit_files] nor carries text *)
Definition silent_part (p : value) : bool :=
  no_emit_files p
  && match p with
     | VDict d => negb (opt_truthy (lookup_key (py "text") d))
     | _ => false
     end.

(** What the handler answers once the files are chosen: the validated
    files, or the validation error as an HTTP 500 *)
Definition validated (G : codegen_library) (files : value) : res value :=
  match check_files G files with
  | Ok out => Ok out
  | Raise e => Raise (HTTPException 500 (exn_str e))
  end.

(** The code generator's call of the gateway *)
Definition codegen_call {W} (L : library) (C : client W) (lines : list pystr) : M W value :=
  converse L C (Some CODEGEN_SYSTEM) [user_message (join (NL ++ NL) lines)]
    (Some EMIT_FILES_TOOL) None None.

(** An event iterator, which a loop consumes *)
Definition is_stream (v : value) : bool :=
  match v with VStream _ _ => true | _ => false end.

(** A computation of the application that leaves the chat histories alone
    and pushes its events to one session only. *)
Definition framed_app {W A} (sid : pystr) (m : M (app_state W) A) : Prop :=
  forall s,
    _SESSIONS (handlers (m s).2) = _SESSIONS (handlers s)
    /\ exists evs, tbus (handlers (m s).2) = trace_all sid evs (tbus (handlers s)).

(** ** Sample environment of the preview properties *)

Definition plain_codegen : codegen_library := {|
  format_object := fun _ => py "<object>";
  json_dumps := fun _ => Ok (py "{}");
  check_files := fun v =>
    match v with
    | VList l =>
        if forallb is_dict l then Ok v
        else Raise (OtherError (py "validation error for CodeGenResponse"))
    | _ => Raise (OtherError (py "validation error for CodeGenResponse"))
    end
|}.

(** A library whose [str.lower] folds the ASCII capitals *)
Definition ascii_lower (c : N) : N :=
  if (65 <=? c)%N && (c <=? 90)%N then (c + 32)%N else c.

Definition lower_library : library := {|
  json_loads := json_loads plain_library;
  re_search := re_search plain_library;
  re_sub := re_sub plain_library;
  str_lower := map ascii_lower;
  uuid4 := uuid4 plain_library;
  MODEL_ID := MODEL_ID plain_library;
  event_loop := event_loop plain_library
|}.

Definition file (path contents : string) : value :=
  VDict [(py "path", VStr (py path)); (py "contents", VStr (py contents))].

Definition fresh_app : app_state unit :=
  {| handlers := fresh_state; _PREVIEW_HTML := VStr [] |}.

(** A reply of the transport: the content parts of the message, with the
    metadata the transport puts around them. *)
Definition bedrock_response (content : list value) : value :=
  VDict [(py "ResponseMetadata", VDict [(py "HTTPStatusCode", VInt 200)]);
         (py "output", VDict [(py "message", VDict [
            (py "role", VStr (py "assistant"));
            (py "content", VList content)])]);
         (py "stopReason", VStr (py "end_turn"));
         (py "usage", VDict [(py "inputTokens", VInt 12); (py "outputTokens", VInt 34)])].

Definition text_block (text : string) : value := VDict [(py "text", VStr (py text))].

Definition tool_use (name : string) (input : value) : value :=
  VDict [(py "toolUse", VDict [(py "toolUseId", VStr (py "tooluse_1"));
                               (py "name", VStr (py name));
                               (py "input", input)])].

(** A reply in which the model explains itself, looks something up with
    another tool and then invokes [emit_files] *)
Definition files_response (files : value) : value :=
  bedrock_response
    [text_block "Here you go.";
     tool_use "search" (VDict [(py "query", VStr (py "layout"))]);
     tool_use "emit_files" (VDict [(py "files", files)])].

Definition codegen_request : CodeGenRequest :=
  {| instructions := py "make a page"; language := None; codegen_context := None;
     codegen_session_id := Some (py "s1") |}.

(** * Properties *)

#[local] Arguments py : simpl never.
#[local] Arguments FILE_HEADER : simpl never.
#[local] Arguments len : simpl never.

(** ** Inverting the monads *)

Lemma bind_ok {S A B} (m : M S A) (f : A -> M S B) s b s' :
  (m ≫= f) s = (Ok b, s') ->
  exists a s1, m s = (Ok a, s1) /\ f a s1 = (Ok b, s').
Proof.
  unfold mbind, M_bind. destruct (m s) as [[a|e] s1]; [eauto|discriminate].
Qed.

Lemma res_bind_ok {A B} (m : res A) (f : A -> res B) b :
  m ≫= f = Ok b -> exists a, m = Ok a /\ f a = Ok b.
Proof. destruct m as [a|e]; [eauto|discriminate]. Qed.

Lemma lift_ok {S A} (r : res A) (s s' : S) a :
  lift r s = (Ok a, s') -> r = Ok a /\ s' = s.
Proof. unfold lift. intros [= -> ->]. done. Qed.

(** A step of a successful run whose result is not needed. *)
Ltac skip_step H := apply bind_ok in H as (? & ? & _ & H).

(** ** Lengths *)

Lemma len_app {A} (l k : list A) : len (l ++ k) = len l + len k.
Proof. unfold len. rewrite length_app. lia. Qed.

Lemma len_nonneg {A} (l : list A) : 0 <= len l.
Proof. unfold len. lia. Qed.

Lemma len_slice_to {A} n (l : list A) : 0 <= n -> n <= len l -> len (slice_to n l) = n.
Proof. unfold len, slice_to. intros. rewrite length_take. lia. Qed.

Lemma len_slice_to_le {A} n (l : list A) : 0 <= n -> len (slice_to n l) <= n.
Proof. unfold len, slice_to. intros. rewrite length_take. lia. Qed.

Lemma len_lstrip s : len (lstrip s) <= len s.
Proof.
  unfold len. induction s as [|c s IH]; [done|].
  cbn [lstrip]. destruct (is_space c); cbn [length]; lia.
Qed.

Lemma len_rstrip s : len (rstrip s) <= len s.
Proof.
  unfold rstrip. pose proof (len_lstrip (rev s)) as H.
  unfold len in *. rewrite length_rev in *. lia.
Qed.

Lemma concat_snoc {A} (ls : list (list A)) l : concat (ls ++ [l]) = concat ls ++ l.
Proof. rewrite concat_app. cbn. by rewrite app_nil_r. Qed.

(** ** Model gateway *)

Lemma lookup_remove_key k k' (d : list (pystr * value)) :
  lookup_key k (remove_key k' d) = if bool_decide (k = k') then None else lookup_key k d.
Proof.
  unfold remove_key. induction d as [|[a v] d IH]; [by case_bool_decide|].
  rewrite filter_cons. cbn [fst lookup_key].
  destruct (decide (a ≠ k')) as [Hne|Heq].
  - cbn [lookup_key]. rewrite IH. repeat case_bool_decide; congruence.
  - apply dec_stable in Heq. subst a. rewrite IH.
    repeat case_bool_decide; congruence.
Qed.

Lemma without_tools_lookup k req :
  lookup_key k (without_tools req)
  = if bool_decide (k = py "tools") || bool_decide (k = py "toolConfig")
    then None else lookup_key k req.
Proof.
  unfold without_tools. rewrite !lookup_remove_key.
  repeat case_bool_decide; reflexivity.
Qed.

Lemma starts_with_spec p : forall s,
  starts_with p s = true <-> exists post, s = p ++ post.
Proof.
  induction p as [|a p IH]; intros s.
  - split; [intros _; by exists s|reflexivity].
  - destruct s as [|b s]; cbn [starts_with].
    + split; [discriminate|]. intros [post H]. discriminate.
    + rewrite andb_true_iff, N.eqb_eq, IH. split.
      * intros [-> [post ->]]. by exists post.
      * intros [post [= -> ->]]. split; [done|]. by exists post.
Qed.

Lemma contains_spec p : forall s,
  contains p s = true <-> exists pre post, s = pre ++ p ++ post.
Proof.
  induction s as [|b s IH].
  - cbn [contains]. rewrite orb_false_r, starts_with_spec. split.
    + intros [post H]. by exists [], post.
    + intros (pre & post & H). symmetry in H. apply app_eq_nil in H as [-> H].
      by exists post.
  - cbn [contains]. rewrite orb_true_iff, starts_with_spec, IH. split.
    + intros [[post H] | (pre & post & ->)].
      * by exists [], post.
      * by exists (b :: pre), post.
    + intros ([|c pre] & post & H).
      * left. by exists post.
      * right. injection H as -> ->. by exists pre, post.
Qed.

(** The gateway's test is the rule's: it passes exactly on the reports
    that name [tools]. *)
Lemma rejects_tools_spec msg : rejects_tools msg = true <-> names_tools msg.
Proof.
  unfold rejects_tools, names_tools. rewrite orb_true_iff, !contains_spec. split.
  - intros [(pre & post & ->) | (pre & post & ->)].
    + exists pre, DQUOTE, post. split; [by left|].
      unfold UNKNOWN_TOOLS_DQ. by rewrite <- !app_assoc.
    + exists pre, (py "'"), post. split; [by right|]. reflexivity.
  - intros (pre & quote & post & [-> | ->] & ->).
    + left. exists pre, post. unfold UNKNOWN_TOOLS_DQ. by rewrite <- !app_assoc.
    + right. exists pre, post. reflexivity.
Qed.

(** The test of the gateway is on the name [tools], in either quoting; a
    report that names only [toolConfig] does not pass it. *)
Example rejects_tools_examples :
  rejects_tools TOOLS_REJECTED = true
  /\ rejects_tools (py "Unknown parameter in input: 'tools'") = true
  /\ rejects_tools TOOLCONFIG_REJECTED = false.
Proof. vm_compute. done. Qed.

(** C5, as the code has it: for every request, transport and transport
    state, the gateway submits the request once.  If that submission
    raises a parameter validation error whose message reports [tools] as
    an unknown parameter, it submits the request a second and last time
    with [tools] and [toolConfig] removed and every other field kept, and
    returns whatever that submission gives.  In every other case (a
    success, a validation error whose message does not report [tools],
    also when it reports [toolConfig], another exception) it returns the
    first outcome unchanged after that single submission. *)
Theorem retry_without_tools_once {W} (fn : request -> M W value) (req : request)
    (w : W) (journal : list request) :
  (forall msg w1,
     fn req w = (Raise (ParamValidationError msg), w1) -> names_tools msg ->
     _retry_without_tools_if_needed (journalled fn) req (w, journal)
     = ((fn (without_tools req) w1).1,
        ((fn (without_tools req) w1).2, journal ++ [req; without_tools req])))
  /\ (forall outcome w1,
        fn req w = (outcome, w1) ->
        (forall msg, outcome = Raise (ParamValidationError msg) -> ~ names_tools msg) ->
        _retry_without_tools_if_needed (journalled fn) req (w, journal)
        = (outcome, (w1, journal ++ [req])))
  /\ lookup_key (py "tools") (without_tools req) = None
  /\ lookup_key (py "toolConfig") (without_tools req) = None
  /\ (forall k, k ≠ py "tools" -> k ≠ py "toolConfig" ->
        lookup_key k (without_tools req) = lookup_key k req).
Proof.
  split_and!.
  - intros msg w1 E Hn. apply rejects_tools_spec in Hn.
    unfold _retry_without_tools_if_needed, journalled. cbn [fst snd]. rewrite E, Hn.
    cbn [fst snd]. destruct (fn (without_tools req) w1) as [r w2]. cbn [fst snd].
    by rewrite <- app_assoc.
  - intros outcome w1 E Hn.
    unfold _retry_without_tools_if_needed, journalled. cbn [fst snd]. rewrite E.
    destruct outcome as [v|e]; [reflexivity|].
    destruct e as [k|m|m|msg|msg|st d]; try reflexivity.
    destruct (rejects_tools msg) eqn:Er; [|reflexivity].
    apply rejects_tools_spec in Er. by destruct (Hn msg eq_refl).
  - rewrite without_tools_lookup. reflexivity.
  - rewrite without_tools_lookup. reflexivity.
  - intros k H1 H2. rewrite without_tools_lookup.
    repeat case_bool_decide; try congruence. reflexivity.
Qed.

(** C5 as stated fails: a validation report that names [toolConfig] as
    the unknown parameter is propagated after the single submission; the
    request is not submitted again without its tool fields. *)
Lemma retry_skips_tool_config_report :
  _retry_without_tools_if_needed (journalled (rejecting TOOLCONFIG_REJECTED))
    tool_config_request (tt, [])
  = (Raise (ParamValidationError TOOLCONFIG_REJECTED), (tt, [tool_config_request])).
Proof. vm_compute. reflexivity. Qed.

(** A report that names [tools] is answered by the second submission,
    made without the two tool fields. *)
Lemma retry_without_tools_once_witness :
  _retry_without_tools_if_needed (journalled (rejecting TOOLS_REJECTED))
    (tool_config_request ++ [(py "tools", VList [])]) (tt, [])
  = (Raise (ParamValidationError TOOLS_REJECTED),
     (tt, [tool_config_request ++ [(py "tools", VList [])];
           [(py "modelId", VStr (py "eu.amazon.nova-pro-v1:0")); (py "messages", VList [])]])).
Proof.
  etransitivity;
    [apply (proj1 (retry_without_tools_once (rejecting TOOLS_REJECTED)
                     (tool_config_request ++ [(py "tools", VList [])]) tt [])
              TOOLS_REJECTED tt eq_refl)|vm_compute; reflexivity].
  exists (py "Parameter validation failed:" ++ NL), DQUOTE,
    (py ", must be one of: modelId, messages, system, toolConfig").
  split; [by left|vm_compute; reflexivity].
Defined.

(** ** Tool-call capture *)

Lemma absorb_one part self :
  match absorb part self with
  | Ok self' => self' = accept part self
  | Raise _ => qualifying part = None /\ content_block part = false
  end.
Proof.
  unfold absorb, accept, qualifying, content_block.
  destruct part as [| | | | | |p|]; try (cbn; auto; fail).
  cbn [get get_default mbind res_bind default].
  destruct (lookup_key (py "toolUse") p) as [tu|] eqn:Htu; cbn [default]; [|cbn; auto].
  destruct tu as [|b|n|m e|s|l|tu|]; cbn; auto.
  - destruct b; cbn; auto.
  - destruct (n =? 0); cbn; auto.
  - destruct (m =? 0); cbn; auto.
  - destruct (bool_decide (s = [])); cbn; auto.
  - destruct l; cbn; auto.
  - destruct tu as [|kv tu]; [cbn; auto|].
    destruct (lookup_key (py "input") (kv :: tu)) as [v|]; cbn; [|auto].
    destruct v as [| | | | | |inp|]; cbn; auto.
    destruct (lookup_key (py "actions") inp) as [acts|]; cbn; [|auto].
    destruct acts; auto.
Qed.

Lemma absorb_content_block part self :
  content_block part = true -> absorb part self = Ok (accept part self).
Proof.
  intros H. pose proof (absorb_one part self) as Hone.
  destruct (absorb part self) as [self'|e].
  - by rewrite Hone.
  - destruct Hone as [_ Hcb]. congruence.
Qed.

Lemma last_wins_cons part parts self :
  last_wins (part :: parts) self = last_wins parts (accept part self).
Proof.
  unfold last_wins, accept, omap. cbn [list_omap].
  destruct (qualifying part) as [l|]; [|reflexivity].
  destruct (list_omap _ _ qualifying parts) as [|l' ls]; [reflexivity|].
  rewrite last_cons. by destruct (last (l' :: ls)).
Qed.

Lemma absorb_all_ok parts : forall self self',
  absorb_all parts self = Ok self' -> self' = last_wins parts self.
Proof.
  induction parts as [|p parts IH]; intros self self' H.
  - cbn in H. by injection H as <-.
  - cbn [absorb_all mbind res_bind] in H. rewrite last_wins_cons.
    pose proof (absorb_one p self) as Hone.
    destruct (absorb p self) as [c|e]; [|discriminate].
    subst c. by apply IH.
Qed.

Lemma absorb_all_blocks parts : forall self,
  Forall (fun p => content_block p = true) parts ->
  absorb_all parts self = Ok (last_wins parts self).
Proof.
  induction parts as [|p parts IH]; intros self H.
  - reflexivity.
  - inversion H as [|? ? Hp Hps]; subst.
    cbn [absorb_all]. rewrite (absorb_content_block p self Hp). cbn [mbind res_bind].
    rewrite last_wins_cons. by apply IH.
Qed.

(** C2: (1) [absorb] rebinds the captured list exactly when the part
    qualifies (its tool invocation carries a mapping input whose [actions]
    is a list), and then to that list; on any other part the captured
    list is unchanged, whether [absorb] returns or raises (it raises only
    on parts that do not qualify).  (2) Whenever the loop over a sequence
    of parts runs to its end, the captured list is the [actions] of the
    last qualifying part (no merge), or the previous list when no part
    qualifies.  (3) On parts in the transport's shape the loop always runs
    to its end. *)
Theorem absorb_last_wins (parts : list value) (self : _ToolCapture) :
  (forall part c,
     match absorb part c with
     | Ok c' => c' = accept part c
     | Raise _ => qualifying part = None
     end)
  /\ (forall self', absorb_all parts self = Ok self' -> self' = last_wins parts self)
  /\ (Forall (fun p => content_block p = true) parts ->
      absorb_all parts self = Ok (last_wins parts self)).
Proof.
  split_and!.
  - intros part c. pose proof (absorb_one part c) as H.
    destruct (absorb part c); [done|]. by destruct H.
  - apply absorb_all_ok.
  - apply absorb_all_blocks.
Qed.

Lemma absorb_last_wins_witness :
  absorb_all [tool_part (VList [VInt 1]); VDict [(py "text", VStr (py "hi"))];
              tool_part (VList [VInt 2; VInt 3]); tool_part (VStr (py "partial"))]
    _ToolCapture__init__
  = Ok {| actions := [VInt 2; VInt 3] |}.
Proof.
  apply (proj2 (proj2 (absorb_last_wins
          [tool_part (VList [VInt 1]); VDict [(py "text", VStr (py "hi"))];
           tool_part (VList [VInt 2; VInt 3]); tool_part (VStr (py "partial"))]
          _ToolCapture__init__))).
  repeat constructor.
Defined.

(** A part whose [toolUse] is a non-empty string is outside the
    transport's shape: [tu.get] raises on it. *)
Example absorb_string_tool_use :
  absorb (VDict [(py "toolUse", VStr (py "x"))]) _ToolCapture__init__
  = Raise (AttributeError (py "'str' object has no attribute 'get'")).
Proof. vm_compute. reflexivity. Qed.

(** ** Context snapshot *)

Lemma context_blob_files files budget :
  _context_blob (files_context files) budget =
  chunks ← blob_loop budget (str_items files) [] 0; Ok (concat chunks).
Proof. reflexivity. Qed.

(** What the loop does on string bodies, from any point of the iteration:
    [k] whole files, then nothing more or the cut body of file [k]. *)
Lemma blob_loop_shape budget files : forall chunks used,
  exists k tail,
    blob_loop budget (str_items files) chunks used
      = Ok (chunks ++ map file_chunk (take k files) ++ tail)
    /\ (k <= length files)%nat
    /\ used + len (concat (map file_chunk (take k files) ++ tail)) <= Z.max used budget
    /\ ((tail = [] /\
         forall f, files !! k = Some f ->
           budget <= used + len (concat (map file_chunk (take k files))) + len (FILE_HEADER f.1))
        \/ exists f t,
             files !! k = Some f /\ 0 < t < len f.2 /\
             tail = [FILE_HEADER f.1 ++ slice_to t f.2] /\
             used + len (concat (map file_chunk (take k files) ++ tail)) = budget).
Proof.
  induction files as [|[rel src] files IH]; intros chunks used.
  - exists 0%nat, []. cbn [str_items map blob_loop take app concat].
    rewrite app_nil_r. change (len (@nil N)) with 0.
    split_and!; try lia; try done.
    left. split; [done|]. intros f Hf. discriminate.
  - cbn [str_items map blob_loop fst snd]. fold (str_items files).
    set (header := FILE_HEADER rel).
    destruct (Z.leb_spec (Z.max 0 (budget - used - len header)) 0) as [Hle|Hgt].
    + exists 0%nat, []. cbn [take map app concat]. rewrite app_nil_r.
      change (len (@nil N)) with 0.
      split_and!; try lia; try done.
      left. split; [done|]. intros f [= <-]. cbn [fst]. fold header. lia.
    + assert (Htake : Z.max 0 (budget - used - len header) = budget - used - len header) by lia.
      rewrite Htake in *. cbn [py_len mbind res_bind].
      destruct (Z.leb_spec (len src) (budget - used - len header)) as [Hfit|Hcut].
      * cbn [str_add py_len mbind res_bind].
        destruct (Z.geb_spec (used + len header + len src) budget) as [Hfull|Hmore].
        -- exists 1%nat, []. cbn [take map app length]. rewrite take_0. cbn [map app concat].
           unfold file_chunk. cbn [fst snd]. fold header. rewrite app_nil_r, len_app.
           split_and!; try lia; try done.
           left. split; [done|]. intros f Hf.
           pose proof (len_nonneg (FILE_HEADER f.1)). lia.
        -- destruct (IH (chunks ++ [header ++ src]) (used + len header + len src))
             as (k & tail & Heq & Hk & Hlen & Hcase).
           exists (S k), tail. rewrite Heq. cbn [take map app concat length lookup list_lookup].
           change (file_chunk (rel, src)) with (header ++ src).
           rewrite <- !app_assoc. cbn [app]. rewrite !len_app.
           split_and!; try lia; try done.
           destruct Hcase as [[-> Hn]|(f & t & Hf & Ht & -> & Hb)];
             rewrite ?len_app in *.
           ++ left. split; [done|]. intros f Hf. specialize (Hn f Hf). lia.
           ++ right. exists f, t. split_and!; try done; try lia.
      * cbn [py_slice_to str_add py_len mbind res_bind].
        assert (Hl : len (slice_to (budget - used - len header) src) = budget - used - len header)
          by (apply len_slice_to; lia).
        rewrite Hl.
        destruct (Z.geb_spec (used + len header + (budget - used - len header)) budget) as [_|Hbad];
          [|lia].
        exists 0%nat, [header ++ slice_to (budget - used - len header) src].
        cbn [take map app concat length lookup list_lookup]. rewrite app_nil_r, len_app, Hl.
        split_and!; try lia; try done.
        right. exists (rel, src), (budget - used - len header). cbn [fst snd].
        split_and!; try done; try lia.
Qed.

(** C6: for every mapping from path to contents (in its iteration order)
    and every budget, the snapshot is produced and its length is at most
    the budget (at most 0, the empty string, for a negative budget); it
    consists of the first [k] files, each as header plus whole body, and
    then either nothing more, in which case the header of file [k] (if
    there is one) would leave no room for a character of its body, or the
    header of file [k] with a proper, non-empty prefix of its body, which
    fills the budget exactly: only the last included body is cut, and
    every later file is left out. *)
Theorem context_blob_within_budget (files : list (pystr * pystr)) (budget : Z) :
  exists out k,
    _context_blob (files_context files) budget = Ok out
    /\ len out <= Z.max 0 budget
    /\ (k <= length files)%nat
    /\ ((out = concat (map file_chunk (take k files))
         /\ forall f, files !! k = Some f -> budget <= len out + len (FILE_HEADER f.1))
        \/ exists f t,
             files !! k = Some f /\ 0 < t < len f.2
             /\ out = concat (map file_chunk (take k files)) ++ FILE_HEADER f.1 ++ slice_to t f.2
             /\ len out = budget).
Proof.
  destruct (blob_loop_shape budget files [] 0) as (k & tail & Heq & Hk & Hlen & Hcase).
  exists (concat (map file_chunk (take k files) ++ tail)), k.
  rewrite context_blob_files, Heq. cbn [app mbind res_bind].
  split_and!; try done; try lia.
  destruct Hcase as [[-> Hn]|(f & t & Hf & Ht & -> & Hb)].
  - left. rewrite app_nil_r. split; [done|]. intros f Hf. specialize (Hn f Hf). lia.
  - right. exists f, t. split_and!; try done; try lia.
    rewrite concat_snoc. done.
Qed.

Example context_blob_cut :
  _context_blob (files_context [(py "a", py "hello"); (py "b", py "world")]) 20
  = Ok (FILE_HEADER (py "a") ++ py "hel").
Proof. vm_compute. reflexivity. Qed.

Lemma total_size_cons f files :
  total_size (f :: files) = len (FILE_HEADER f.1) + len f.2 + total_size files.
Proof. unfold total_size, file_chunk. cbn [map concat]. rewrite !len_app. lia. Qed.

Lemma blob_loop_all budget files : forall chunks used,
  used + total_size files < budget ->
  blob_loop budget (str_items files) chunks used = Ok (chunks ++ map file_chunk files).
Proof.
  induction files as [|[rel src] files IH]; intros chunks used H.
  - cbn. by rewrite app_nil_r.
  - rewrite total_size_cons in H. cbn [fst snd] in H.
    pose proof (len_nonneg src). pose proof (len_nonneg (concat (map file_chunk files))) as Hn.
    fold (total_size files) in Hn.
    cbn [str_items map blob_loop fst snd]. fold (str_items files).
    destruct (Z.leb_spec (Z.max 0 (budget - used - len (FILE_HEADER rel))) 0); [lia|].
    cbn [py_len mbind res_bind].
    destruct (Z.leb_spec (len src) (Z.max 0 (budget - used - len (FILE_HEADER rel)))); [|lia].
    cbn [str_add py_len mbind res_bind].
    destruct (Z.geb_spec (used + len (FILE_HEADER rel) + len src) budget); [lia|].
    rewrite IH by lia. by rewrite <- app_assoc.
Qed.

(** C7: when all headers plus all bodies are together smaller than the
    budget, the snapshot is exactly the concatenation, in iteration order,
    of each file's header followed by its whole body. *)
Theorem context_blob_roundtrip (files : list (pystr * pystr)) (budget : Z) :
  total_size files < budget ->
  _context_blob (files_context files) budget = Ok (concat (map file_chunk files)).
Proof.
  intros H. rewrite context_blob_files, blob_loop_all by lia. reflexivity.
Qed.

Lemma context_blob_roundtrip_witness :
  total_size [(py "a.tsx", py "one"); (py "b.tsx", py "")] < 60
  /\ _context_blob (files_context [(py "a.tsx", py "one"); (py "b.tsx", py "")]) 60
     = Ok (FILE_HEADER (py "a.tsx") ++ py "one" ++ FILE_HEADER (py "b.tsx")).
Proof.
  split; [vm_compute; reflexivity|].
  apply (context_blob_roundtrip [(py "a.tsx", py "one"); (py "b.tsx", py "")] 60).
  vm_compute. reflexivity.
Defined.

(** When the sizes add up to the budget exactly, a last file with an
    empty body is left out, header included. *)
Example context_blob_exact_budget :
  total_size [(py "a", py "xyz"); (py "b", py "")] = 37
  /\ _context_blob (files_context [(py "a", py "xyz"); (py "b", py "")]) 37
     = Ok (FILE_HEADER (py "a") ++ py "xyz").
Proof. vm_compute. done. Qed.

(** ** JSON-only fallback *)

Lemma json_only_plan_propagates {W} (L : library) (C : client W) sid text ctx e (σ : state W) :
  _context_blob ctx DEFAULT_BUDGET = Raise e ->
  (_json_only_plan L C sid text ctx σ).1 = Raise e.
Proof.
  intros H. unfold _json_only_plan, mbind, M_bind, trace_m, lift. rewrite H. reflexivity.
Qed.

(** Once the snapshot is built, nothing escapes the planner. *)
Lemma json_only_plan_guarded {W} (L : library) (C : client W) sid text ctx snapshot
    (σ : state W) :
  _context_blob ctx DEFAULT_BUDGET = Ok snapshot ->
  exists acts σ', _json_only_plan L C sid text ctx σ = (Ok acts, σ').
Proof.
  intros H. unfold _json_only_plan. unfold mbind at 1, M_bind at 1, trace_m at 1.
  unfold mbind at 1, M_bind at 1, lift at 1. rewrite H.
  unfold try_except.
  match goal with |- context [match ?m ?s with _ => _ end] => destruct (m s) as [[acts|e] s'] end.
  - eauto.
  - unfold mbind, M_bind, trace_m, mret, M_ret. eauto.
Qed.

(** C3 (the code departs from it): the snapshot is built before the [try]
    block, so a context whose [files] entry is not a mapping, or holds a
    body that is not a string, makes the planner raise instead of
    returning an empty sequence. *)
Theorem json_only_plan_raises_before_try {W} (L : library) (C : client W)
    (sid text : pystr) (σ : state W) :
  (_json_only_plan L C sid text (VDict [(py "files", VNone)]) σ).1
  = Raise (AttributeError (py "'NoneType' object has no attribute 'items'"))
  /\ (_json_only_plan L C sid text (VDict [(py "files", VDict [(py "a.tsx", VInt 5)])]) σ).1
     = Raise (TypeError (py "object of type 'int' has no len()")).
Proof. split; apply json_only_plan_propagates; vm_compute; reflexivity. Qed.

(** A failure inside the [try] block is traced and gives no action. *)
Example json_only_plan_soft_failure :
  _json_only_plan plain_library (constant_client (text_response (py "not json")))
    (py "s1") (py "add a page") VNone fresh_state
  = (Ok [],
     initial_state tt
       (trace (py "s1") (py "error") (json_error (py "Expecting value"))
          (trace (py "s1") (py "step") (VDict [(py "msg", VStr (py "json-plan.start"))])
             empty_bus)) ∅).
Proof. vm_compute. reflexivity. Qed.

(** ** Minimal-action synthesizer *)

Lemma replace1_app c new s t :
  replace1 c new (s ++ t) = replace1 c new s ++ replace1 c new t.
Proof. unfold replace1. apply flat_map_app. Qed.

Lemma safe_text_chars user_text :
  safe_text user_text = flat_map escape_char user_text.
Proof.
  unfold safe_text. induction user_text as [|c s IH]; [reflexivity|].
  change (replace1 LT (py "&lt;") (c :: s))
    with ((if (c =? LT)%N then py "&lt;" else [c]) ++ replace1 LT (py "&lt;") s).
  rewrite replace1_app, IH. cbn [flat_map]. f_equal.
  unfold escape_char.
  destruct (N.eqb_spec c LT) as [->|Hlt]; [reflexivity|].
  cbn. destruct (N.eqb_spec c GT); reflexivity.
Qed.

Lemma escaped_no_angle user_text :
  Forall (fun c => c ≠ LT /\ c ≠ GT) (flat_map escape_char user_text).
Proof.
  induction user_text as [|c s IH]; [constructor|].
  cbn [flat_map]. apply Forall_app. split; [|exact IH].
  unfold escape_char.
  destruct (N.eqb_spec c LT); [repeat constructor; discriminate|].
  destruct (N.eqb_spec c GT); repeat constructor; try discriminate; assumption.
Qed.

Lemma escaped_plain user_text :
  Forall (fun c => c ≠ LT /\ c ≠ GT) user_text -> flat_map escape_char user_text = user_text.
Proof.
  induction 1 as [|c s [H1 H2] _ IH]; [reflexivity|].
  cbn [flat_map]. rewrite IH. unfold escape_char.
  destruct (N.eqb_spec c LT); [done|]. destruct (N.eqb_spec c GT); done.
Qed.

(** C8, as the code has it: for every user text the synthesizer returns
    exactly one action: an [update_file] on [app/page.tsx] whose contents
    are the fixed page with the user text embedded in its heading, every
    [<] replaced by [&lt;] and every [>] by [&gt;] and every other
    character, the ampersand and the quotation marks among them, as it
    is, so that no angle bracket of the text reaches the page; the
    function has no failing case. *)
Theorem synthesize_minimal_action_single (user_text : pystr) :
  exists contents,
    _synthesize_minimal_action user_text
      = [VDict [(py "type", VStr (py "update_file"));
                (py "path", VStr (py "app/page.tsx"));
                (py "contents", VStr contents)]]
    /\ contents = TSX_HEAD ++ flat_map escape_char user_text ++ TSX_TAIL
    /\ Forall (fun c => c ≠ LT /\ c ≠ GT) (flat_map escape_char user_text)
    /\ (Forall (fun c => c ≠ LT /\ c ≠ GT) user_text ->
        flat_map escape_char user_text = user_text).
Proof.
  exists (TSX_HEAD ++ flat_map escape_char user_text ++ TSX_TAIL).
  split_and!.
  - unfold _synthesize_minimal_action. by rewrite safe_text_chars.
  - reflexivity.
  - apply escaped_no_angle.
  - apply escaped_plain.
Qed.

Example safe_text_example :
  safe_text (py "a<b> & c") = py "a&lt;b&gt; & c".
Proof. vm_compute. reflexivity. Qed.

(** C8 as stated fails: of the characters that HTML gives a meaning, the
    ampersand and the quotation marks are embedded as they are. *)
Lemma synthesize_keeps_ampersand_and_quotes :
  _synthesize_minimal_action (py "Tom & " ++ DQUOTE ++ py "Jerry's" ++ DQUOTE)
  = [VDict [(py "type", VStr (py "update_file"));
            (py "path", VStr (py "app/page.tsx"));
            (py "contents",
             VStr (TSX_HEAD ++ py "Tom & " ++ DQUOTE ++ py "Jerry's" ++ DQUOTE ++ TSX_TAIL))]].
Proof. vm_compute. reflexivity. Qed.

(** ** Result summarizer *)

Lemma index_type_ok a t : index a (py "type") = Ok t -> has_type a = true.
Proof.
  destruct a as [| | | | | |d|]; try discriminate.
  cbn [index has_type]. destruct (lookup_key (py "type") d) eqn:E; [|discriminate].
  intros _. apply bool_decide_eq_true. eauto.
Qed.

Lemma index_type_raise a e :
  index a (py "type") = Raise e ->
  has_type a = false /\ (e = KeyError (py "type") \/ e = no_string_index a).
Proof.
  destruct a as [| | | | | |d|]; cbn [index has_type]; try (intros [= <-]; auto).
  destruct (lookup_key (py "type") d) eqn:E; [discriminate|].
  intros [= <-]. split; [|auto]. apply bool_decide_eq_false. intros [x Hx]. discriminate.
Qed.

Lemma count_type_ok ty acts n :
  count_type ty acts = Ok n -> forallb has_type acts = true.
Proof.
  revert n. induction acts as [|a acts IH]; intros n H; [reflexivity|].
  cbn [count_type] in H.
  apply res_bind_ok in H as (t & Ht & H).
  apply res_bind_ok in H as (m & Hm & _).
  cbn [forallb]. rewrite (index_type_ok _ _ Ht), (IH _ Hm). reflexivity.
Qed.

Lemma count_type_raise ty acts :
  forallb has_type acts = false ->
  count_type ty acts = Raise (KeyError (py "type"))
  \/ exists b, b ∈ acts /\ is_dict b = false /\ count_type ty acts = Raise (no_string_index b).
Proof.
  induction acts as [|a acts IH]; intros H; [discriminate|].
  cbn [count_type forallb] in *.
  destruct (index a (py "type")) as [t|e] eqn:E.
  - rewrite (index_type_ok _ _ E) in H. cbn [andb] in H.
    cbn [mbind res_bind]. destruct (IH H) as [-> | (b & Hb & Hd & ->)]; [auto|].
    right. exists b. split_and!; [by right|done|done].
  - destruct (is_dict a) eqn:Hd.
    + destruct a as [| | | | | |d|]; try discriminate. cbn [index] in E.
      destruct (lookup_key (py "type") d); [discriminate|]. injection E as <-. auto.
    + right. exists a. split_and!; [by left|done|].
      destruct a; try discriminate; injection E as <-; reflexivity.
Qed.

Lemma summary_ok_types (L : library) user_text acts s :
  build_assistant_message L user_text acts = Ok s ->
  Forall (fun a => has_type a = true) acts.
Proof.
  intros H. unfold build_assistant_message in H.
  apply res_bind_ok in H as (n & Hn & _).
  apply Forall_forall. intros a Ha.
  apply count_type_ok in Hn. rewrite forallb_forall in Hn. apply Hn.
  by apply list_elem_of_In.
Qed.

(** C10: the summarizer returns a summary only for action lists in which
    every action is a mapping carrying a [type] key; if some action lacks
    it, the lookup [a["type"]] of the first count fails and the summarizer
    raises ([KeyError] on a mapping without the key, the [TypeError] of
    the first element that is no mapping) instead of returning. *)
Theorem summary_requires_type (L : library) (user_text : pystr) (acts : list value) :
  (forall s, build_assistant_message L user_text acts = Ok s ->
             Forall (fun a => has_type a = true) acts)
  /\ ((exists a, a ∈ acts /\ has_type a = false) ->
      build_assistant_message L user_text acts = Raise (KeyError (py "type"))
      \/ exists b, b ∈ acts /\ is_dict b = false
           /\ build_assistant_message L user_text acts = Raise (no_string_index b)).
Proof.
  split.
  - apply summary_ok_types.
  - intros (a & Ha & Hty). unfold build_assistant_message.
    assert (Hall : forallb has_type acts = false).
    { destruct (forallb has_type acts) eqn:E; [|reflexivity].
      rewrite forallb_forall in E. apply list_elem_of_In in Ha.
      specialize (E a Ha). congruence. }
    destruct (count_type_raise (py "create_file") acts Hall) as [-> | (b & Hb & Hd & ->)];
      [auto|]. right. by exists b.
Qed.

Lemma summary_requires_type_witness :
  build_assistant_message plain_library (py "add a page")
    [VDict [(py "type", VStr (py "create_file"))]; VDict [(py "path", VStr (py "a.tsx"))]]
  = Raise (KeyError (py "type"))
  \/ exists b,
       b ∈ [VDict [(py "type", VStr (py "create_file"))]; VDict [(py "path", VStr (py "a.tsx"))]]
       /\ is_dict b = false
       /\ build_assistant_message plain_library (py "add a page")
            [VDict [(py "type", VStr (py "create_file"))];
             VDict [(py "path", VStr (py "a.tsx"))]]
          = Raise (no_string_index b).
Proof.
  apply (proj2 (summary_requires_type plain_library (py "add a page")
    [VDict [(py "type", VStr (py "create_file"))]; VDict [(py "path", VStr (py "a.tsx"))]])).
  exists (VDict [(py "path", VStr (py "a.tsx"))]). split.
  - apply list_elem_of_In. right. left. reflexivity.
  - reflexivity.
Defined.

(** The JSON-only fallback hands its list over as parsed: an action
    without [type] reaches the summarizer and the request ends in the
    service error. *)
Example plan_endpoint_untyped_action :
  (plan_endpoint (loose_library (VDict [(py "actions", VList [VDict [(py "path", VStr (py "a"))]])]))
     (constant_client (text_response (py "{}")))
     (plan_request "add a page" None) fresh_state).1
  = Raise (HTTPException 500 (py "'type'")).
Proof. vm_compute. reflexivity. Qed.

(** ** Plan orchestrator *)

Lemma synthesized_nonempty user_text : _synthesize_minimal_action user_text ≠ [].
Proof. discriminate. Qed.

Lemma choose_actions_nonempty {W} (L : library) (C : client W) sid user_text ctx
    (σ σ' : state W) acts :
  choose_actions L C sid user_text ctx σ = (Ok acts, σ') -> acts ≠ [].
Proof.
  unfold choose_actions. intros H.
  apply bind_ok in H as (captured & s1 & _ & H).
  apply bind_ok in H as (acts0 & s2 & _ & H).
  destruct acts0 as [|a acts0].
  - skip_step H. injection H as <- _. apply synthesized_nonempty.
  - injection H as <- _. discriminate.
Qed.

(** The chain of strategies: what was captured wins; else what the
    JSON-only pass returned, if anything; else the synthesized action. *)
Lemma choose_actions_chain {W} (L : library) (C : client W) sid user_text ctx (σ : state W) :
  choose_actions L C sid user_text ctx σ =
  match actions (capture σ) with
  | a :: l => (Ok (a :: l), σ)
  | [] =>
      match _json_only_plan L C sid user_text ctx σ with
      | (Ok (a :: l), σ') => (Ok (a :: l), σ')
      | (Ok [], σ') =>
          (trace_m sid "step" (VDict [(py "msg", VStr (py "synthesize.minimal"))]) ;;
           mret (_synthesize_minimal_action user_text)) σ'
      | (Raise e, σ') => (Raise e, σ')
      end
  end.
Proof.
  unfold choose_actions, mbind at 1, M_bind at 1, gets.
  destruct (actions (capture σ)) as [|a l]; [|reflexivity].
  unfold mbind at 1, M_bind at 1.
  destruct (_json_only_plan L C sid user_text ctx σ) as [[[|a l]|e] σ']; reflexivity.
Qed.

Lemma make_PlanResponse_ok msg acts resp :
  make_PlanResponse msg acts = Ok resp ->
  PlanResponse.assistant_message resp = Some msg /\ PlanResponse.actions resp = acts
  /\ forallb is_dict acts = true.
Proof.
  unfold make_PlanResponse. destruct (forallb is_dict acts); [|discriminate].
  intros [= <-]. done.
Qed.

Lemma plan_body_ok {W} (L : library) (C : client W) sid req (σ σ' : state W) resp :
  plan_body L C sid req σ = (Ok resp, σ') ->
  PlanResponse.actions resp ≠ []
  /\ Forall (fun a => is_dict a = true /\ has_type a = true) (PlanResponse.actions resp)
  /\ exists msg,
       PlanResponse.assistant_message resp = Some msg
       /\ build_assistant_message L (input req) (PlanResponse.actions resp) = Ok msg.
Proof.
  unfold plan_body. intros H.
  do 4 skip_step H.
  apply bind_ok in H as (acts & s5 & Hacts & H).
  skip_step H.
  apply bind_ok in H as (msg & s7 & Hmsg & H).
  apply lift_ok in Hmsg as [Hmsg ->].
  apply lift_ok in H as [H ->].
  apply make_PlanResponse_ok in H as (Hm & Ha & Hd).
  rewrite Ha. split_and!.
  - eapply choose_actions_nonempty, Hacts.
  - apply Forall_forall. intros a Hin. split.
    + rewrite forallb_forall in Hd. apply Hd. by apply list_elem_of_In.
    + pose proof (summary_ok_types L (input req) acts msg Hmsg) as Hty.
      rewrite Forall_forall in Hty. by apply Hty.
  - eauto.
Qed.

(** C1: for every request, library, transport and state, [plan_endpoint]
    ends in one of two ways.  Either it returns a response, and then the
    response is whole: its action list is not empty, every action is a
    mapping with a [type], and its message is the summary of exactly those
    actions.  Or the [try] block raised, and then the caller gets the
    service error (status 500, carrying the text of the exception) after
    an [error] event was pushed on the session's bus; no response object
    is returned in that case. *)
Theorem plan_endpoint_nonempty_or_error {W} (L : library) (C : client W)
    (req : PlanRequest) (σ : state W) :
  match plan_endpoint L C req σ with
  | (Ok resp, _) =>
      PlanResponse.actions resp ≠ []
      /\ Forall (fun a => is_dict a = true /\ has_type a = true) (PlanResponse.actions resp)
      /\ exists msg,
           PlanResponse.assistant_message resp = Some msg
           /\ build_assistant_message L (input req) (PlanResponse.actions resp) = Ok msg
  | (Raise e, σ') =>
      exists cause σ1,
        e = HTTPException 500 (exn_str cause)
        /\ plan_body L C (str_or (session_id req) (uuid4 L)) req σ = (Raise cause, σ1)
        /\ tbus σ' = trace (str_or (session_id req) (uuid4 L)) (py "error")
                       (error_payload "invocations" cause) (tbus σ1)
  end.
Proof.
  unfold plan_endpoint, try_except.
  destruct (plan_body L C (str_or (session_id req) (uuid4 L)) req σ) as [[resp|cause] σ1] eqn:E.
  - eapply plan_body_ok, E.
  - unfold mbind, M_bind, trace_m, raise. cbn [tbus].
    exists cause, σ1. split_and!; reflexivity.
Qed.

(** Both model-driven strategies give nothing: the answer is the single
    synthesized action. *)
Example plan_endpoint_synthesizes :
  (plan_endpoint plain_library (constant_client (text_response (py "no plan, sorry")))
     (plan_request "do nothing useful" None) fresh_state).1
  = Ok {| PlanResponse.assistant_message :=
            Some (CHECK_MARK ++ py " changes applied (0 create, 1 update, 0 delete, 0 run)."
                  ++ py " Touched: app/page.tsx. You asked: " ++ LDQUO
                  ++ py "do nothing useful" ++ RDQUO ++ py ".");
          PlanResponse.actions := _synthesize_minimal_action (py "do nothing useful") |}.
Proof. vm_compute. reflexivity. Qed.

(** A context whose [files] entry is [null] stops the JSON-only fallback
    before its [try] block, and with it the request. *)
Example plan_endpoint_unreadable_files :
  (plan_endpoint plain_library (constant_client (text_response (py "no plan")))
     (plan_request "add a page" (Some [(py "files", VNone)])) fresh_state).1
  = Raise (HTTPException 500 (py "'NoneType' object has no attribute 'items'")).
Proof. vm_compute. reflexivity. Qed.

(** ** Trace bus *)

Lemma get_queue_registered sid q b :
  SESSION_QUEUES b !! sid = Some q -> _get_queue sid b = (q, b).
Proof. unfold _get_queue. by intros ->. Qed.

Lemma get_queue_fresh sid b :
  SESSION_QUEUES b !! sid = None ->
  SESSION_QUEUES (_get_queue sid b).2 !! sid = Some (length (queues b))
  /\ queues (_get_queue sid b).2 !! length (queues b) = Some []
  /\ (_get_queue sid b).1 = length (queues b).
Proof.
  unfold _get_queue. intros ->. cbn [fst snd SESSION_QUEUES queues]. split_and!.
  - apply lookup_insert_eq.
  - rewrite lookup_app_r by lia. by rewrite Nat.sub_diag.
  - reflexivity.
Qed.

Lemma get_queue_idem sid b :
  _get_queue sid (_get_queue sid b).2 = _get_queue sid b.
Proof.
  destruct (SESSION_QUEUES b !! sid) as [q|] eqn:E.
  - rewrite (get_queue_registered sid q b E). cbn [snd].
    apply (get_queue_registered sid q b E).
  - destruct (get_queue_fresh sid b E) as (H1 & _ & H3).
    rewrite (get_queue_registered _ _ _ H1). rewrite <- H3. by destruct (_get_queue sid b).
Qed.

Lemma trace_after_get_queue sid k p b :
  trace sid k p (_get_queue sid b).2 = trace sid k p b.
Proof. unfold trace. rewrite get_queue_idem. reflexivity. Qed.

Lemma trace_stream_after_get_queue sid b :
  trace_stream sid (_get_queue sid b).2 = trace_stream sid b.
Proof. unfold trace_stream. rewrite get_queue_idem. reflexivity. Qed.

Lemma trace_registered sid q k p b :
  SESSION_QUEUES b !! sid = Some q -> trace sid k p b = put_nowait q (k, p) b.
Proof. intros H. unfold trace. by rewrite (get_queue_registered _ _ _ H). Qed.

(** Events pushed to a registered queue line up behind what it holds. *)
Lemma trace_all_registered sid q evs : forall b l,
  SESSION_QUEUES b !! sid = Some q -> queues b !! q = Some l ->
  SESSION_QUEUES (trace_all sid evs b) !! sid = Some q
  /\ queues (trace_all sid evs b) !! q = Some (l ++ evs)
  /\ length (queues (trace_all sid evs b)) = length (queues b).
Proof.
  induction evs as [|[k p] evs IH]; intros b l Hq Hl.
  - cbn. by rewrite app_nil_r.
  - cbn [trace_all fold_left fst snd]. rewrite (trace_registered _ _ _ _ _ Hq).
    destruct (IH (put_nowait q (k, p) b) (l ++ [(k, p)])) as (H1 & H2 & H3).
    + exact Hq.
    + cbn [put_nowait queues]. rewrite list_lookup_alter_eq, Hl. reflexivity.
    + unfold trace_all in *. split_and!; [done| |].
      * by rewrite H2, <- app_assoc.
      * rewrite H3. cbn [put_nowait queues]. apply length_alter.
Qed.

Lemma trace_all_after_get_queue sid evs b :
  trace_stream sid (trace_all sid evs (_get_queue sid b).2)
  = trace_stream sid (trace_all sid evs b).
Proof.
  destruct evs as [|[k p] evs].
  - cbn. apply trace_stream_after_get_queue.
  - cbn [trace_all fold_left fst snd]. by rewrite trace_after_get_queue.
Qed.

(** A subscriber inside its loop drains its queue in order and then gets
    the keepalive. *)
Lemma gen_take_running sid q evs : forall b,
  queues b !! q = Some evs ->
  (gen_take (length evs + 1) (running sid q) b).1.1 = map to_sse evs ++ [Keepalive].
Proof.
  induction evs as [|[k p] evs IH]; intros b H.
  - cbn. unfold loop_pass. cbn. rewrite H. reflexivity.
  - cbn [length Nat.add gen_take gen_next running sub_state]. unfold loop_pass.
    change (sub_queue (running sid q)) with q. rewrite H.
    match goal with |- context [gen_take _ _ ?b'] => specialize (IH b') end.
    destruct (gen_take (length evs + 1) (running sid q) _) as [[xs s'] b''].
    cbn [fst snd map app] in *. f_equal. apply IH.
    cbn [queues]. apply list_lookup_insert_eq. by eapply lookup_lt_Some.
Qed.

(** So does a subscriber that enters its loop from the greeting. *)
Lemma gen_take_greeted sid q evs b :
  queues b !! q = Some evs ->
  (gen_take (length evs + 1) (greeted sid q) b).1.1 = map to_sse evs ++ [Keepalive].
Proof.
  intros H. destruct evs as [|[k p] evs].
  - cbn. unfold loop_pass. cbn. rewrite H. reflexivity.
  - cbn [length Nat.add gen_take gen_next greeted sub_state sub_queue sub_session].
    fold (running sid q). unfold loop_pass.
    change (sub_queue (running sid q)) with q. rewrite H.
    match goal with |- context [gen_take _ _ ?b'] =>
      pose proof (gen_take_running sid q evs b') as IH end.
    destruct (gen_take (length evs + 1) (running sid q) _) as [[xs s'] b''].
    cbn [fst snd map app] in *. f_equal. apply IH.
    cbn [queues]. apply list_lookup_insert_eq. by eapply lookup_lt_Some.
Qed.

(** Events pushed while the session has no queue wait in a new queue for
    the next subscriber. *)
Lemma buffered_until_subscribed sid evs b :
  SESSION_QUEUES b !! sid = None ->
  sub_queue (trace_stream sid (trace_all sid evs b)).1 = length (queues b)
  /\ received (length evs + 2) (trace_stream sid (trace_all sid evs b))
     = Hello :: map to_sse evs ++ [Keepalive].
Proof.
  intros Hnone. rewrite <- trace_all_after_get_queue.
  destruct (get_queue_fresh sid b Hnone) as (Hreg & Hq & _).
  destruct (trace_all_registered sid _ evs _ [] Hreg Hq) as (H1 & H2 & _).
  unfold received, trace_stream. rewrite (get_queue_registered _ _ _ H1). cbn [fst snd sub_queue].
  split; [reflexivity|].
  replace (length evs + 2)%nat with (S (length evs + 1)) by lia.
  cbn [gen_take gen_next sub_state sub_session sub_queue].
  fold (greeted sid (length (queues b))).
  pose proof (gen_take_greeted sid _ evs _ H2) as Ht.
  destruct (gen_take (length evs + 1) _ _) as [[xs s'] b'']. cbn [fst snd] in *.
  by rewrite Ht.
Qed.

(** C4, as the code has it.  (1) Closing a subscriber that is suspended
    inside its loop removes the queue registered for its session from the
    registry, touches no other session and leaves the queue objects
    alone.  (2) Closing a subscriber before that, not started or at its
    greeting, changes nothing.  (3) [trace] creates the queue of a session
    that has none: the events pushed to such a session wait in a new queue
    object, and the subscriber that connects next receives, after its
    greeting, exactly these events in the order of their pushes, and then
    the keepalive.  (4) In particular the subscriber that connects after
    a teardown inside the loop reads a new queue object: it receives the
    events pushed since the teardown and nothing that waited in a queue
    removed before. *)
Theorem trace_bus_buffers_between_subscribers (b : bus) (sid : pystr) (s : subscriber)
    (evs : list event) :
  (sub_state s = Running ->
     SESSION_QUEUES (gen_close s b).2 = delete (sub_session s) (SESSION_QUEUES b)
     /\ queues (gen_close s b).2 = queues b)
  /\ (sub_state s <> Running -> (gen_close s b).2 = b)
  /\ (SESSION_QUEUES b !! sid = None ->
      sub_queue (trace_stream sid (trace_all sid evs b)).1 = length (queues b)
      /\ received (length evs + 2) (trace_stream sid (trace_all sid evs b))
         = Hello :: map to_sse evs ++ [Keepalive])
  /\ (sub_state s = Running ->
      let b1 := (gen_close s b).2 in
      sub_queue (trace_stream (sub_session s) (trace_all (sub_session s) evs b1)).1
      = length (queues b)
      /\ received (length evs + 2)
           (trace_stream (sub_session s) (trace_all (sub_session s) evs b1))
         = Hello :: map to_sse evs ++ [Keepalive]).
Proof.
  split_and!.
  - intros Hs. unfold gen_close. rewrite Hs. split; reflexivity.
  - intros Hs. unfold gen_close. destruct (sub_state s); [reflexivity..|done|reflexivity].
  - apply buffered_until_subscribed.
  - intros Hs. cbn zeta. unfold gen_close. rewrite Hs. cbn [snd].
    apply (buffered_until_subscribed (sub_session s) evs
             {| SESSION_QUEUES := delete (sub_session s) (SESSION_QUEUES b);
                queues := queues b |}).
    apply lookup_delete_eq.
Qed.

Lemma trace_bus_buffers_between_subscribers_witness :
  received 3
    (trace_stream (py "s")
       (trace_all (py "s") [(py "late", VNone)]
          (gen_close (running (py "s") 0) (trace (py "s") (py "early") VNone empty_bus)).2))
  = [Hello; Event (py "late") VNone; Keepalive].
Proof.
  exact (proj2 (proj2 (proj2 (proj2 (trace_bus_buffers_between_subscribers
           (trace (py "s") (py "early") VNone empty_bus) (py "s") (running (py "s") 0)
           [(py "late", VNone)]))) eq_refl)).
Defined.

(** C4 as stated fails: an event pushed before the subscriber connects is
    delivered to it, and an event pushed after a subscriber disconnected
    from inside its loop is delivered to the next subscriber of the
    session. *)
Lemma trace_bus_replays_earlier_events :
  received 2 (trace_stream (py "s") (trace (py "s") (py "step") (VDict []) empty_bus))
    = [Hello; Event (py "step") (VDict [])]
  /\ (let '(s1, b1) := trace_stream (py "s") empty_bus in
      let '(greeting, s1, b1) := gen_next s1 b1 in
      let '(waited, s1, b1) := gen_next s1 b1 in
      let '(_, b2) := gen_close s1 b1 in
      let b3 := trace (py "s") (py "late") (VDict []) b2 in
      greeting = Some Hello /\ waited = Some Keepalive
      /\ SESSION_QUEUES b2 !! py "s" = None
      /\ received 2 (trace_stream (py "s") b3) = [Hello; Event (py "late") (VDict [])]).
Proof. split; [vm_compute; reflexivity|]. vm_compute. split_and!; reflexivity. Qed.

(** A subscriber that is still connected when another one of the same
    session disconnects keeps the removed queue: later events pass it by. *)
Example trace_bus_orphaned_subscriber :
  let '(s1, b) := trace_stream (py "s") empty_bus in
  let '(s2, b) := trace_stream (py "s") b in
  let '(_, s1, b) := gen_next s1 b in
  let '(_, s1, b) := gen_next s1 b in
  let '(_, s2, b) := gen_next s2 b in
  let '(_, b) := gen_close s1 b in
  let b := trace (py "s") (py "step") (VDict []) b in
  (gen_next s2 b).1.1 = Some Keepalive.
Proof. vm_compute. reflexivity. Qed.

(** A subscriber closed at its greeting has not entered the [try] block:
    the queue stays registered, and an event pushed afterwards is waiting
    in it for the next subscriber, behind what the queue held. *)
Example trace_bus_closed_at_greeting :
  let b := trace (py "s") (py "early") (VDict []) empty_bus in
  let '(s1, b) := trace_stream (py "s") b in
  let '(_, s1, b) := gen_next s1 b in
  let '(_, b) := gen_close s1 b in
  let b := trace (py "s") (py "late") (VDict []) b in
  received 3 (trace_stream (py "s") b)
  = [Hello; Event (py "early") (VDict []); Event (py "late") (VDict [])].
Proof. vm_compute. reflexivity. Qed.

(** The teardown removes whatever queue is registered for the session:
    when a second subscriber of the session is torn down after the push,
    the event that waited in the new queue is lost with it. *)
Example trace_bus_second_teardown :
  let '(s1, b) := trace_stream (py "s") empty_bus in
  let '(s2, b) := trace_stream (py "s") b in
  let '(_, s1, b) := gen_next s1 b in
  let '(_, s1, b) := gen_next s1 b in
  let '(_, s2, b) := gen_next s2 b in
  let '(_, s2, b) := gen_next s2 b in
  let '(_, b) := gen_close s1 b in
  let b := trace (py "s") (py "step") (VDict []) b in
  let '(_, b) := gen_close s2 b in
  received 3 (trace_stream (py "s") b) = [Hello; Keepalive; Keepalive].
Proof. vm_compute. reflexivity. Qed.

(** ** Chat endpoint *)

Lemma len_clip text : len (clip text) <= 222.
Proof.
  unfold clip. destruct (Z.gtb_spec (len text) 220) as [H|H]; [|lia].
  rewrite !len_app.
  pose proof (len_rstrip (slice_to 220 text)).
  pose proof (len_slice_to_le 220 text).
  change (len (py " ")) with 1. change (len ELLIPSIS) with 1. lia.
Qed.

Lemma text_or_placeholder_nonempty joined : text_or_placeholder joined ≠ [].
Proof. unfold text_or_placeholder. destruct (strip joined); discriminate. Qed.

Lemma call_net_ok {W A} (m : M W A) (σ σ' : state W) a :
  call_net m σ = (Ok a, σ') -> (m (net σ)).1 = Ok a.
Proof. unfold call_net. destruct (m (net σ)) as [r w']. by intros [= -> _]. Qed.

Lemma chat_body_output {W} (L : library) (C : client W) req (σ σ' : state W) resp :
  chat_body L C req σ = (Ok resp, σ') ->
  exists w messages reply text,
    (converse L C (Some CHAT_SYSTEM) messages None None None w).1 = Ok reply
    /\ assistant_text_of reply text
    /\ assistant_output resp = clip text.
Proof.
  unfold chat_body. intros H.
  apply bind_ok in H as (history & s1 & _ & H).
  apply bind_ok in H as (? & s2 & _ & H).
  apply bind_ok in H as (r & s3 & Hr & H).
  apply bind_ok in H as (content & s4 & Hc & H).
  apply bind_ok in H as (texts & s5 & Ht & H).
  apply bind_ok in H as (joined & s6 & Hj & H).
  do 3 skip_step H.
  injection H as <- _. cbn [assistant_output].
  apply call_net_ok in Hr. apply lift_ok in Hc as [Hc _].
  apply lift_ok in Ht as [Ht _]. apply lift_ok in Hj as [Hj _].
  exists (net s2), (history ++ [user_message (user_input req)]), r, (text_or_placeholder joined).
  split_and!; [done| |done].
  exists content, texts, joined. done.
Qed.

(** C9, as the code has it: when [chat_send] returns, its
    [assistant_output] comes from the assistant text of the transport's
    reply (the text parts joined by newlines and stripped, or the
    placeholder when that is empty): a text of at most 220 characters is
    returned unchanged; a longer one is cut to its first 220 characters,
    stripped of trailing white space and followed by a space and an
    ellipsis, so the returned string has at most 222 characters.
    Otherwise the caller gets the service error. *)
Theorem chat_output_clipped {W} (L : library) (C : client W) (req : ChatSendRequest)
    (σ : state W) :
  match chat_send L C req σ with
  | (Ok resp, _) =>
      exists w messages reply text,
        (converse L C (Some CHAT_SYSTEM) messages None None None w).1 = Ok reply
        /\ assistant_text_of reply text
        /\ text ≠ []
        /\ assistant_output resp = clip text
        /\ len (assistant_output resp) <= 222
        /\ (len text <= 220 -> assistant_output resp = text)
        /\ (220 < len text ->
            assistant_output resp = rstrip (slice_to 220 text) ++ py " " ++ ELLIPSIS)
  | (Raise e, _) => exists detail, e = HTTPException 500 detail
  end.
Proof.
  unfold chat_send, try_except.
  destruct (chat_body L C req σ) as [[resp|cause] σ1] eqn:E.
  - apply chat_body_output in E as (w & messages & reply & text & Hr & Ht & E).
    exists w, messages, reply, text. rewrite E. split_and!; try done.
    + destruct Ht as (? & ? & joined & _ & _ & _ & ->).
      apply text_or_placeholder_nonempty.
    + apply len_clip.
    + intros H. unfold clip. destruct (Z.gtb_spec (len text) 220); [lia|done].
    + intros H. unfold clip. destruct (Z.gtb_spec (len text) 220); [done|lia].
  - unfold mbind, M_bind, trace_m, raise. eauto.
Qed.

Example chat_output_short :
  (chat_send plain_library (constant_client (text_response (py "  All good.  ")))
     chat_request fresh_state).1
  = Ok {| out_session_id := py "s1"; assistant_output := py "All good."; history_len := 2 |}.
Proof. vm_compute. reflexivity. Qed.

(** C9 as stated fails: a reply of 221 characters comes back as 222
    characters, more than the limit and more than the reply itself. *)
Lemma chat_output_exceeds_220 :
  match chat_send plain_library (constant_client (text_response long_reply))
          chat_request fresh_state with
  | (Ok resp, _) =>
      assistant_output resp = repeat 97%N 220 ++ py " " ++ ELLIPSIS
      /\ len (assistant_output resp) = 222
  | (Raise _, _) => False
  end.
Proof. vm_compute. split; reflexivity. Qed.

(** * Further properties of the code *)

(** ** The registry and the queue store *)

Lemma bus_wf_empty : bus_wf empty_bus.
Proof. split; intros *; cbn; rewrite lookup_empty; discriminate. Qed.

Lemma bus_wf_get_queue sid b : bus_wf b -> bus_wf (_get_queue sid b).2.
Proof.
  intros [Hlt Hinj]. unfold _get_queue.
  destruct (SESSION_QUEUES b !! sid) as [q|] eqn:E; [done|].
  split; cbn [snd SESSION_QUEUES queues].
  - intros s q. rewrite length_app. cbn [length].
    destruct (decide (sid = s)) as [<-|Hne].
    + rewrite lookup_insert_eq. intros [= <-]. lia.
    + rewrite lookup_insert_ne by done. intros H. specialize (Hlt _ _ H). lia.
  - intros s1 s2 q.
    destruct (decide (sid = s1)) as [<-|H1]; destruct (decide (sid = s2)) as [<-|H2];
      rewrite ?lookup_insert_eq, ?lookup_insert_ne by done; try done.
    + intros [= <-] H. specialize (Hlt _ _ H). lia.
    + intros H [= <-]. specialize (Hlt _ _ H). lia.
    + apply Hinj.
Qed.

Lemma bus_wf_same_registry b b' :
  SESSION_QUEUES b' = SESSION_QUEUES b -> length (queues b') = length (queues b) ->
  bus_wf b -> bus_wf b'.
Proof. intros Hr Hl [Hlt Hinj]. split; rewrite Hr, ?Hl; done. Qed.

Lemma bus_wf_put q item b : bus_wf b -> bus_wf (put_nowait q item b).
Proof. apply bus_wf_same_registry; [done|]. cbn. apply length_alter. Qed.

Lemma bus_wf_trace sid k p b : bus_wf b -> bus_wf (trace sid k p b).
Proof.
  intros H. unfold trace. pose proof (bus_wf_get_queue sid b H) as H'.
  destruct (_get_queue sid b) as [q b']. by apply bus_wf_put.
Qed.

Lemma bus_wf_trace_all sid evs : forall b, bus_wf b -> bus_wf (trace_all sid evs b).
Proof.
  induction evs as [|ev evs IH]; intros b H; [done|].
  cbn [trace_all fold_left]. apply IH. by apply bus_wf_trace.
Qed.

Lemma bus_wf_trace_stream sid b : bus_wf b -> bus_wf (trace_stream sid b).2.
Proof.
  intros H. unfold trace_stream. pose proof (bus_wf_get_queue sid b H) as H'.
  by destruct (_get_queue sid b) as [q b'].
Qed.

Lemma bus_wf_gen_next s b : bus_wf b -> bus_wf (gen_next s b).2.
Proof.
  intros H. unfold gen_next, loop_pass. destruct (sub_state s); try done; cbn [sub_queue].
  all: destruct (queues b !! sub_queue s) as [[|[k p] rest]|]; try done.
  all: cbn [snd]; revert H; apply bus_wf_same_registry; [done|]; cbn; apply length_insert.
Qed.

Lemma bus_wf_gen_close s b : bus_wf b -> bus_wf (gen_close s b).2.
Proof.
  intros [Hlt Hinj]. unfold gen_close. destruct (sub_state s); try done.
  split; cbn [snd SESSION_QUEUES queues].
  - intros sid q H. apply lookup_delete_Some in H as [_ H]. eauto.
  - intros s1 s2 q H1 H2. apply lookup_delete_Some in H1 as [_ H1].
    apply lookup_delete_Some in H2 as [_ H2]. eauto.
Qed.

(** X1: the trace bus keeps its registry sound.  On a bus whose registry names
    queue objects of the store, a different one for each session, every
    operation leaves such a bus: [trace], POST /trace/push, opening a
    stream, one step of a subscriber's generator, and closing it. *)
Theorem bus_wf_preserved (b : bus) :
  bus_wf b ->
  (forall sid kind payload, bus_wf (trace sid kind payload b))
  /\ (forall sid kind payload, bus_wf (trace_push sid kind payload b).2)
  /\ (forall sid, bus_wf (trace_stream sid b).2)
  /\ (forall s, bus_wf (gen_next s b).2)
  /\ (forall s, bus_wf (gen_close s b).2).
Proof.
  intros H. split_and!.
  - intros. by apply bus_wf_trace.
  - intros. unfold trace_push. pose proof (bus_wf_get_queue sid b H) as H'.
    destruct (_get_queue sid b) as [q b']. cbn [snd] in *. by apply bus_wf_trace.
  - intros. by apply bus_wf_trace_stream.
  - intros. by apply bus_wf_gen_next.
  - intros. by apply bus_wf_gen_close.
Qed.

Lemma bus_wf_preserved_witness :
  bus_wf (trace (py "s") (py "step") (VDict []) empty_bus).
Proof.
  apply (proj1 (bus_wf_preserved empty_bus bus_wf_empty)).
Defined.

(** A push to a session leaves every queue object alone that is not the
    session's. *)
Lemma trace_other_queue sid k p q' b :
  (q' < length (queues b))%nat -> SESSION_QUEUES b !! sid ≠ Some q' ->
  queues (trace sid k p b) !! q' = queues b !! q'
  /\ (q' < length (queues (trace sid k p b)))%nat
  /\ SESSION_QUEUES (trace sid k p b) !! sid ≠ Some q'.
Proof.
  intros Hlt Hne. unfold trace, _get_queue.
  destruct (SESSION_QUEUES b !! sid) as [q|] eqn:E; cbn [put_nowait queues SESSION_QUEUES].
  - assert (q ≠ q') by congruence. split_and!.
    + by apply list_lookup_alter_ne.
    + by rewrite length_alter.
    + by rewrite E.
  - split_and!.
    + rewrite list_lookup_alter_ne by lia. by apply lookup_app_l.
    + rewrite length_alter, length_app. lia.
    + rewrite lookup_insert_eq. intros [= ?]. lia.
Qed.

Lemma trace_all_other_queue sid q' evs : forall b,
  (q' < length (queues b))%nat -> SESSION_QUEUES b !! sid ≠ Some q' ->
  queues (trace_all sid evs b) !! q' = queues b !! q'.
Proof.
  induction evs as [|[k p] evs IH]; intros b Hlt Hne; [done|].
  cbn [trace_all fold_left fst snd].
  destruct (trace_other_queue sid k p q' b Hlt Hne) as (H1 & H2 & H3).
  unfold trace_all in IH. rewrite IH by done. exact H1.
Qed.

Lemma trace_other_session sid sid' k p b :
  sid ≠ sid' -> SESSION_QUEUES (trace sid k p b) !! sid' = SESSION_QUEUES b !! sid'.
Proof.
  intros Hne. unfold trace, _get_queue.
  destruct (SESSION_QUEUES b !! sid); cbn [put_nowait SESSION_QUEUES]; [done|].
  by apply lookup_insert_ne.
Qed.

Lemma trace_all_other_session sid sid' evs : forall b,
  sid ≠ sid' -> SESSION_QUEUES (trace_all sid evs b) !! sid' = SESSION_QUEUES b !! sid'.
Proof.
  induction evs as [|[k p] evs IH]; intros b Hne; [done|].
  cbn [trace_all fold_left fst snd]. unfold trace_all in IH.
  rewrite IH by done. by apply trace_other_session.
Qed.

(** What a subscriber inside its loop receives depends on its own queue
    object only. *)
Lemma gen_take_queue_only sid q n : forall b1 b2,
  queues b1 !! q = queues b2 !! q ->
  (gen_take n (running sid q) b1).1.1 = (gen_take n (running sid q) b2).1.1.
Proof.
  induction n as [|n IH]; intros b1 b2 H; [done|].
  assert (Hlen : (q < length (queues b1))%nat <-> (q < length (queues b2))%nat).
  { rewrite <- !lookup_lt_is_Some. by rewrite H. }
  cbn [gen_take gen_next running sub_state]. unfold loop_pass.
  change (sub_queue (running sid q)) with q. rewrite <- H.
  pose proof H as H0.
  destruct (queues b1 !! q) as [[|[k p] rest]|] eqn:E; rewrite <- E in H.
  - specialize (IH b1 b2 H).
    destruct (gen_take n (running sid q) b1) as [[xs1 ?] ?].
    destruct (gen_take n (running sid q) b2) as [[xs2 ?] ?]. cbn in *. by f_equal.
  - assert (Hq : (q < length (queues b1))%nat) by (by eapply lookup_lt_Some).
    specialize (IH {| SESSION_QUEUES := SESSION_QUEUES b1; queues := <[q := rest]> (queues b1) |}
                   {| SESSION_QUEUES := SESSION_QUEUES b2; queues := <[q := rest]> (queues b2) |}).
    destruct (gen_take n (running sid q) _) as [[xs1 ?] ?].
    destruct (gen_take n (running sid q) _) as [[xs2 ?] ?]. cbn in *. f_equal. apply IH.
    rewrite !list_lookup_insert_eq; [done| |]; tauto.
  - specialize (IH b1 b2 H).
    destruct (gen_take n (running sid q) b1) as [[xs1 ?] ?].
    destruct (gen_take n (running sid q) b2) as [[xs2 ?] ?]. cbn in *. by f_equal.
Qed.

(** X2: events traced to one session never reach another.  The other session
    keeps its registered queue, that queue keeps its contents, and a
    subscriber of the other session receives exactly what it would have
    received without these events. *)
Theorem trace_session_isolation (b : bus) (sid sid' : pystr) (q' : nat)
    (evs : list event) (n : nat) :
  bus_wf b -> sid ≠ sid' -> SESSION_QUEUES b !! sid' = Some q' ->
  SESSION_QUEUES (trace_all sid evs b) !! sid' = Some q'
  /\ queues (trace_all sid evs b) !! q' = queues b !! q'
  /\ received n (running sid' q', trace_all sid evs b) = received n (running sid' q', b).
Proof.
  intros [Hlt Hinj] Hne Hq'.
  assert (Hother : SESSION_QUEUES b !! sid ≠ Some q').
  { intros H. apply Hne. eapply Hinj; eauto. }
  assert (Hqueue : queues (trace_all sid evs b) !! q' = queues b !! q')
    by (apply trace_all_other_queue; eauto).
  split_and!.
  - by rewrite trace_all_other_session.
  - exact Hqueue.
  - unfold received. cbn [fst snd]. by apply gen_take_queue_only.
Qed.

Lemma trace_session_isolation_witness :
  received 2 (running (py "b") 0,
              trace_all (py "a") [(py "step", VNone); (py "token", VNone)]
                (trace (py "b") (py "meta") VNone empty_bus))
  = [Event (py "meta") VNone; Keepalive].
Proof.
  refine (eq_trans (proj2 (proj2 (trace_session_isolation
            (trace (py "b") (py "meta") VNone empty_bus) (py "a") (py "b") 0
            [(py "step", VNone); (py "token", VNone)] 2 _ _ _))) _).
  - apply bus_wf_trace, bus_wf_empty.
  - discriminate.
  - vm_compute. reflexivity.
  - vm_compute. reflexivity.
Defined.

(** X3: a subscriber receives what was waiting in the session's queue, then
    the events traced since, in the order of the calls and each one once,
    and then a keep-alive comment. *)
Theorem trace_fifo_behind_pending (b : bus) (sid : pystr) (q : nat)
    (pending evs : list event) :
  SESSION_QUEUES b !! sid = Some q -> queues b !! q = Some pending ->
  received (length (pending ++ evs) + 1) (running sid q, trace_all sid evs b)
  = map to_sse (pending ++ evs) ++ [Keepalive].
Proof.
  intros Hq Hp. destruct (trace_all_registered sid q evs b pending Hq Hp) as (_ & H & _).
  unfold received. cbn [fst snd]. by apply gen_take_running.
Qed.

Lemma trace_fifo_behind_pending_witness :
  received 4 (running (py "s") 0,
              trace_all (py "s") [(py "b", VNone); (py "c", VNone)]
                (trace (py "s") (py "a") VNone empty_bus))
  = [Event (py "a") VNone; Event (py "b") VNone; Event (py "c") VNone; Keepalive].
Proof.
  apply (trace_fifo_behind_pending (trace (py "s") (py "a") VNone empty_bus) (py "s") 0
           [(py "a", VNone)] [(py "b", VNone); (py "c", VNone)]).
  - vm_compute. reflexivity.
  - vm_compute. reflexivity.
Defined.

(** X4: when a subscriber that is suspended inside its loop closes its
    stream, the registry forgets the session's queue although another
    subscriber may still hold it: events traced afterwards go to a new
    queue object, created at the first of them, and a subscriber still
    attached to the old queue never receives them.  A subscriber closed
    at its greeting has not entered the [try] block: the bus stays as it
    was, and a subscriber attached to the queue receives the later events
    behind what was waiting. *)
Theorem trace_orphaned_subscriber (b : bus) (sid : pystr) (q : nat)
    (evs : list event) (n : nat) :
  bus_wf b -> SESSION_QUEUES b !! sid = Some q ->
  let b1 := (gen_close (running sid q) b).2 in
  queues (trace_all sid evs b1) !! q = queues b !! q
  /\ received n (running sid q, trace_all sid evs b1) = received n (running sid q, b)
  /\ (evs ≠ [] -> SESSION_QUEUES (trace_all sid evs b1) !! sid = Some (length (queues b)))
  /\ (gen_close (greeted sid q) b).2 = b
  /\ (forall pending, queues b !! q = Some pending ->
      received (length (pending ++ evs) + 1)
        (running sid q, trace_all sid evs (gen_close (greeted sid q) b).2)
      = map to_sse (pending ++ evs) ++ [Keepalive]).
Proof.
  intros [Hlt Hinj] Hq. cbn zeta.
  assert (Hgreeting : forall pending, queues b !! q = Some pending ->
            received (length (pending ++ evs) + 1)
              (running sid q, trace_all sid evs (gen_close (greeted sid q) b).2)
            = map to_sse (pending ++ evs) ++ [Keepalive]).
  { intros pending Hp. cbn [gen_close greeted sub_state snd].
    destruct (trace_all_registered sid q evs b pending Hq Hp) as (_ & H & _).
    unfold received. cbn [fst snd]. by apply gen_take_running. }
  cbn [gen_close running greeted sub_state sub_session snd] in *.
  set (b1 := {| SESSION_QUEUES := delete sid (SESSION_QUEUES b); queues := queues b |}).
  assert (Hnone : SESSION_QUEUES b1 !! sid = None) by apply lookup_delete_eq.
  assert (Hqueue : queues (trace_all sid evs b1) !! q = queues b !! q).
  { change (queues b) with (queues b1). apply trace_all_other_queue.
    - cbn. eauto.
    - by rewrite Hnone. }
  split_and!.
  - exact Hqueue.
  - unfold received. cbn [fst snd]. by apply gen_take_queue_only.
  - intros Hevs. destruct evs as [|[k p] evs]; [done|].
    cbn [trace_all fold_left fst snd]. rewrite <- trace_after_get_queue.
    destruct (get_queue_fresh sid b1 Hnone) as (Hreg & Hq0 & _).
    rewrite (trace_registered _ _ _ _ _ Hreg).
    destruct (trace_all_registered sid (length (queues b1)) evs
                (put_nowait (length (queues b1)) (k, p) (_get_queue sid b1).2) [(k, p)])
      as (H1 & _ & _).
    + exact Hreg.
    + cbn [put_nowait queues]. rewrite list_lookup_alter_eq, Hq0. reflexivity.
    + exact H1.
  - reflexivity.
  - exact Hgreeting.
Qed.

Lemma trace_orphaned_subscriber_witness :
  received 2 (running (py "s") 0,
              trace_all (py "s") [(py "late", VNone)]
                (gen_close (running (py "s") 0) (trace (py "s") (py "a") VNone empty_bus)).2)
  = [Event (py "a") VNone; Keepalive].
Proof.
  refine (eq_trans (proj1 (proj2 (trace_orphaned_subscriber
            (trace (py "s") (py "a") VNone empty_bus) (py "s") 0 [(py "late", VNone)] 2 _ _))) _).
  - apply bus_wf_trace, bus_wf_empty.
  - vm_compute. reflexivity.
  - vm_compute. reflexivity.
Defined.

(** X5: POST /trace/push answers with the [ok] object and does to the bus
    exactly what [trace] does; the registration it performs first adds
    nothing, because [_get_queue] is idempotent. *)
Theorem trace_push_is_trace (sid kind : pystr) (payload : value) (b : bus) :
  trace_push sid kind payload b = (VDict [(py "ok", VBool true)], trace sid kind payload b)
  /\ _get_queue sid (_get_queue sid b).2 = _get_queue sid b.
Proof.
  split.
  - unfold trace_push. pose proof (trace_after_get_queue sid kind payload b) as H.
    destruct (_get_queue sid b) as [q b1]. cbn [snd] in H. by rewrite H.
  - apply get_queue_idem.
Qed.

(** ** Chat sessions *)

Lemma chat_body_sessions {W} (L : library) (C : client W) req (σ : state W) :
  let sid := str_or (chat_session_id req) (uuid4 L) in
  let old := default [] (_SESSIONS σ !! sid) in
  match chat_body L C req σ with
  | (Ok resp, σ') =>
      _SESSIONS σ' = <[sid := old ++ chat_turns (user_input req) (assistant_output resp)]>
                       (_SESSIONS σ)
      /\ history_len resp = len old + 2
      /\ out_session_id resp = sid
  | (Raise e, σ') => _SESSIONS σ' = <[sid := old]> (_SESSIONS σ)
  end.
Proof.
  cbn zeta. unfold chat_body.
  set (sid := str_or (chat_session_id req) (uuid4 L)).
  unfold mbind at 1, M_bind at 1, _get_history.
  set (old := default [] (_SESSIONS σ !! sid)).
  assert (Hget : exists σ0, (match _SESSIONS σ !! sid with
                    | Some h => (Ok h, σ)
                    | None => (Ok [], {| net := net σ; tbus := tbus σ;
                                         _SESSIONS := <[sid := []]> (_SESSIONS σ);
                                         assistant_chunks := assistant_chunks σ;
                                         capture := capture σ |})
                    end) = (Ok old, σ0) /\ _SESSIONS σ0 = <[sid := old]> (_SESSIONS σ)).
  { unfold old. destruct (_SESSIONS σ !! sid) as [h|] eqn:E; cbn [default].
    - exists σ. split; [done|]. by rewrite insert_id.
    - eexists. split; [done|]. reflexivity. }
  destruct Hget as (σ0 & -> & H0).
  unfold mbind at 1, M_bind at 1, trace_m.
  unfold mbind at 1, M_bind at 1, call_net. cbn [net].
  destruct (converse L C (Some CHAT_SYSTEM) _ None None None (net σ0)) as [[r|e] w']; [|done].
  unfold mbind at 1, M_bind at 1, lift at 1.
  destruct (response_parts r) as [content|e]; [|done].
  unfold mbind at 1, M_bind at 1, lift at 1.
  destruct (text_parts content) as [texts|e]; [|done].
  unfold mbind at 1, M_bind at 1, lift at 1.
  destruct (join_values NL texts) as [joined|e]; [|done].
  unfold mbind, M_bind, set_history, mret, M_ret. cbn [_SESSIONS history_len out_session_id assistant_output]. rewrite H0, insert_insert_eq. unfold chat_turns. split_and!; try done.
  rewrite len_app. reflexivity.
Qed.

(** X6: [chat_send] and GET /chat/history.  After a chat that returns, the
    response names the session, [history_len] is the former length plus
    two, the history endpoint shows the former turns followed by the
    user's turn and the assistant's turn with the returned output, and no
    other session changed.  A chat that fails is answered with status 500,
    leaves the history of every session as the endpoint showed it before,
    and pushes an [error] event to the session (to [(no-session)] when the
    request names none). *)
Theorem chat_send_history {W} (L : library) (C : client W) (req : ChatSendRequest)
    (σ : state W) :
  let sid := str_or (chat_session_id req) (uuid4 L) in
  let old := default [] (_SESSIONS σ !! sid) in
  match chat_send L C req σ with
  | (Ok resp, σ') =>
      out_session_id resp = sid
      /\ history_len resp = len old + 2
      /\ chat_history sid σ'
         = VDict [(py "session_id", VStr sid);
                  (py "history",
                   VList (old ++ chat_turns (user_input req) (assistant_output resp)))]
      /\ (forall other, other ≠ sid -> chat_history other σ' = chat_history other σ)
  | (Raise e, σ') =>
      (exists detail, e = HTTPException 500 detail)
      /\ (forall s, chat_history s σ' = chat_history s σ)
      /\ exists cause b,
           tbus σ' = trace (str_or (chat_session_id req) (py "(no-session)")) (py "error")
                       (error_payload "chat_send" cause) b
  end.
Proof.
  cbn zeta. unfold chat_send, try_except.
  pose proof (chat_body_sessions L C req σ) as H. cbn zeta in H.
  destruct (chat_body L C req σ) as [[resp|cause] σ1].
  - destruct H as (Hs & Hl & Hid). split_and!; try done.
    + unfold chat_history. by rewrite Hs, lookup_insert_eq.
    + intros other Hne. unfold chat_history. by rewrite Hs, lookup_insert_ne.
  - unfold mbind, M_bind, trace_m, raise. cbn [tbus]. split_and!; [eauto| |eauto].
    intros s. unfold chat_history. cbn [_SESSIONS]. rewrite H.
    destruct (decide (s = str_or (chat_session_id req) (uuid4 L))) as [->|Hne].
    + rewrite lookup_insert_eq. reflexivity.
    + by rewrite lookup_insert_ne.
Qed.

(** ** Summaries of well-formed plans *)

Lemma plain_action_inv a :
  plain_action a = true ->
  exists d t, a = VDict d /\ lookup_key (py "type") d = Some t
    /\ str_or_falsy (lookup_key (py "path") d) = true
    /\ str_or_falsy (lookup_key (py "contents") d) = true.
Proof.
  destruct a as [| | | | | |d|]; try discriminate. cbn [plain_action].
  intros H. apply andb_true_iff in H as [H Hc]. apply andb_true_iff in H as [Ht Hp].
  apply bool_decide_eq_true in Ht as [t Ht]. eauto 10.
Qed.

Lemma count_type_plain ty acts :
  forallb plain_action acts = true -> exists n, count_type ty acts = Ok n.
Proof.
  induction acts as [|a acts IH]; intros H; [by exists O|].
  cbn [forallb] in H. apply andb_true_iff in H as [Ha H].
  apply plain_action_inv in Ha as (d & t & -> & Ht & _).
  destruct (IH H) as [n Hn]. cbn [count_type index]. rewrite Ht. cbn [mbind res_bind].
  rewrite Hn. cbn [mbind res_bind]. eauto.
Qed.

Lemma touched_paths_plain acts :
  forallb plain_action acts = true ->
  exists ps, touched_paths acts = Ok ps /\ forallb is_string ps = true.
Proof.
  induction acts as [|a acts IH]; intros H; [by exists []|].
  cbn [forallb] in H. apply andb_true_iff in H as [Ha H].
  apply plain_action_inv in Ha as (d & t & -> & _ & Hp & _).
  destruct (IH H) as (ps & Hps & Hstr). cbn [touched_paths get get_default mbind res_bind].
  destruct (lookup_key (py "path") d) as [p|]; cbn [default]; unfold id.
  - destruct (truthy p) eqn:Etr.
    + rewrite Hps. cbn [mbind res_bind]. exists (p :: ps). split; [done|].
      cbn [forallb]. rewrite Hstr.
      destruct p; try done; cbn [str_or_falsy] in Hp; rewrite Etr in Hp; discriminate.
    + exists ps. auto.
  - cbn [truthy]. exists ps. auto.
Qed.

Lemma collect_insights_plain L acts : forall insights,
  forallb plain_action acts = true -> exists hs, collect_insights L acts insights = Ok hs.
Proof.
  induction acts as [|a acts IH]; intros insights H; [by eexists|].
  cbn [forallb] in H. apply andb_true_iff in H as [Ha H].
  apply plain_action_inv in Ha as (d & t & -> & Ht & _ & Hc).
  cbn [collect_insights index]. rewrite Ht. cbn [mbind res_bind].
  destruct (is_str (py "create_file") t || is_str (py "update_file") t); [|by apply IH].
  cbn [get get_default mbind res_bind].
  destruct (lookup_key (py "contents") d) as [c|]; cbn [default truthy]; unfold id.
  - destruct (truthy c) eqn:Etr.
    + destruct c; try (cbn [str_or_falsy] in Hc; rewrite Etr in Hc; discriminate).
      cbn [describe_value mbind res_bind]. by apply IH.
    + cbn [describe_value mbind res_bind]. by apply IH.
  - cbn [describe_value mbind res_bind]. by apply IH.
Qed.

Lemma join_from_strings sep l : forall i,
  forallb is_string l = true -> exists s, join_from i sep l = Ok s.
Proof.
  induction l as [|v l IH]; intros i H; [by eexists|].
  cbn [forallb] in H. apply andb_true_iff in H as [Hv H].
  destruct v; try discriminate. cbn [join_from].
  destruct l as [|v' l']; [by eexists|].
  destruct (IH (S i) H) as [s' ->]. cbn [mbind res_bind]. by eexists.
Qed.

Lemma join_values_strings sep l :
  forallb is_string l = true -> exists s, join_values sep l = Ok s.
Proof. apply join_from_strings. Qed.

Lemma forallb_take {A} (f : A -> bool) n l : forallb f l = true -> forallb f (take n l) = true.
Proof.
  revert n. induction l as [|x l IH]; intros [|n] H; try done.
  cbn [forallb take] in *. apply andb_true_iff in H as [-> H]. by rewrite IH.
Qed.

Lemma summary_plain (L : library) (user_text : pystr) (acts : list value) :
  forallb plain_action acts = true ->
  exists s,
    build_assistant_message L user_text acts = Ok s
    /\ CHECK_MARK `prefix_of` s
    /\ summary_tail L user_text `suffix_of` s.
Proof.
  intros H. unfold build_assistant_message.
  destruct (count_type_plain (py "create_file") acts H) as [c ->].
  destruct (count_type_plain (py "update_file") acts H) as [u ->].
  destruct (count_type_plain (py "delete_file") acts H) as [d ->].
  destruct (count_type_plain (py "run_command") acts H) as [r ->].
  destruct (touched_paths_plain acts H) as (ps & -> & Hps).
  destruct (collect_insights_plain L acts [] H) as [hs ->].
  cbn [mbind res_bind].
  destruct (join_values_strings (py ", ") (slice_to 3 ps)) as [j ->].
  { unfold slice_to. by apply forallb_take. }
  cbn [mbind res_bind]. eexists. split; [reflexivity|]. split.
  - destruct (bool_decide ((c + u + d + r)%nat = 0%nat));
      rewrite <- app_assoc; by apply prefix_app_r.
  - change (py " You asked: " ++ LDQUO ++ _peek L user_text ++ RDQUO ++ py ".")
      with (summary_tail L user_text).
    generalize (summary_tail L user_text). intros t.
    repeat apply suffix_app_r. reflexivity.
Qed.

(** X7: on actions in the planner's schema (mappings with a [type] whose
    [path] and [contents], when given, are strings) [build_assistant_message]
    does not raise; the summary starts with the check mark and ends with
    the sentence that quotes the request. *)
Theorem summary_of_plain_actions (L : library) (user_text : pystr) (acts : list value) :
  forallb plain_action acts = true ->
  exists s,
    build_assistant_message L user_text acts = Ok s
    /\ CHECK_MARK `prefix_of` s
    /\ summary_tail L user_text `suffix_of` s.
Proof. apply summary_plain. Qed.

Lemma summary_of_plain_actions_witness :
  exists s,
    build_assistant_message plain_library (py "add a page")
      [VDict [(py "type", VStr (py "create_file")); (py "path", VStr (py "a.tsx"));
              (py "contents", VNone)];
       VDict [(py "type", VStr (py "run_command")); (py "command", VStr (py "npm i"))]]
    = Ok s
    /\ CHECK_MARK `prefix_of` s
    /\ summary_tail plain_library (py "add a page") `suffix_of` s.
Proof.
  apply (summary_of_plain_actions plain_library (py "add a page")).
  vm_compute. reflexivity.
Defined.

(** X8: [_peek] returns at most 61 characters (60 and an ellipsis), the empty
    string for an empty input, and the whitespace-collapsed input itself
    when that has at most 60 characters. *)
Theorem peek_at_most_61 (L : library) (s : pystr) :
  len (_peek L s) <= 61
  /\ (s = [] -> _peek L s = [])
  /\ (len (re_sub L (py "\s+") (py " ") (strip s)) <= 60 -> s ≠ [] ->
      _peek L s = re_sub L (py "\s+") (py " ") (strip s)).
Proof.
  unfold _peek. split_and!.
  - case_bool_decide; [done|]. rewrite len_app.
    pose proof (len_slice_to_le 60 (re_sub L (py "\s+") (py " ") (strip s))).
    destruct (_ >? 60); [change (len ELLIPSIS) with 1|change (len (@nil N)) with 0]; lia.
  - intros ->. reflexivity.
  - intros Hlen Hs. case_bool_decide; [done|].
    destruct (Z.gtb_spec (len (re_sub L (py "\s+") (py " ") (strip s))) 60); [lia|].
    rewrite app_nil_r. unfold slice_to, len in *. apply take_ge. lia.
Qed.

Lemma peek_at_most_61_witness :
  _peek plain_library (py "  add a red button ") = py "add a red button".
Proof.
  apply (proj2 (proj2 (peek_at_most_61 plain_library (py "  add a red button ")))).
  - vm_compute. discriminate.
  - discriminate.
Defined.

(** ** The JSON-only planner behind its [try] *)

Lemma find_from_app i c pre rest :
  c ∉ pre -> find_from i c (pre ++ c :: rest) = i + len pre.
Proof.
  revert i. induction pre as [|x pre IH]; intros i H; cbn [app find_from].
  - rewrite N.eqb_refl. change (len (@nil N)) with 0. lia.
  - apply not_elem_of_cons in H as [Hx H].
    destruct (N.eqb_spec x c); [congruence|]. rewrite IH by done.
    unfold len. cbn [length]. lia.
Qed.

Lemma rfind_from_none i c s last : c ∉ s -> rfind_from i c s last = last.
Proof.
  revert i last. induction s as [|x s IH]; intros i last H; [done|].
  apply not_elem_of_cons in H as [Hx H]. cbn [rfind_from].
  destruct (N.eqb_spec x c); [congruence|]. by apply IH.
Qed.

Lemma rfind_from_app i c pre post last :
  c ∉ post -> rfind_from i c (pre ++ c :: post) last = i + len pre.
Proof.
  revert i last. induction pre as [|x pre IH]; intros i last H; cbn [app rfind_from].
  - rewrite N.eqb_refl, rfind_from_none by done. change (len (@nil N)) with 0. lia.
  - rewrite IH by done. unfold len. cbn [length]. lia.
Qed.

Lemma slice_middle {A} (pre mid post : list A) :
  slice (len pre) (len pre + len mid) (pre ++ mid ++ post) = mid.
Proof.
  unfold slice, len. rewrite Nat2Z.id.
  replace (Z.to_nat (Z.of_nat (length pre) + Z.of_nat (length mid) - Z.of_nat (length pre)))
    with (length mid) by lia.
  rewrite drop_app_length. by rewrite take_app_length.
Qed.

Lemma object_slice (pre body post : pystr) :
  LBRACE ∉ pre -> RBRACE ∉ post ->
  let text := pre ++ [LBRACE] ++ body ++ [RBRACE] ++ post in
  find LBRACE text = len pre
  /\ rfind RBRACE text = len pre + len body + 1
  /\ slice (find LBRACE text) (rfind RBRACE text + 1) text = [LBRACE] ++ body ++ [RBRACE].
Proof.
  intros Hpre Hpost text.
  assert (Hf : find LBRACE text = len pre).
  { unfold find, text. cbn [app]. rewrite find_from_app by done. lia. }
  assert (Hr : rfind RBRACE text = len pre + len body + 1).
  { unfold rfind, text.
    replace (pre ++ [LBRACE] ++ body ++ [RBRACE] ++ post)
      with ((pre ++ [LBRACE] ++ body) ++ RBRACE :: post) by (by rewrite <- !app_assoc).
    rewrite rfind_from_app by done. rewrite !len_app. change (len [LBRACE]) with 1. lia. }
  split_and!; [done|done|].
  rewrite Hf, Hr. unfold text.
  replace (len pre + len body + 1 + 1) with (len pre + len ([LBRACE] ++ body ++ [RBRACE])).
  - replace (pre ++ [LBRACE] ++ body ++ [RBRACE] ++ post)
      with (pre ++ ([LBRACE] ++ body ++ [RBRACE]) ++ post) by (by rewrite <- !app_assoc).
    apply slice_middle.
  - rewrite !len_app. change (len [LBRACE]) with 1. change (len [RBRACE]) with 1. lia.
Qed.

(** X9: the slice that [_json_only_plan] cuts from a reply.  When the text is
    a prefix without an opening brace, an object in braces, and a suffix
    without a closing brace, [find] and [rfind] give the positions of the
    object's two braces and the slice between them is exactly the object. *)
Theorem json_object_slice (pre body post : pystr) :
  LBRACE ∉ pre -> RBRACE ∉ post ->
  let text := pre ++ [LBRACE] ++ body ++ [RBRACE] ++ post in
  find LBRACE text = len pre
  /\ rfind RBRACE text = len pre + len body + 1
  /\ slice (find LBRACE text) (rfind RBRACE text + 1) text = [LBRACE] ++ body ++ [RBRACE].
Proof. apply object_slice. Qed.

Lemma json_object_slice_witness :
  slice (find LBRACE (py "Sure: {x} done")) (rfind RBRACE (py "Sure: {x} done") + 1)
    (py "Sure: {x} done")
  = py "{x}".
Proof.
  refine (proj2 (proj2 (json_object_slice (py "Sure: ") (py "x") (py " done") _ _)));
    apply (bool_decide_unpack _); vm_compute; exact I.
Defined.

(** X10: once the snapshot of the context is built, [_json_only_plan] does
    not raise and leaves the chat histories alone; the last event it
    pushes is either [json-plan.ok] with the number of actions it returns,
    or an [error] event, and then it returns no action. *)
Theorem json_only_plan_outcome {W} (L : library) (C : client W) (sid text : pystr)
    (ctx : value) (snapshot : pystr) (σ : state W) :
  _context_blob ctx DEFAULT_BUDGET = Ok snapshot ->
  exists acts σ',
    _json_only_plan L C sid text ctx σ = (Ok acts, σ')
    /\ _SESSIONS σ' = _SESSIONS σ
    /\ (last_pushed sid "step"
          (VDict [(py "msg", VStr (py "json-plan.ok")); (py "count", VInt (len acts))]) (tbus σ')
        \/ (acts = [] /\ exists message, last_pushed sid "error" (json_error message) (tbus σ'))).
Proof.
  intros H. unfold _json_only_plan. unfold mbind at 1, M_bind at 1, trace_m at 1.
  unfold mbind at 1, M_bind at 1, lift at 1. rewrite H.
  unfold try_except.
  unfold mbind at 1, M_bind at 1, call_net. cbn [net].
  destruct (converse L C _ _ None None _ _) as [[r|e] w'];
    [|unfold mbind, M_bind, trace_m, mret, M_ret, last_pushed; cbn; eauto 10].
  unfold mbind at 1, M_bind at 1, lift at 1.
  destruct (response_parts r) as [parts|e];
    [|unfold mbind, M_bind, trace_m, mret, M_ret, last_pushed; cbn; eauto 10].
  unfold mbind at 1, M_bind at 1, lift at 1.
  destruct (text_parts parts) as [texts|e];
    [|unfold mbind, M_bind, trace_m, mret, M_ret, last_pushed; cbn; eauto 10].
  unfold mbind at 1, M_bind at 1, lift at 1.
  destruct (join_values NL texts) as [joined|e];
    [|unfold mbind, M_bind, trace_m, mret, M_ret, last_pushed; cbn; eauto 10].
  case_bool_decide;
    [unfold mbind, M_bind, trace_m, mret, M_ret, last_pushed; cbn; eauto 10|].
  unfold mbind at 1, M_bind at 1, lift at 1.
  destruct (json_loads L _) as [data|e];
    [|unfold mbind, M_bind, trace_m, mret, M_ret, last_pushed; cbn; eauto 10].
  unfold mbind at 1, M_bind at 1, lift at 1.
  destruct (get_default data (py "actions") (VList [])) as [acts|e];
    [|unfold mbind, M_bind, trace_m, mret, M_ret, last_pushed; cbn; eauto 10].
  destruct acts; unfold mbind, M_bind, trace_m, mret, M_ret, last_pushed; cbn; eauto 10.
Qed.

Lemma json_only_plan_outcome_witness :
  exists acts σ',
    _json_only_plan plain_library (constant_client (text_response (py "not json")))
      (py "s1") (py "add a page") (files_context [(py "a.tsx", py "x")]) fresh_state
    = (Ok acts, σ')
    /\ _SESSIONS σ' = _SESSIONS fresh_state
    /\ (last_pushed (py "s1") "step"
          (VDict [(py "msg", VStr (py "json-plan.ok")); (py "count", VInt (len acts))]) (tbus σ')
        \/ (acts = [] /\ exists message,
              last_pushed (py "s1") "error" (json_error message) (tbus σ'))).
Proof.
  apply (json_only_plan_outcome plain_library (constant_client (text_response (py "not json")))
           (py "s1") (py "add a page") (files_context [(py "a.tsx", py "x")])
           (FILE_HEADER (py "a.tsx") ++ py "x")).
  vm_compute. reflexivity.
Defined.

Lemma reply_text_inv reply text :
  reply_text reply = Ok text ->
  exists parts texts joined,
    response_parts reply = Ok parts /\ text_parts parts = Ok texts
    /\ join_values NL texts = Ok joined /\ text = strip joined.
Proof.
  unfold reply_text. intros H.
  apply res_bind_ok in H as (parts & Hp & H).
  apply res_bind_ok in H as (texts & Ht & H).
  apply res_bind_ok in H as (joined & Hj & H).
  injection H as <-. eauto 10.
Qed.

(** X11: [_json_only_plan] finds a JSON object wrapped in prose.  When the
    reply's text is prose, an object, prose (no opening brace before the
    object, no closing brace after it) and [json.loads] reads the object
    as a mapping whose [actions] is a list, that list is returned. *)
Theorem json_only_plan_extracts {W} (L : library) (C : client W) (sid text : pystr)
    (ctx : value) (snapshot : pystr) (σ : state W) (reply : value) (w' : W)
    (pre body post : pystr) (d : list (pystr * value)) (acts : list value) :
  _context_blob ctx DEFAULT_BUDGET = Ok snapshot ->
  converse L C (Some JSON_PLAN_SYSTEM) [user_message (json_prompt text snapshot)]
    None None (Some TEMPERATURE) (net σ) = (Ok reply, w') ->
  reply_text reply = Ok (pre ++ [LBRACE] ++ body ++ [RBRACE] ++ post) ->
  LBRACE ∉ pre -> RBRACE ∉ post ->
  json_loads L ([LBRACE] ++ body ++ [RBRACE]) = Ok (VDict d) ->
  lookup_key (py "actions") d = Some (VList acts) ->
  (_json_only_plan L C sid text ctx σ).1 = Ok acts.
Proof.
  intros Hsnap Hcall Hreply Hpre Hpost Hjson Hacts.
  apply reply_text_inv in Hreply as (parts & texts & joined & Hp & Ht & Hj & Htext).
  destruct (object_slice pre body post Hpre Hpost) as (Hf & Hr & Hs).
  unfold _json_only_plan. unfold mbind at 1, M_bind at 1, trace_m at 1.
  unfold mbind at 1, M_bind at 1, lift at 1. rewrite Hsnap.
  unfold try_except.
  unfold mbind at 1, M_bind at 1, call_net. cbn [net]. rewrite Hcall.
  unfold mbind at 1, M_bind at 1, lift at 1. rewrite Hp.
  unfold mbind at 1, M_bind at 1, lift at 1. rewrite Ht.
  unfold mbind at 1, M_bind at 1, lift at 1. rewrite Hj.
  rewrite <- Htext.
  rewrite bool_decide_eq_false_2 by (by destruct pre).
  change 123%N with LBRACE. change 125%N with RBRACE.
  cbn zeta in Hf, Hr, Hs. rewrite Hs, Hf, Hr.
  pose proof (len_nonneg pre). pose proof (len_nonneg body).
  destruct (Z.geb_spec (len pre) 0); [|lia].
  destruct (Z.gtb_spec (len pre + len body + 1) (len pre)); [|lia].
  cbn [andb].
  unfold mbind at 1, M_bind at 1, lift at 1. rewrite Hjson.
  unfold mbind at 1, M_bind at 1, lift at 1. cbn [get_default]. rewrite Hacts.
  reflexivity.
Qed.

Lemma json_only_plan_extracts_witness :
  (_json_only_plan
     (one_document_library (py "{x}") (VDict [(py "actions", VList [VDict [(py "type", VStr (py "run_command"))]])]))
     (constant_client (text_response (py " Sure: {x} done ")))
     (py "s1") (py "add a page") VNone fresh_state).1
  = Ok [VDict [(py "type", VStr (py "run_command"))]].
Proof.
  refine (json_only_plan_extracts _ _ (py "s1") (py "add a page") VNone [] fresh_state
            (text_response (py " Sure: {x} done ")) tt (py "Sure: ") (py "x") (py " done")
            [(py "actions", VList [VDict [(py "type", VStr (py "run_command"))]])] _
            _ _ _ _ _ _ _);
    try (apply (bool_decide_unpack _); vm_compute; exact I);
    vm_compute; reflexivity.
Defined.

(** ** Requests of the gateway *)

Lemma remove_key_absent k (d : list (pystr * value)) :
  lookup_key k d = None -> remove_key k d = d.
Proof.
  unfold remove_key. induction d as [|[a v] d IH]; intros H; [done|].
  cbn [lookup_key] in H. case_bool_decide; [discriminate|].
  rewrite filter_cons_True by done. by rewrite IH.
Qed.

Lemma without_tools_tool_free req : tool_free req -> without_tools req = req.
Proof.
  intros [H1 H2]. unfold without_tools.
  rewrite (remove_key_absent _ req H1). by apply remove_key_absent.
Qed.

Lemma converse_request_fields_aux {W} (L : library) (C : client W)
    (system_prompt : option pystr) (messages : list value) (tools : option (list value))
    (tool_config inference_config : option value) :
  exists req,
    converse L C system_prompt messages tools tool_config inference_config
      = _retry_without_tools_if_needed (client_converse C) req
    /\ lookup_key (py "tools") req = sent_list tools
    /\ lookup_key (py "toolConfig") req = sent_value tool_config.
Proof.
  eexists. split; [reflexivity|].
  unfold base_request, sent_list, sent_value.
  destruct (nonempty_opt system_prompt), (nonempty_opt tools), (opt_truthy tool_config) eqn:Etc,
    (opt_truthy inference_config) eqn:Eic;
    cbn [set_if app]; split; try reflexivity;
    destruct tool_config; first [reflexivity|discriminate].
Qed.

(** X12: the request that [BedrockClient.converse] submits has distinct keys:
    [modelId] and [messages] always; [system], [tools], [toolConfig] and
    [inferenceConfig] exactly when the argument is truthy, and then with
    the argument's value; and no other key. *)
Theorem converse_request_fields {W} (L : library) (C : client W)
    (system_prompt : option pystr) (messages : list value) (tools : option (list value))
    (tool_config inference_config : option value) :
  exists req,
    converse L C system_prompt messages tools tool_config inference_config
      = _retry_without_tools_if_needed (client_converse C) req
    /\ NoDup req.*1
    /\ lookup_key (py "modelId") req = Some (VStr (MODEL_ID L))
    /\ lookup_key (py "messages") req = Some (VList messages)
    /\ lookup_key (py "system") req = sent_system system_prompt
    /\ lookup_key (py "tools") req = sent_list tools
    /\ lookup_key (py "toolConfig") req = sent_value tool_config
    /\ lookup_key (py "inferenceConfig") req = sent_value inference_config
    /\ (forall k v, lookup_key k req = Some v ->
          k ∈ [py "modelId"; py "messages"; py "system"; py "tools"; py "toolConfig";
               py "inferenceConfig"]).
Proof.
  eexists. split; [reflexivity|].
  unfold base_request, sent_system, sent_list, sent_value.
  destruct (nonempty_opt system_prompt), (nonempty_opt tools), (opt_truthy tool_config) eqn:Etc,
    (opt_truthy inference_config) eqn:Eic;
    cbn [set_if app fmap list_fmap fst].
  all: split_and!.
  all: try reflexivity.
  all: try (apply (bool_decide_unpack _); vm_compute; exact I).
  all: try (destruct tool_config; [reflexivity|discriminate]).
  all: try (destruct inference_config; [reflexivity|discriminate]).
  all: intros k v; cbn [lookup_key];
    repeat (case_bool_decide;
            [subst k; intros _; apply (bool_decide_unpack _); vm_compute; exact I|]);
    discriminate.
Qed.

(** X13: a call of [converse] without tools submits a request that has
    neither [tools] nor [toolConfig], once or twice; when the gateway
    retries, it resubmits the very same request. *)
Theorem converse_without_tools {W} (L : library) (C : client W)
    (system_prompt : option pystr) (messages : list value)
    (inference_config : option value) (w : W) :
  exists req,
    tool_free req
    /\ let journal :=
         (converse L (journalled_client C) system_prompt messages None None
            inference_config (w, [])).2.2 in
       journal = [req] \/ journal = [req; req].
Proof.
  destruct (converse_request_fields_aux L (journalled_client C) system_prompt messages None None
              inference_config) as (req & -> & Htools & Htc).
  exists req. split; [done|]. cbn zeta.
  unfold _retry_without_tools_if_needed, journalled_client. cbn [client_converse].
  unfold journalled. cbn [fst snd app].
  destruct (client_converse C req w) as [[v|e] w1] eqn:E; cbn [snd]; [by left|].
  destruct e; cbn [snd]; try (by left).
  destruct (rejects_tools msg); cbn [snd]; [|by left].
  rewrite (without_tools_tool_free req) by done. cbn [fst snd].
  destruct (client_converse C req w1) as [r w2]. cbn [snd]. by right.
Qed.

(** ** What a planning request touches *)

Section Frame.
Context {W : Type} (sid : pystr).

Lemma trace_all_app evs1 evs2 b :
  trace_all sid (evs1 ++ evs2) b = trace_all sid evs2 (trace_all sid evs1 b).
Proof. unfold trace_all. apply fold_left_app. Qed.

Lemma framed_ret {A} (a : A) : framed (W:=W) sid (mret a).
Proof. intros σ. split; [done|]. by exists []. Qed.

Lemma framed_raise {A} e : framed (W:=W) (A:=A) sid (raise e).
Proof. intros σ. split; [done|]. by exists []. Qed.

Lemma framed_lift {A} (r : res A) : framed (W:=W) sid (lift r).
Proof. intros σ. split; [done|]. by exists []. Qed.

Lemma framed_gets {A} (f : state W -> A) : framed sid (gets f).
Proof. intros σ. split; [done|]. by exists []. Qed.

Lemma framed_trace kind payload : framed (W:=W) sid (trace_m sid kind payload).
Proof. intros σ. split; [done|]. by exists [(py kind, payload)]. Qed.

Lemma framed_call_net {A} (m : M W A) : framed sid (call_net m).
Proof.
  intros σ. unfold call_net. destruct (m (net σ)) as [r w']. split; [done|]. by exists [].
Qed.

Lemma framed_append t : framed (W:=W) sid (append_chunk t).
Proof. intros σ. split; [done|]. by exists []. Qed.

Lemma framed_absorb part : framed (W:=W) sid (absorb_m part).
Proof.
  intros σ. unfold absorb_m. destruct (absorb part (capture σ)); (split; [done|]); by exists [].
Qed.

Lemma framed_bind {A B} (m : M (state W) A) (f : A -> M (state W) B) :
  framed sid m -> (forall a, framed sid (f a)) -> framed sid (m ≫= f).
Proof.
  intros Hm Hf σ. unfold mbind, M_bind. destruct (Hm σ) as (Hs & evs & Hb).
  destruct (m σ) as [[a|e] σ1]; cbn [snd] in *.
  - destruct (Hf a σ1) as (Hs' & evs' & Hb'). split; [congruence|].
    exists (evs ++ evs'). by rewrite trace_all_app, <- Hb.
  - split; [done|]. by exists evs.
Qed.

Lemma framed_try {A} (m : M (state W) A) (h : exn -> M (state W) A) :
  framed sid m -> (forall e, framed sid (h e)) -> framed sid (try_except m h).
Proof.
  intros Hm Hh σ. unfold try_except. destruct (Hm σ) as (Hs & evs & Hb).
  destruct (m σ) as [[a|e] σ1]; cbn [snd] in *.
  - split; [done|]. by exists evs.
  - destruct (Hh e σ1) as (Hs' & evs' & Hb'). split; [congruence|].
    exists (evs ++ evs'). by rewrite trace_all_app, <- Hb.
Qed.

Lemma framed_when b (m : M (state W) unit) : framed sid m -> framed sid (when b m).
Proof. intros H. destruct b; [done|]. apply framed_ret. Qed.

Lemma framed_for_items items (body : value -> M (state W) unit) :
  (forall x, framed sid (body x)) -> framed sid (for_items items body).
Proof.
  intros H. induction items as [|x items IH]; [apply framed_ret|].
  cbn [for_items]. apply framed_bind; [done|]. by intros _.
Qed.

Lemma framed_for_each it (body : value -> M (state W) unit) :
  (forall x, framed sid (body x)) -> framed sid (for_each it body).
Proof.
  intros H. unfold for_each. apply framed_bind; [by apply framed_for_items|].
  intros _. destruct it.2; [apply framed_raise|apply framed_ret].
Qed.

End Frame.

Create HintDb framed.
#[local] Hint Resolve framed_ret framed_raise framed_lift framed_gets framed_trace
  framed_call_net framed_append framed_absorb : framed.

(** Splits a handler into its steps and closes the primitive ones. *)
Ltac frame :=
  repeat first
    [ progress auto with framed
    | apply framed_when
    | apply framed_for_each; intros ?
    | apply framed_try; [|intros ?]
    | apply framed_bind; [|intros ?]
    | progress cbv zeta
    | match goal with |- framed _ (match ?x with _ => _ end) => destruct x end ].

Section Handlers.
Context {W : Type} (L : library) (C : client W) (sid : pystr).

Lemma framed_note_text p : framed (W:=W) sid (note_text sid p).
Proof. unfold note_text. frame. Qed.

Lemma framed_tool_lifecycle ev key sub kind :
  framed (W:=W) sid (tool_lifecycle sid ev key sub kind).
Proof. unfold tool_lifecycle. frame. Qed.

Lemma framed_on_event ev : framed (W:=W) sid (on_event sid ev).
Proof.
  unfold on_event, on_delta, on_message, on_metadata.
  frame; first [apply framed_tool_lifecycle | apply framed_note_text].
Qed.

Lemma framed_run_stream messages : framed sid (_run_stream L C sid messages).
Proof. unfold _run_stream. frame; apply framed_on_event. Qed.

Lemma framed_nonstream_retry messages : framed sid (nonstream_retry L C sid messages).
Proof. unfold nonstream_retry. frame; apply framed_note_text. Qed.

Lemma framed_json_only_plan user_text ctx :
  framed sid (_json_only_plan L C sid user_text ctx).
Proof.
  unfold _json_only_plan. frame.
Qed.

End Handlers.

Lemma framed_modify {W} sid (f : state W -> state W) :
  (forall σ, _SESSIONS (f σ) = _SESSIONS σ /\ tbus (f σ) = tbus σ) ->
  framed sid (modify f).
Proof. intros H σ. destruct (H σ) as [H1 H2]. split; [done|]. exists []. by cbn. Qed.

#[local] Hint Resolve framed_note_text framed_tool_lifecycle framed_on_event
  framed_run_stream framed_nonstream_retry framed_json_only_plan : framed.

Lemma framed_choose_actions {W} (L : library) (C : client W) sid user_text ctx :
  framed sid (choose_actions L C sid user_text ctx).
Proof. unfold choose_actions. frame. Qed.

Lemma framed_plan_body {W} (L : library) (C : client W) sid req :
  framed sid (plan_body L C sid req).
Proof.
  unfold plan_body. pose proof (framed_choose_actions L C sid) as Hc.
  frame. by apply framed_modify.
Qed.

Lemma framed_plan_endpoint {W} (L : library) (C : client W) req :
  framed (str_or (session_id req) (uuid4 L)) (plan_endpoint L C req).
Proof.
  unfold plan_endpoint. pose proof (framed_plan_body L C (str_or (session_id req) (uuid4 L)) req).
  frame.
Qed.

(** X14: a planning request touches its own session only, whatever the model
    answers and whether the request succeeds or fails: it leaves the chat
    histories as they were, every event it emits goes to the queue of its
    session id, and on a sound bus every other session keeps its queue
    and that queue's contents. *)
Theorem plan_endpoint_frame {W} (L : library) (C : client W) (req : PlanRequest)
    (σ : state W) :
  let sid := str_or (session_id req) (uuid4 L) in
  let σ' := (plan_endpoint L C req σ).2 in
  _SESSIONS σ' = _SESSIONS σ
  /\ (exists evs, tbus σ' = trace_all sid evs (tbus σ))
  /\ (bus_wf (tbus σ) ->
      forall sid' q', sid' ≠ sid -> SESSION_QUEUES (tbus σ) !! sid' = Some q' ->
        SESSION_QUEUES (tbus σ') !! sid' = Some q'
        /\ queues (tbus σ') !! q' = queues (tbus σ) !! q').
Proof.
  cbn zeta. destruct (framed_plan_endpoint L C req σ) as (Hs & evs & Hb).
  split_and!; [done|by exists evs|].
  intros [Hlt Hinj] sid' q' Hne Hq. rewrite Hb. split.
  - by rewrite trace_all_other_session.
  - apply trace_all_other_queue; [by eauto|].
    intros H. apply Hne. eapply Hinj; eauto.
Qed.

Lemma plan_endpoint_frame_witness :
  let σ := initial_state tt (trace (py "other") (py "meta") VNone empty_bus) ∅ in
  let σ' := (plan_endpoint plain_library (constant_client (text_response (py "no plan")))
               (plan_request "add a page" None) σ).2 in
  SESSION_QUEUES (tbus σ') !! py "other" = Some 0%nat
  /\ queues (tbus σ') !! 0%nat = queues (tbus σ) !! 0%nat.
Proof.
  cbn zeta.
  apply (proj2 (proj2 (plan_endpoint_frame plain_library
           (constant_client (text_response (py "no plan"))) (plan_request "add a page" None)
           (initial_state tt (trace (py "other") (py "meta") VNone empty_bus) ∅)))).
  - apply bus_wf_trace, bus_wf_empty.
  - vm_compute. discriminate.
  - vm_compute. reflexivity.
Defined.

(** ** The blocking retry and the capture *)

Lemma note_text_block {W} sid p (σ : state W) :
  content_block p = true ->
  exists σ', note_text sid p σ = (Ok tt, σ')
    /\ capture σ' = capture σ /\ net σ' = net σ.
Proof.
  destruct p as [| | | | | |d|]; try discriminate. intros _.
  unfold note_text. unfold mbind at 1, M_bind at 1, lift at 1. cbn [get get_default].
  destruct (lookup_key (py "text") d) as [t|] eqn:E; cbn [default]; unfold id.
  - unfold when. destruct (truthy t).
    + unfold mbind, M_bind, lift, append_chunk, trace_m. cbn [index]. rewrite E.
      eexists. split; [reflexivity|]. done.
    + eexists. split; [reflexivity|]. done.
  - cbn [truthy when]. eexists. split; [reflexivity|]. done.
Qed.

Lemma retry_loop_capture {W} sid parts : forall σ : state W,
  Forall (fun p => content_block p = true) parts ->
  exists σ',
    for_items parts (fun p => note_text sid p ;; absorb_m p) σ = (Ok tt, σ')
    /\ capture σ' = last_wins parts (capture σ) /\ net σ' = net σ.
Proof.
  induction parts as [|p parts IH]; intros σ H.
  - eexists. split; [reflexivity|]. done.
  - inversion H as [|? ? Hp Hps]; subst.
    destruct (note_text_block sid p σ Hp) as (σ1 & Hn & Hc1 & Hn1).
    cbn [for_items]. unfold mbind at 1, M_bind at 1. unfold mbind at 1, M_bind at 1.
    rewrite Hn. unfold absorb_m at 1. rewrite (absorb_content_block p (capture σ1) Hp).
    match goal with |- context [for_items parts _ ?s] => destruct (IH s Hps) as (σ' & Hf & Hc & Hnet) end.
    exists σ'. split; [exact Hf|]. cbn [capture net] in *.
    rewrite Hc, Hnet, Hc1, Hn1, last_wins_cons. done.
Qed.

Lemma nonstream_retry_run {W} (L : library) (C : client W) (sid user_text : pystr)
    (σ : state W) (reply : value) (w' : W) (parts : list value) :
  planner_call L C user_text (net σ) = (Ok reply, w') ->
  response_parts reply = Ok (VList parts) ->
  Forall (fun p => content_block p = true) parts ->
  exists σ',
    nonstream_retry L C sid [user_message user_text] σ = (Ok tt, σ')
    /\ capture σ' = last_wins parts (capture σ)
    /\ net σ' = w'.
Proof.
  intros Hcall Hparts Hblocks. unfold nonstream_retry, planner_call in *.
  unfold mbind at 1, M_bind at 1, call_net. rewrite Hcall.
  unfold mbind at 1, M_bind at 1, lift at 1. rewrite Hparts.
  unfold mbind at 1, M_bind at 1, for_each. cbn [iter fst snd].
  unfold mbind at 1, M_bind at 1.
  match goal with |- context [for_items parts _ ?s] =>
    destruct (retry_loop_capture sid parts s Hblocks) as (σ1 & Hf & Hc & Hn) end.
  rewrite Hf. unfold mret, M_ret, trace_m. eexists. split; [reflexivity|].
  cbn [capture net] in *. done.
Qed.

(** X15: the blocking retry of the planner.  When the gateway answers and the
    content parts are in the transport's shape, the retry runs to its end
    and the capture holds the actions of the last part that qualifies, or
    what it held before when no part does. *)
Theorem nonstream_retry_capture {W} (L : library) (C : client W) (sid user_text : pystr)
    (σ : state W) (reply : value) (w' : W) (parts : list value) :
  planner_call L C user_text (net σ) = (Ok reply, w') ->
  response_parts reply = Ok (VList parts) ->
  Forall (fun p => content_block p = true) parts ->
  exists σ',
    nonstream_retry L C sid [user_message user_text] σ = (Ok tt, σ')
    /\ capture σ' = last_wins parts (capture σ)
    /\ net σ' = w'.
Proof. apply nonstream_retry_run. Qed.

Lemma nonstream_retry_capture_witness :
  exists σ',
    nonstream_retry plain_library (constant_client (text_response (py "thinking")))
      (py "s1") [user_message (py "add a page")] stream_captured
    = (Ok tt, σ')
    /\ capture σ' = last_wins [VDict [(py "text", VStr (py "thinking"))]] (capture stream_captured)
    /\ net σ' = tt.
Proof.
  apply (nonstream_retry_capture plain_library (constant_client (text_response (py "thinking")))
           (py "s1") (py "add a page") stream_captured (text_response (py "thinking")) tt
           [VDict [(py "text", VStr (py "thinking"))]]).
  - vm_compute. reflexivity.
  - vm_compute. reflexivity.
  - repeat constructor.
Defined.

Lemma plain_action_is_dict acts :
  forallb plain_action acts = true -> forallb is_dict acts = true.
Proof.
  induction acts as [|a acts IH]; [done|]. cbn [forallb]. intros H.
  apply andb_true_iff in H as [Ha H]. rewrite IH by done.
  by destruct a.
Qed.

(** X16: the planner end to end along the blocking path.  When the stream
    cannot be run and the blocking call answers with content parts whose
    last qualifying part carries a non-empty list of actions in the
    planner's schema, [plan_endpoint] returns exactly these actions, with
    the summary built from them: no JSON-only pass and no synthesis. *)
Theorem plan_endpoint_returns_captured {W} (L : library) (C : client W) (req : PlanRequest)
    (σ : state W) (e0 : exn) (reply : value) (w' : W) (parts : list value)
    (a : value) (acts : list value) :
  event_loop L = Some e0 ->
  planner_call L C (input req) (net σ) = (Ok reply, w') ->
  response_parts reply = Ok (VList parts) ->
  Forall (fun p => content_block p = true) parts ->
  actions (last_wins parts _ToolCapture__init__) = a :: acts ->
  forallb plain_action (a :: acts) = true ->
  exists msg σ',
    plan_endpoint L C req σ
    = (Ok {| PlanResponse.assistant_message := Some msg;
             PlanResponse.actions := a :: acts |}, σ')
    /\ build_assistant_message L (input req) (a :: acts) = Ok msg
    /\ net σ' = w'.
Proof.
  intros Hloop Hcall Hparts Hblocks Hlast Hplain.
  destruct (summary_plain L (input req) (a :: acts) Hplain) as (msg & Hmsg & _).
  exists msg.
  unfold plan_endpoint, try_except, plan_body.
  unfold mbind at 1, M_bind at 1, trace_m at 1.
  unfold mbind at 1, M_bind at 1, trace_m at 1.
  unfold mbind at 1, M_bind at 1, modify at 1. cbn [net tbus _SESSIONS].
  unfold mbind at 1, M_bind at 1, try_except at 1. rewrite Hloop. unfold raise at 1.
  match goal with |- context [nonstream_retry L C ?sid ?ms ?s] =>
    destruct (nonstream_retry_run L C sid (input req) s reply w' parts) as (σ1 & Hr & Hc & Hn);
      [exact Hcall|exact Hparts|exact Hblocks|] end.
  rewrite Hr. cbn [capture] in Hc.
  unfold mbind at 1, M_bind at 1, choose_actions.
  unfold mbind at 1, M_bind at 1, gets. rewrite Hc, Hlast.
  unfold mbind at 1, M_bind at 1, mret at 1, M_ret at 1.
  unfold mret at 1, M_ret at 1.
  unfold mbind at 1, M_bind at 1, trace_m at 1.
  unfold mbind at 1, M_bind at 1, lift at 1. rewrite Hmsg.
  unfold lift, make_PlanResponse. rewrite (plain_action_is_dict _ Hplain).
  eexists. split; [reflexivity|]. split; [done|]. cbn [net]. exact Hn.
Qed.

Lemma plan_endpoint_returns_captured_witness :
  exists msg σ',
    plan_endpoint (loose_library VNone)
      (constant_client (VDict [(py "output", VDict [(py "message", VDict [(py "content",
         VList [tool_part (VList [VDict [(py "type", VStr (py "run_command"))]])])])])]))
      (plan_request "install" None) fresh_state
    = (Ok {| PlanResponse.assistant_message := Some msg;
             PlanResponse.actions := [VDict [(py "type", VStr (py "run_command"))]] |}, σ')
    /\ build_assistant_message (loose_library VNone) (input (plan_request "install" None))
         [VDict [(py "type", VStr (py "run_command"))]] = Ok msg
    /\ net σ' = tt.
Proof.
  apply (plan_endpoint_returns_captured (loose_library VNone)
           (constant_client (VDict [(py "output", VDict [(py "message", VDict [(py "content",
              VList [tool_part (VList [VDict [(py "type", VStr (py "run_command"))]])])])])]))
           (plan_request "install" None) fresh_state
           (OtherError (py "There is no current event loop"))
           (VDict [(py "output", VDict [(py "message", VDict [(py "content",
              VList [tool_part (VList [VDict [(py "type", VStr (py "run_command"))]])])])])])
           tt [tool_part (VList [VDict [(py "type", VStr (py "run_command"))]])]
           (VDict [(py "type", VStr (py "run_command"))]) []).
  - reflexivity.
  - vm_compute. reflexivity.
  - vm_compute. reflexivity.
  - repeat constructor.
  - vm_compute. reflexivity.
  - vm_compute. reflexivity.
Defined.

(** ** Preview plumbing *)

(** X17: GET /preview and GET /page never produce a page.  [str.format] reads
    the CSS rule [{height:100%;margin:0}] of the shell template as a
    replacement field, so both handlers raise [KeyError('height')],
    whatever the stored preview is. *)
Theorem preview_and_page_raise {W} (G : codegen_library) (s : app_state W) :
  preview G s = Some (Raise (KeyError (py "height")))
  /\ page G s = Some (Raise (KeyError (py "height"))).
Proof. split; vm_compute; reflexivity. Qed.

Lemma first_result_none {A} (test : value -> res (option A)) items :
  Forall (fun g => test g = Ok None) items ->
  first_result items test = Ok (None, []).
Proof.
  induction 1 as [|g items Hg _ IH]; [reflexivity|].
  cbn [first_result]. rewrite Hg. exact IH.
Qed.

Lemma first_result_first {A} (test : value -> res (option A)) before f after v :
  Forall (fun g => test g = Ok None) before ->
  test f = Ok (Some v) ->
  first_result (before ++ f :: after) test = Ok (Some v, after).
Proof.
  intros Hb Hf. induction Hb as [|g before Hg _ IH]; cbn [app first_result].
  - rewrite Hf. reflexivity.
  - rewrite Hg. exact IH.
Qed.

Lemma scan_list_none {A} (test : value -> res (option A)) fs :
  Forall (fun g => test g = Ok None) fs ->
  scan (VList fs) test = Ok (None, VList fs).
Proof.
  intros H. unfold scan. cbn [iter fst snd]. rewrite (first_result_none _ _ H).
  reflexivity.
Qed.

Lemma scan_list_first {A} (test : value -> res (option A)) before f after v :
  Forall (fun g => test g = Ok None) before ->
  test f = Ok (Some v) ->
  scan (VList (before ++ f :: after)) test = Ok (Some v, VList (before ++ f :: after)).
Proof.
  intros Hb Hf. unfold scan. cbn [iter fst snd].
  rewrite (first_result_first _ _ _ _ _ Hb Hf). reflexivity.
Qed.

Lemma file_entry_fields f :
  file_entry f = true ->
  exists p,
    get f (py "path") = Ok p
    /\ or_empty p = VStr (path_of f)
    /\ get_default f (py "path") (VStr []) = Ok (VStr (path_of f))
    /\ get_default f (py "contents") (VStr []) = Ok (contents_of f)
    /\ is_dict f = true.
Proof.
  destruct f as [| | | | |l|d|]; try discriminate.
  unfold get, get_default. cbn [file_entry path_of contents_of is_dict].
  destruct (lookup_key (py "path") d) as [[| | | |s| | |]|]; try discriminate; intros _.
  - exists (VStr s). split_and!; try reflexivity.
    unfold or_empty. cbn [truthy]. case_bool_decide as Hs; [subst|]; reflexivity.
  - exists VNone. split_and!; reflexivity.
Qed.

Lemma is_index_html_entry L f :
  file_entry f = true ->
  is_index_html L f = Ok (if index_page L f then Some (contents_of f) else None).
Proof.
  intros H. destruct (file_entry_fields f H) as (p & Hg & Hs & _ & Hc & _).
  unfold is_index_html, index_page. rewrite Hg. cbn. rewrite Hs. cbn.
  destruct (ends_with _ _); [rewrite Hc|]; reflexivity.
Qed.

Lemma is_html_entry L f :
  file_entry f = true ->
  is_html L f = Ok (if html_page L f then Some (contents_of f) else None).
Proof.
  intros H. destruct (file_entry_fields f H) as (p & Hg & Hs & _ & Hc & _).
  unfold is_html, html_page. rewrite Hg. cbn. rewrite Hs. cbn.
  destruct (ends_with _ _); [rewrite Hc|]; reflexivity.
Qed.

Lemma is_component_entry L G f :
  file_entry f = true ->
  is_component L G f
  = Ok (if component L f
        then Some (VStr (_tsx_wrapper G (VStr (path_of f)) (contents_of f)))
        else None).
Proof.
  intros H. destruct (file_entry_fields f H) as (p & Hg & Hs & Hp & Hc & _).
  unfold is_component, component. rewrite Hg. cbn. rewrite Hs. cbn.
  destruct (_ || _); [rewrite Hp, Hc|]; reflexivity.
Qed.

(** A list splits at its first item that satisfies a test, unless none does. *)
Lemma first_split {A} (p : A -> bool) (l : list A) :
  forallb (fun x => negb (p x)) l = true
  \/ exists before x after,
       l = before ++ x :: after
       /\ forallb (fun x => negb (p x)) before = true
       /\ p x = true.
Proof.
  induction l as [|a l IH]; [left; reflexivity|].
  destruct (p a) eqn:Ha.
  - right. exists [], a, l. auto.
  - destruct IH as [IH|(before & x & after & -> & Hb & Hx)].
    + left. cbn. rewrite Ha. exact IH.
    + right. exists (a :: before), x, after. cbn. rewrite Ha. auto.
Qed.

Lemma scan_entries_none (p : value -> bool) (test : value -> res (option value))
    (pick : value -> value) fs :
  (forall f, file_entry f = true -> test f = Ok (if p f then Some (pick f) else None)) ->
  forallb file_entry fs = true ->
  forallb (fun f => negb (p f)) fs = true ->
  scan (VList fs) test = Ok (None, VList fs).
Proof.
  intros Ht Hfs Hn. apply scan_list_none.
  rewrite forallb_forall in Hfs, Hn. apply List.Forall_forall. intros g Hg.
  rewrite (Ht g (Hfs g Hg)). specialize (Hn g Hg). destruct (p g); [discriminate|reflexivity].
Qed.

Lemma scan_entries_first (p : value -> bool) (test : value -> res (option value))
    (pick : value -> value) before f after :
  (forall f, file_entry f = true -> test f = Ok (if p f then Some (pick f) else None)) ->
  forallb file_entry (before ++ f :: after) = true ->
  forallb (fun f => negb (p f)) before = true ->
  p f = true ->
  scan (VList (before ++ f :: after)) test
  = Ok (Some (pick f), VList (before ++ f :: after)).
Proof.
  intros Ht Hfs Hn Hf. rewrite forallb_app in Hfs. cbn [forallb] in Hfs.
  apply andb_prop in Hfs as [Hb Hfa]. apply andb_prop in Hfa as [Hfe _].
  apply scan_list_first.
  - rewrite forallb_forall in Hb, Hn. apply List.Forall_forall. intros g Hg.
    rewrite (Ht g (Hb g Hg)). specialize (Hn g Hg). destruct (p g); [discriminate|reflexivity].
  - rewrite (Ht f Hfe), Hf. reflexivity.
Qed.

(** X18: [_choose_preview_html] prefers an index page.  In a list of file
    entries, the first file whose lower-cased path ends with [index.html]
    gives the preview, which is that file's contents as they are, even
    when components or other pages come before it. *)
Theorem choose_preview_index_first L G before f after :
  forallb file_entry (before ++ f :: after) = true ->
  forallb (fun g => negb (index_page L g)) before = true ->
  index_page L f = true ->
  _choose_preview_html L G (VList (before ++ f :: after))
  = Ok (contents_of f, VList (before ++ f :: after)).
Proof.
  intros Hfs Hn Hf. unfold _choose_preview_html.
  rewrite (scan_entries_first (index_page L) _ contents_of before f after
             (is_index_html_entry L) Hfs Hn Hf).
  reflexivity.
Qed.

Lemma choose_preview_index_first_witness :
  _choose_preview_html lower_library plain_codegen
    (VList [file "app/page.tsx" "export default 1"; file "public/Index.HTML" "<h1>hi</h1>"])
  = Ok (VStr (py "<h1>hi</h1>"),
        VList [file "app/page.tsx" "export default 1"; file "public/Index.HTML" "<h1>hi</h1>"]).
Proof.
  apply (choose_preview_index_first lower_library plain_codegen
           [file "app/page.tsx" "export default 1"] (file "public/Index.HTML" "<h1>hi</h1>") []);
    vm_compute; reflexivity.
Defined.

(** X19: without an index page, [_choose_preview_html] mounts the first
    component: the first file whose name is one of the known component
    names or ends with [.tsx] is wrapped by [_tsx_wrapper], with its path
    in the title and its contents inside the script, even when plain HTML
    pages come before it. *)
Theorem choose_preview_component_next L G before f after :
  forallb file_entry (before ++ f :: after) = true ->
  forallb (fun g => negb (index_page L g)) (before ++ f :: after) = true ->
  forallb (fun g => negb (component L g)) before = true ->
  component L f = true ->
  _choose_preview_html L G (VList (before ++ f :: after))
  = Ok (VStr (TSX_WRAPPER_HEAD ++ path_of f ++ TSX_WRAPPER_MIDDLE
              ++ fmt G (contents_of f) ++ TSX_WRAPPER_TAIL),
        VList (before ++ f :: after)).
Proof.
  intros Hfs Hi Hn Hf. unfold _choose_preview_html.
  rewrite (scan_entries_none (index_page L) _ contents_of _ (is_index_html_entry L) Hfs Hi).
  cbn [mbind res_bind].
  rewrite (scan_entries_first (component L) _ _ before f after
             (is_component_entry L G) Hfs Hn Hf).
  reflexivity.
Qed.

Lemma choose_preview_component_next_witness :
  exists html,
    _choose_preview_html lower_library plain_codegen
      (VList [file "public/about.html" "<p>about</p>"; file "app/page.tsx" "export default 1"])
    = Ok (VStr html,
          VList [file "public/about.html" "<p>about</p>"; file "app/page.tsx" "export default 1"])
    /\ contains (py "<title>app/page.tsx preview</title>") html = true
    /\ contains (py "export default 1") html = true.
Proof.
  eexists. split.
  - apply (choose_preview_component_next lower_library plain_codegen
             [file "public/about.html" "<p>about</p>"] (file "app/page.tsx" "export default 1") []);
      vm_compute; reflexivity.
  - split; vm_compute; reflexivity.
Defined.

Lemma choose_preview_entries L G fs :
  forallb file_entry fs = true ->
  exists html,
    _choose_preview_html L G (VList fs) = Ok (html, VList fs)
    /\ (fs = [] -> html = NO_CONTENT).
Proof.
  intros Hfs. unfold _choose_preview_html.
  destruct (first_split (index_page L) fs) as [Hi|(b & f & a & -> & Hb & Hf)].
  2:{ rewrite (scan_entries_first (index_page L) _ contents_of b f a
                 (is_index_html_entry L) Hfs Hb Hf).
      eexists. split; [reflexivity|]. intros E. destruct b; discriminate. }
  rewrite (scan_entries_none (index_page L) _ contents_of _ (is_index_html_entry L) Hfs Hi).
  cbn [mbind res_bind].
  destruct (first_split (component L) fs) as [Hc|(b & f & a & -> & Hb & Hf)].
  2:{ rewrite (scan_entries_first (component L) _ _ b f a
                 (is_component_entry L G) Hfs Hb Hf).
      eexists. split; [reflexivity|]. intros E. destruct b; discriminate. }
  rewrite (scan_entries_none (component L) _ _ _ (is_component_entry L G) Hfs Hc).
  cbn [mbind res_bind].
  destruct (first_split (html_page L) fs) as [Hh|(b & f & a & -> & Hb & Hf)].
  2:{ rewrite (scan_entries_first (html_page L) _ contents_of b f a
                 (is_html_entry L) Hfs Hb Hf).
      eexists. split; [reflexivity|]. intros E. destruct b; discriminate. }
  rewrite (scan_entries_none (html_page L) _ contents_of _ (is_html_entry L) Hfs Hh).
  cbn [mbind res_bind].
  destruct fs as [|f fs]; cbn [truthy].
  - eexists. split; reflexivity.
  - cbn [forallb] in Hfs. apply andb_prop in Hfs as [Hf _].
    destruct f as [| | | | |l|d|]; try discriminate.
    cbn. eexists. split; [reflexivity|discriminate].
Qed.

Lemma choose_preview_fallback L G f fs :
  forallb file_entry (f :: fs) = true ->
  forallb (fun g => negb (index_page L g)) (f :: fs) = true ->
  forallb (fun g => negb (component L g)) (f :: fs) = true ->
  forallb (fun g => negb (html_page L g)) (f :: fs) = true ->
  _choose_preview_html L G (VList (f :: fs))
  = Ok (pre_dump G (shown_path f) (contents_of f), VList (f :: fs)).
Proof.
  intros Hfs Hi Hc Hh. unfold _choose_preview_html.
  rewrite (scan_entries_none (index_page L) _ contents_of _ (is_index_html_entry L) Hfs Hi).
  cbn [mbind res_bind].
  rewrite (scan_entries_none (component L) _ _ _ (is_component_entry L G) Hfs Hc).
  cbn [mbind res_bind].
  rewrite (scan_entries_none (html_page L) _ contents_of _ (is_html_entry L) Hfs Hh).
  cbn [mbind res_bind truthy first_item].
  cbn [forallb] in Hfs. apply andb_prop in Hfs as [Hf _].
  destruct f as [| | | | |l|d|]; try discriminate. reflexivity.
Qed.

(** X21: on a list of file entries (mappings whose [path], when present, is a
    string) [_choose_preview_html] always returns and leaves the list as
    it is; for the empty list it returns the [(no content)] paragraph. *)
Theorem choose_preview_total L G fs :
  forallb file_entry fs = true ->
  exists html,
    _choose_preview_html L G (VList fs) = Ok (html, VList fs)
    /\ (fs = [] -> html = NO_CONTENT).
Proof. apply choose_preview_entries. Qed.

Lemma choose_preview_total_witness :
  exists html,
    _choose_preview_html lower_library plain_codegen
      (VList [file "README.md" "# hello"; file "src/main.py" "print(1)"])
    = Ok (html, VList [file "README.md" "# hello"; file "src/main.py" "print(1)"]).
Proof.
  destruct (choose_preview_total lower_library plain_codegen
              [file "README.md" "# hello"; file "src/main.py" "print(1)"])
    as (html & H & _); [vm_compute; reflexivity|].
  exists html. exact H.
Defined.

(** X20: when no file is an index page, a component or an HTML page,
    [_choose_preview_html] dumps the first file: its path (or [(no path)]),
    then a backslash and the letter n twice, as the source writes them,
    then its contents, inside a [pre] element. *)
Theorem choose_preview_dump L G f fs :
  forallb file_entry (f :: fs) = true ->
  forallb (fun g => negb (index_page L g)) (f :: fs) = true ->
  forallb (fun g => negb (component L g)) (f :: fs) = true ->
  forallb (fun g => negb (html_page L g)) (f :: fs) = true ->
  _choose_preview_html L G (VList (f :: fs))
  = Ok (VStr (py "<pre>" ++ fmt G (shown_path f) ++ BACKSLASH_N ++ BACKSLASH_N
              ++ fmt G (contents_of f) ++ py "</pre>"),
        VList (f :: fs)).
Proof. apply choose_preview_fallback. Qed.

Lemma choose_preview_dump_witness :
  _choose_preview_html lower_library plain_codegen (VList [file "README.md" "# hello"])
  = Ok (VStr (py "<pre>README.md" ++ BACKSLASH_N ++ BACKSLASH_N ++ py "# hello</pre>"),
        VList [file "README.md" "# hello"]).
Proof.
  etransitivity;
    [apply (choose_preview_dump lower_library plain_codegen (file "README.md" "# hello") []);
     vm_compute; reflexivity|].
  vm_compute. reflexivity.
Defined.

(** ** The code generator *)

Section AppFrame.
Context {W : Type} (sid : pystr).

Lemma framed_app_ret {A} (a : A) : framed_app (W:=W) sid (mret a).
Proof. intros s. split; [done|]. by exists []. Qed.

Lemma framed_app_raise {A} e : framed_app (W:=W) (A:=A) sid (raise e).
Proof. intros s. split; [done|]. by exists []. Qed.

Lemma framed_app_lift {A} (r : res A) : framed_app (W:=W) sid (lift r).
Proof. intros s. split; [done|]. by exists []. Qed.

Lemma framed_app_set_preview html : framed_app (W:=W) sid (set_preview html).
Proof. intros s. split; [done|]. by exists []. Qed.

Lemma framed_app_in_handlers {A} (m : M (state W) A) :
  framed sid m -> framed_app sid (in_handlers m).
Proof.
  intros Hm s. unfold in_handlers. destruct (Hm (handlers s)) as (Hs & evs & Hb).
  destruct (m (handlers s)) as [r σ]. cbn [snd handlers] in *. split; [done|]. by exists evs.
Qed.

Lemma framed_app_bind {A B} (m : M (app_state W) A) (f : A -> M (app_state W) B) :
  framed_app sid m -> (forall a, framed_app sid (f a)) -> framed_app sid (m ≫= f).
Proof.
  intros Hm Hf s. unfold mbind, M_bind. destruct (Hm s) as (Hs & evs & Hb).
  destruct (m s) as [[a|e] s1]; cbn [snd] in *.
  - destruct (Hf a s1) as (Hs' & evs' & Hb'). split; [congruence|].
    exists (evs ++ evs'). by rewrite trace_all_app, <- Hb.
  - split; [done|]. by exists evs.
Qed.

Lemma framed_app_try {A} (m : M (app_state W) A) (h : exn -> M (app_state W) A) :
  framed_app sid m -> (forall e, framed_app sid (h e)) -> framed_app sid (try_except m h).
Proof.
  intros Hm Hh s. unfold try_except. destruct (Hm s) as (Hs & evs & Hb).
  destruct (m s) as [[a|e] s1]; cbn [snd] in *.
  - split; [done|]. by exists evs.
  - destruct (Hh e s1) as (Hs' & evs' & Hb'). split; [congruence|].
    exists (evs ++ evs'). by rewrite trace_all_app, <- Hb.
Qed.

End AppFrame.

Lemma framed_code_generate {W} (L : library) (G : codegen_library) (C : client W) req :
  framed_app (str_or (codegen_session_id req) (py "(no-session)")) (code_generate L G C req).
Proof.
  unfold code_generate, codegen_body.
  apply framed_app_try.
  - apply framed_app_bind; [apply framed_app_lift|intros lines].
    apply framed_app_bind; [apply framed_app_in_handlers, framed_trace|intros _].
    apply framed_app_bind; [apply framed_app_in_handlers, framed_call_net|intros resp].
    apply framed_app_bind; [apply framed_app_lift|intros parts].
    apply framed_app_bind; [apply framed_app_lift|intros found].
    apply framed_app_bind; [apply framed_app_lift|intros files].
    destruct (truthy files); [|apply framed_app_raise].
    apply framed_app_bind; [apply framed_app_lift|intros chosen].
    apply framed_app_bind; [apply framed_app_set_preview|intros _].
    apply framed_app_bind; [|intros ?; apply framed_app_lift].
    destruct (codegen_session_id req) as [[|c sid]|]; try apply framed_app_ret.
    apply framed_app_bind; [apply framed_app_lift|intros ops].
    apply framed_app_bind; [apply framed_app_in_handlers, framed_trace|intros _].
    apply framed_app_bind; [apply framed_app_in_handlers, framed_trace|intros _].
    apply framed_app_ret.
  - intros e.
    apply framed_app_bind; [apply framed_app_in_handlers, framed_trace|intros _].
    apply framed_app_raise.
Qed.

(** X22: a code generation request touches its own session only, whatever the
    model answers and whether the request succeeds or fails: it leaves
    the chat histories as they were, every event it emits goes to the
    queue of its session id ([(no-session)] when the request names none),
    and on a sound bus every other session keeps its queue and that
    queue's contents. *)
Theorem code_generate_frame {W} (L : library) (G : codegen_library) (C : client W)
    (req : CodeGenRequest) (s : app_state W) :
  let sid := str_or (codegen_session_id req) (py "(no-session)") in
  let s' := (code_generate L G C req s).2 in
  _SESSIONS (handlers s') = _SESSIONS (handlers s)
  /\ (exists evs, tbus (handlers s') = trace_all sid evs (tbus (handlers s)))
  /\ (bus_wf (tbus (handlers s)) ->
      forall sid' q', sid' ≠ sid -> SESSION_QUEUES (tbus (handlers s)) !! sid' = Some q' ->
        SESSION_QUEUES (tbus (handlers s')) !! sid' = Some q'
        /\ queues (tbus (handlers s')) !! q' = queues (tbus (handlers s)) !! q').
Proof.
  cbn zeta. destruct (framed_code_generate L G C req s) as (Hs & evs & Hb).
  split_and!; [done|by exists evs|].
  intros [Hlt Hinj] sid' q' Hne Hq. rewrite Hb. split.
  - by rewrite trace_all_other_session.
  - apply trace_all_other_queue; [by eauto|].
    intros H. apply Hne. eapply Hinj; eauto.
Qed.

Lemma code_generate_frame_witness :
  let s := {| handlers := initial_state tt (trace (py "other") (py "meta") VNone empty_bus) ∅;
              _PREVIEW_HTML := VStr [] |} in
  let s' := (code_generate lower_library plain_codegen
               (constant_client (text_response (py "Use a table."))) codegen_request s).2 in
  SESSION_QUEUES (tbus (handlers s')) !! py "other" = Some 0%nat
  /\ queues (tbus (handlers s')) !! 0%nat = queues (tbus (handlers s)) !! 0%nat.
Proof.
  cbn zeta.
  apply (proj2 (proj2 (code_generate_frame lower_library plain_codegen
           (constant_client (text_response (py "Use a table."))) codegen_request
           {| handlers := initial_state tt (trace (py "other") (py "meta") VNone empty_bus) ∅;
              _PREVIEW_HTML := VStr [] |}))).
  - apply bus_wf_trace, bus_wf_empty.
  - vm_compute. discriminate.
  - vm_compute. reflexivity.
Defined.

Lemma in_handlers_ok {W A} (m : M (state W) A) (s s' : app_state W) r :
  in_handlers m s = (r, s') -> _PREVIEW_HTML s' = _PREVIEW_HTML s.
Proof.
  unfold in_handlers. destruct (m (handlers s)) as [r0 σ]. intros [= _ <-]. reflexivity.
Qed.

Lemma leftover_keeps v rest : is_stream v = false -> leftover v rest = v.
Proof. destruct v; (discriminate || reflexivity). Qed.

Lemma scan_keeps {A} (test : value -> res (option A)) v r rest :
  is_stream v = false -> scan v test = Ok (r, rest) -> rest = v.
Proof.
  intros Hv. unfold scan. intros H. apply res_bind_ok in H as ([o items] & _ & H).
  cbn [fst snd] in H. destruct o, (iter v).2; try discriminate;
    injection H as _ <-; by apply leftover_keeps.
Qed.

Lemma choose_preview_keeps L G files html rest :
  is_stream files = false ->
  _choose_preview_html L G files = Ok (html, rest) -> rest = files.
Proof.
  intros Hv. unfold _choose_preview_html. intros H.
  apply res_bind_ok in H as ([o1 f1] & H1 & H). apply (scan_keeps _ _ _ _ Hv) in H1 as ->.
  destruct o1; [by injection H as _ <-|].
  apply res_bind_ok in H as ([o2 f2] & H2 & H). apply (scan_keeps _ _ _ _ Hv) in H2 as ->.
  destruct o2; [by injection H as _ <-|].
  apply res_bind_ok in H as ([o3 f3] & H3 & H). apply (scan_keeps _ _ _ _ Hv) in H3 as ->.
  destruct o3; [by injection H as _ <-|].
  destruct (truthy files); [|by injection H as _ <-].
  apply res_bind_ok in H as (first & _ & H).
  apply res_bind_ok in H as (p & _ & H).
  apply res_bind_ok in H as (c & _ & H). by injection H as _ <-.
Qed.

Lemma ops_of_keeps files ops rest :
  is_stream files = false -> ops_of files = Ok (ops, rest) -> rest = files.
Proof.
  intros Hv. unfold ops_of. intros H. apply res_bind_ok in H as (r & _ & H).
  destruct (iter files).2; [discriminate|]. injection H as _ <-. by apply leftover_keeps.
Qed.

Lemma codegen_body_ok {W} (L : library) (G : codegen_library) (C : client W) req
    (s s' : app_state W) resp :
  codegen_body L G C req s = (Ok resp, s') ->
  exists files rest checked,
    truthy files = true
    /\ _choose_preview_html L G files = Ok (_PREVIEW_HTML s', rest)
    /\ check_files G checked = Ok resp
    /\ (is_stream files = false -> checked = files).
Proof.
  unfold codegen_body. intros H.
  skip_step H. skip_step H. skip_step H. skip_step H. skip_step H.
  apply bind_ok in H as (files & s1 & _ & H).
  destruct (truthy files) eqn:Ht; [|discriminate].
  apply bind_ok in H as ([html rest] & s2 & Hc & H). apply lift_ok in Hc as [Hc ->].
  apply bind_ok in H as ([] & s3 & Hp & H). injection Hp as <-.
  apply bind_ok in H as (checked & s4 & Hf & H). apply lift_ok in H as [H ->].
  exists files, rest, checked. cbn [fst snd] in Hf.
  assert (_PREVIEW_HTML s4 = html /\ (is_stream files = false -> checked = files))
    as [-> Hk]; [|by rewrite Hc].
  destruct (codegen_session_id req) as [[|c sid]|].
  - injection Hf as -> <-. split; [done|]. intros Hs. eapply choose_preview_keeps; eauto.
  - apply bind_ok in Hf as ([ops rest'] & s5 & Ho & Hf). apply lift_ok in Ho as [Ho ->].
    apply bind_ok in Hf as ([] & s6 & H6 & Hf). apply in_handlers_ok in H6.
    apply bind_ok in Hf as ([] & s7 & H7 & Hf). apply in_handlers_ok in H7.
    injection Hf as <- <-. cbn [fst snd] in *. split; [by rewrite H7, H6|].
    intros Hs. pose proof (choose_preview_keeps _ _ _ _ _ Hs Hc) as ->.
    eapply ops_of_keeps; eauto.
  - injection Hf as -> <-. split; [done|]. intros Hs. eapply choose_preview_keeps; eauto.
Qed.

(** X23: [code_generate] ends in one of two ways.  Either it returns, and then
    the files it settled on are truthy, the stored preview is what
    [_choose_preview_html] chose for them, and the response is the
    validated file list.  Or it answers with status 500 after pushing an
    [error] event: the status 502 that the handler raises for a reply
    without files or text is caught by its own [except] clause and never
    reaches the caller. *)
Theorem code_generate_outcome {W} (L : library) (G : codegen_library) (C : client W)
    (req : CodeGenRequest) (s : app_state W) :
  match code_generate L G C req s with
  | (Ok resp, s') =>
      exists files rest checked,
        truthy files = true
        /\ _choose_preview_html L G files = Ok (_PREVIEW_HTML s', rest)
        /\ check_files G checked = Ok resp
        /\ (is_stream files = false -> checked = files)
  | (Raise e, s') =>
      exists cause b,
        e = HTTPException 500 (exn_str cause)
        /\ tbus (handlers s')
           = trace (str_or (codegen_session_id req) (py "(no-session)")) (py "error")
               (error_payload "code_generate" cause) b
  end.
Proof.
  unfold code_generate, try_except.
  destruct (codegen_body L G C req s) as [[resp|e] s1] eqn:E.
  - by apply codegen_body_ok in E.
  - cbn. exists e, (tbus (handlers s1)). split; reflexivity.
Qed.

Lemma bind_run {S A B} (m : M S A) (f : A -> M S B) s a s1 :
  m s = (Ok a, s1) -> (m ≫= f) s = f a s1.
Proof. unfold mbind, M_bind. intros ->. reflexivity. Qed.

Lemma lift_run {S A} (r : res A) a (s : S) : r = Ok a -> lift r s = (Ok a, s).
Proof. intros ->. reflexivity. Qed.

Lemma emitted_files_none p : no_emit_files p = true -> emitted_files p = Ok None.
Proof.
  destruct p as [| | | | |l|d|]; try discriminate. unfold emitted_files, get, get_default.
  cbn [no_emit_files]. destruct (lookup_key (py "toolUse") d) as [tu|]; [|reflexivity].
  cbn [default mbind res_bind]. unfold id.
  destruct tu as [| | | | |l|tu|]; intros H;
    try (apply negb_true_iff in H; rewrite H; reflexivity).
  destruct (truthy (VDict tu)); [|reflexivity]. cbn [negb orb] in H.
  cbn [mbind res_bind]. apply negb_true_iff in H. unfold id in *. rewrite H. reflexivity.
Qed.

Lemma emitted_files_invoked p files :
  invokes_emit_files p files -> emitted_files p = Ok (Some files).
Proof.
  intros (d & tu & inp & -> & Htu & Hname & Hinp & Hfiles).
  unfold emitted_files, get, get_default. rewrite Htu. cbn [default mbind res_bind]. unfold id.
  destruct tu as [|kv tu]; [discriminate|]. cbn [truthy]. rewrite Hname, Hinp.
  cbn [default mbind res_bind is_str]. unfold id.
  rewrite bool_decide_eq_true_2 by reflexivity.
  destruct inp as [|kv' inp]; [discriminate|]. unfold value_or. cbn [truthy].
  rewrite Hfiles. reflexivity.
Qed.

Lemma scan_no_emit_files parts :
  forallb no_emit_files parts = true ->
  scan (VList parts) emitted_files = Ok (None, VList parts).
Proof.
  intros H. apply scan_list_none. rewrite forallb_forall in H.
  apply List.Forall_forall. intros g Hg. by apply emitted_files_none, H.
Qed.

Lemma update_ops_dicts fs :
  forallb is_dict fs = true -> exists ops, update_ops fs = Ok ops.
Proof.
  induction fs as [|f fs IH]; [by exists []|].
  cbn [forallb]. intros H. apply andb_prop in H as [Hf Hfs].
  destruct (IH Hfs) as (ops & Ho). destruct f; try discriminate.
  cbn [update_ops]. unfold get, get_default. cbn. rewrite Ho. cbn. eauto.
Qed.

Lemma file_entry_is_dict f : file_entry f = true -> is_dict f = true.
Proof. by destruct f. Qed.

(** The steps of [codegen_body] up to the files it settles on. *)
Ltac codegen_prefix Hl Hc Hp Hscan Hfiles lines found files :=
  unfold codegen_body; unfold codegen_call in Hc;
  (erewrite bind_run; [|by apply lift_run]);
  (erewrite bind_run; [|reflexivity]);
  (erewrite bind_run;
    [|unfold in_handlers, call_net; cbn [handlers net tbus]; rewrite Hc; reflexivity]);
  (erewrite bind_run; [|by apply lift_run]);
  (erewrite (bind_run _ _ _ found); [|by apply lift_run]);
  (erewrite (bind_run _ _ _ files); [|by apply lift_run]).

Lemma codegen_body_files {W} (L : library) (G : codegen_library) (C : client W) req
    (s : app_state W) lines resp w' parts found f fs :
  prompt_lines G req = Ok lines ->
  codegen_call L C lines (net (handlers s)) = (Ok resp, w') ->
  response_parts resp = Ok parts ->
  scan parts emitted_files = Ok found ->
  files_or_text (default (VList []) found.1) found.2 = Ok (VList (f :: fs)) ->
  forallb file_entry (f :: fs) = true ->
  exists html s',
    _choose_preview_html L G (VList (f :: fs)) = Ok (html, VList (f :: fs))
    /\ code_generate L G C req s = (validated G (VList (f :: fs)), s')
    /\ _PREVIEW_HTML s' = html.
Proof.
  intros Hl Hc Hp Hscan Hfiles Hf.
  destruct (choose_preview_entries L G _ Hf) as (html & Hh & _).
  destruct (update_ops_dicts (f :: fs)) as (ops & Ho).
  { rewrite forallb_forall in *. intros g Hg. by apply file_entry_is_dict, Hf. }
  assert (ops_of (VList (f :: fs)) = Ok (ops, VList (f :: fs))) as Hops.
  { unfold ops_of. cbn [iter fst snd]. rewrite Ho. reflexivity. }
  exists html.
  assert (exists s1, codegen_body L G C req s = (check_files G (VList (f :: fs)), s1)
                     /\ _PREVIEW_HTML s1 = html) as (s1 & Hbody & Hs1).
  { destruct (codegen_session_id req) as [[|c sid]|] eqn:Es; eexists;
      codegen_prefix Hl Hc Hp Hscan Hfiles lines found (VList (f :: fs));
      cbn [truthy];
      (erewrite bind_run; [|by apply lift_run]);
      (erewrite bind_run; [|reflexivity]);
      cbn [fst snd]; rewrite ?Es.
    - erewrite bind_run; [|reflexivity]. split; reflexivity.
    - erewrite bind_run;
        [|erewrite bind_run; [|by apply lift_run]; reflexivity].
      split; reflexivity.
    - erewrite bind_run; [|reflexivity]. split; reflexivity. }
  unfold code_generate, try_except, validated. rewrite Hbody.
  destruct (check_files G (VList (f :: fs))) as [out|e].
  - exists s1. auto.
  - eexists. split_and!; [exact Hh|reflexivity|exact Hs1].
Qed.

(** X24: [code_generate] on a reply that invokes [emit_files].  When the
    first content part that invokes [emit_files] carries a non-empty list
    of file entries (the parts before it are mappings that invoke no tool
    or another tool; every mapping may hold further keys), the stored
    preview becomes what [_choose_preview_html] chooses for that list, and
    the answer is the validated list; when the validation fails the
    answer is status 500, and the preview has been replaced all the
    same. *)
Theorem code_generate_emitted_files {W} (L : library) (G : codegen_library) (C : client W)
    (req : CodeGenRequest) (s : app_state W) lines resp w' before p after f fs :
  prompt_lines G req = Ok lines ->
  codegen_call L C lines (net (handlers s)) = (Ok resp, w') ->
  response_parts resp = Ok (VList (before ++ p :: after)) ->
  forallb no_emit_files before = true ->
  invokes_emit_files p (VList (f :: fs)) ->
  forallb file_entry (f :: fs) = true ->
  exists html s',
    _choose_preview_html L G (VList (f :: fs)) = Ok (html, VList (f :: fs))
    /\ code_generate L G C req s = (validated G (VList (f :: fs)), s')
    /\ _PREVIEW_HTML s' = html.
Proof.
  intros Hl Hc Hp Hb Hi Hf.
  eapply (codegen_body_files L G C req s lines resp w' _ (Some (VList (f :: fs)), _));
    [exact Hl|exact Hc|exact Hp| |reflexivity|exact Hf].
  apply scan_list_first; [|by apply emitted_files_invoked].
  rewrite forallb_forall in Hb. apply List.Forall_forall. intros g Hg.
  by apply emitted_files_none, Hb.
Qed.

Lemma code_generate_emitted_files_witness :
  exists html s',
    _choose_preview_html lower_library plain_codegen (VList [file "index.html" "<h1>hi</h1>"])
    = Ok (html, VList [file "index.html" "<h1>hi</h1>"])
    /\ code_generate lower_library plain_codegen
         (constant_client (files_response (VList [file "index.html" "<h1>hi</h1>"])))
         codegen_request fresh_app
       = (validated plain_codegen (VList [file "index.html" "<h1>hi</h1>"]), s')
    /\ _PREVIEW_HTML s' = html.
Proof.
  apply (code_generate_emitted_files lower_library plain_codegen
           (constant_client (files_response (VList [file "index.html" "<h1>hi</h1>"])))
           codegen_request fresh_app [py "make a page"]
           (files_response (VList [file "index.html" "<h1>hi</h1>"])) tt
           [text_block "Here you go.";
            tool_use "search" (VDict [(py "query", VStr (py "layout"))])]
           (tool_use "emit_files" (VDict [(py "files", VList [file "index.html" "<h1>hi</h1>"])]))
           [] (file "index.html" "<h1>hi</h1>") []);
    try (vm_compute; reflexivity).
  eexists _, _, _. split_and!; reflexivity.
Defined.

Lemma silent_no_emit_files p : silent_part p = true -> no_emit_files p = true.
Proof. unfold silent_part. intros H. by apply andb_prop in H as [H _]. Qed.

Lemma text_items_silent parts :
  forallb silent_part parts = true -> text_items parts = Ok [].
Proof.
  induction parts as [|p parts IH]; [reflexivity|].
  cbn [forallb]. intros H. apply andb_prop in H as [Hp Hps].
  unfold silent_part in Hp. apply andb_prop in Hp as [_ Ht].
  destruct p as [| | | | |l|d|]; try discriminate.
  cbn [text_items]. unfold get, get_default. cbn [mbind res_bind].
  destruct (lookup_key (py "text") d) as [t|]; cbn [default opt_truthy truthy] in *.
  - apply negb_true_iff in Ht. unfold id. rewrite Ht. by apply IH.
  - by apply IH.
Qed.

(** X25: [code_generate] on a reply that neither invokes [emit_files] nor
    holds text: the handler raises its status 502, catches it itself and
    answers with status 500, whose detail is the text of the caught error
    (the status 502 and its detail); the stored preview is unchanged. *)
Theorem code_generate_silent_reply {W} (L : library) (G : codegen_library) (C : client W)
    (req : CodeGenRequest) (s : app_state W) lines resp w' parts :
  prompt_lines G req = Ok lines ->
  codegen_call L C lines (net (handlers s)) = (Ok resp, w') ->
  response_parts resp = Ok (VList parts) ->
  forallb silent_part parts = true ->
  exists s',
    code_generate L G C req s
    = (Raise (HTTPException 500 (py "502: Model did not return files or text.")), s')
    /\ _PREVIEW_HTML s' = _PREVIEW_HTML s.
Proof.
  intros Hl Hc Hp Hs.
  assert (scan (VList parts) emitted_files = Ok (None, VList parts)) as Hscan.
  { apply scan_no_emit_files. rewrite forallb_forall in *. intros g Hg.
    by apply silent_no_emit_files, Hs. }
  assert (files_or_text (default (VList []) (@None value, VList parts).1)
            (@None value, VList parts).2
          = Ok (VList [])) as Hfiles.
  { unfold files_or_text, text_parts. cbn [fst snd default truthy iter].
    rewrite (text_items_silent _ Hs). reflexivity. }
  eexists. unfold code_generate, try_except.
  codegen_prefix Hl Hc Hp Hscan Hfiles lines (@None value, VList parts) (VList []).
  split; reflexivity.
Qed.

Lemma code_generate_silent_reply_witness :
  exists s',
    code_generate lower_library plain_codegen
      (constant_client (bedrock_response
         [text_block ""; tool_use "search" (VDict [(py "query", VStr (py "layout"))])]))
      codegen_request fresh_app
    = (Raise (HTTPException 500 (py "502: Model did not return files or text.")), s')
    /\ _PREVIEW_HTML s' = _PREVIEW_HTML fresh_app.
Proof.
  apply (code_generate_silent_reply lower_library plain_codegen
           (constant_client (bedrock_response
              [text_block ""; tool_use "search" (VDict [(py "query", VStr (py "layout"))])]))
           codegen_request fresh_app [py "make a page"]
           (bedrock_response
              [text_block ""; tool_use "search" (VDict [(py "query", VStr (py "layout"))])])
           tt [text_block ""; tool_use "search" (VDict [(py "query", VStr (py "layout"))])]);
    vm_compute; reflexivity.
Defined.

Lemma choose_preview_output_file L G text :
  str_lower L (py "OUTPUT.txt") = py "output.txt" ->
  _choose_preview_html L G (VList [output_file text])
  = Ok (VStr (py "<pre>OUTPUT.txt" ++ BACKSLASH_N ++ BACKSLASH_N ++ text ++ py "</pre>"),
        VList [output_file text]).
Proof.
  intros Hlow. rewrite choose_preview_fallback; [reflexivity|reflexivity| | |].
  - unfold index_page. cbn [forallb]. change (path_of (output_file text)) with (py "OUTPUT.txt").
    rewrite Hlow. reflexivity.
  - unfold component. cbn [forallb].
    change (last_segment (path_of (output_file text))) with (py "OUTPUT.txt").
    rewrite Hlow. reflexivity.
  - unfold html_page. cbn [forallb]. change (path_of (output_file text)) with (py "OUTPUT.txt").
    rewrite Hlow. reflexivity.
Qed.

(** X26: [code_generate] on a reply that holds text and no invocation of
    [emit_files]: the text parts, joined by newlines and stripped, become
    the single file [OUTPUT.txt], which is the answer once validated, and
    the stored preview is the dump of that file.  The reply may hold any
    number of parts and any further keys. *)
Theorem code_generate_text_reply {W} (L : library) (G : codegen_library) (C : client W)
    (req : CodeGenRequest) (s : app_state W) lines resp parts c r w' :
  str_lower L (py "OUTPUT.txt") = py "output.txt" ->
  prompt_lines G req = Ok lines ->
  codegen_call L C lines (net (handlers s)) = (Ok resp, w') ->
  response_parts resp = Ok (VList parts) ->
  forallb no_emit_files parts = true ->
  reply_text resp = Ok (c :: r) ->
  exists s',
    code_generate L G C req s = (validated G (VList [output_file (c :: r)]), s')
    /\ _PREVIEW_HTML s'
       = VStr (py "<pre>OUTPUT.txt" ++ BACKSLASH_N ++ BACKSLASH_N ++ c :: r ++ py "</pre>").
Proof.
  intros Hlow Hl Hc Hp Hn Ht.
  destruct (codegen_body_files L G C req s lines resp w' (VList parts)
              (None, VList parts) (output_file (c :: r)) [] Hl Hc Hp)
    as (html & s' & Hh & Hrun & Hprev).
  - by apply scan_no_emit_files.
  - unfold reply_text in Ht. rewrite Hp in Ht. cbn [mbind res_bind] in Ht.
    unfold files_or_text. cbn [fst snd default truthy].
    destruct (text_parts (VList parts)) as [texts|e]; [|discriminate].
    cbn [mbind res_bind] in *.
    destruct (join_values NL texts) as [joined|e]; [|discriminate].
    cbn [mbind res_bind] in *. injection Ht as ->. reflexivity.
  - reflexivity.
  - exists s'. split; [exact Hrun|]. rewrite Hprev.
    rewrite (choose_preview_output_file L G (c :: r) Hlow) in Hh. by injection Hh as <-.
Qed.

Lemma code_generate_text_reply_witness :
  exists s',
    code_generate lower_library plain_codegen
      (constant_client (bedrock_response [text_block "  Use a table."; text_block "Or a list.  "]))
      codegen_request fresh_app
    = (validated plain_codegen
         (VList [output_file (py "Use a table." ++ NL ++ py "Or a list.")]), s')
    /\ _PREVIEW_HTML s'
       = VStr (py "<pre>OUTPUT.txt" ++ BACKSLASH_N ++ BACKSLASH_N
               ++ (py "Use a table." ++ NL ++ py "Or a list.") ++ py "</pre>").
Proof.
  apply (code_generate_text_reply lower_library plain_codegen
           (constant_client
              (bedrock_response [text_block "  Use a table."; text_block "Or a list.  "]))
           codegen_request fresh_app [py "make a page"]
           (bedrock_response [text_block "  Use a table."; text_block "Or a list.  "])
           [text_block "  Use a table."; text_block "Or a list.  "]
           85%N (py "se a table." ++ NL ++ py "Or a list.") tt);
    vm_compute; reflexivity.
Defined.
